(** * ChainPlusTrader: the trade execution core, embedded and verified

    This development embeds the server side of the repository
      - [server/utils/retry.ts]          (module [Retry])
      - [server/dex/uniswapV3Client.ts]  (module [UniswapV3])
      - [server/dex/jupiterClient.ts]    (module [Jupiter])
      - [server/priceService.ts]         (module [PriceService])
      - [server/tradingService.ts]       (module [TradingService])
      - [server/storage.ts]              (module [Storage])
      - [server/botScheduler.ts]         (module [BotScheduler])
      - [server/routes.ts]               (module [Routes], the handlers
                                          that change something)
    and states the properties of the specification over it.

    Modelling conventions.
      - A JavaScript [number] is a rational ([Q]), its exact value;
        [Math.floor], [Math.round] and [toFixed] are the exact functions of
        ECMAScript applied to that value.  The products of the Solana path
        are those of IEEE doubles ([Js.mul]); the other arithmetic is exact.
        [NaN] and the infinities are outside the model (division by zero is
        [0] in [Q]).
      - A decimal string (the result of [toFixed], a [decimal] column of the
        database) is a [Numeral]: its digits and the number of them after the
        point.
      - An [async] function is a computation [M A]: it reads and changes the
        outside world [W] (RPC nodes, HTTP services), returns or throws, and
        leaves a list of the events it caused.
      - The database is an in-memory store.  Each statement is a transaction
        of its own.  The insert of a config, and of the log of a manual
        trade, is refused when a value does not fit its [decimal] or
        [varchar] column; the other writes are stated for values that fit
        ([Storage.logTaken], [Storage.logUpdateTaken],
        [Storage.statusUpdateTaken]).
      - The executions of the scheduler's ticks interleave at their [await]s
        ([BotScheduler.step]); a handler of a request is followed from its
        start to its end. *)

From stdpp Require Import base option list gmap strings pretty sorting.
From Stdlib Require Import ZArith QArith Qabs Qminmax Qround Lia.
From Stdlib Require Import String Ascii.
From Stdlib Require Import Qpower Permutation Lqa.

Local Open Scope string_scope.
Local Open Scope list_scope.

(** ** JavaScript values *)

Module Js.

Definition number := Q.

(** [c.toLowerCase()] on an ASCII character. *)
Definition lowerAscii (c : ascii) : ascii :=
  let n := nat_of_ascii c in
  if (65 <=? n)%nat && (n <=? 90)%nat then ascii_of_nat (n + 32) else c.

Fixpoint toLowerCase (s : string) : string :=
  match s with
  | EmptyString => EmptyString
  | String c s' => String (lowerAscii c) (toLowerCase s')
  end.

(** [s.includes(sub)] *)
Fixpoint includes (s sub : string) : bool :=
  String.prefix sub s ||
  match s with
  | EmptyString => false
  | String _ s' => includes s' sub
  end.

(** Truthiness of a string: only the empty string is falsy. *)
Definition truthy (s : string) : bool := negb (String.eqb s "").

(** Truthiness of an optional string ([undefined] is falsy). *)
Definition truthyOpt (o : option string) : bool :=
  match o with Some s => truthy s | None => false end.

(** [Math.floor] *)
Definition floor (x : number) : Z := Qfloor x.

(** [Math.round]: the nearest integer, halves towards plus infinity. *)
Definition round (x : number) : Z := Qfloor (x + (1 # 2)).

(** A decimal string: [unscaled] written with [scale] digits after the
    point, so that ["0.000005"] is [{| unscaled := 5; scale := 6 |}]. *)
Record Numeral := { unscaled : Z; scale : nat }.

Definition pow10 (n : nat) : Z := 10 ^ Z.of_nat n.

(** [x.toFixed(digits)]: the integer [n] with [n / 10^digits] nearest to
    [x], the larger one on a tie, computed on the absolute value. *)
Definition toFixed (x : number) (digits : nat) : Numeral :=
  let scaled := (Qabs x * inject_Z (pow10 digits))%Q in
  let n := Qfloor (scaled + (1 # 2)) in
  {| unscaled := if Qle_bool 0 x then n else (- n)%Z; scale := digits |}.

(** [parseFloat(s)] on a decimal string. *)
Definition parseFloat (s : Numeral) : number :=
  (inject_Z (unscaled s) / inject_Z (pow10 (scale s)))%Q.

(** [x > y] *)
Definition gtb (x y : number) : bool := negb (Qle_bool x y).

(** The exponent [e] with [2^e <= a < 2^(e+1)], for [a > 0]. *)
Definition binade (a : number) : Z :=
  let e := (Z.log2 (Qnum a) - Z.log2 (Zpos (Qden a)))%Z in
  if Qle_bool (2 ^ e) a then e else (e - 1)%Z.

(** The nearest integer, the even one on a tie. *)
Definition roundHalfEven (m : number) : Z :=
  let n := Qfloor m in
  match Qcompare (m - inject_Z n) (1 # 2) with
  | Lt => n
  | Gt => (n + 1)%Z
  | Eq => if Z.even n then n else (n + 1)%Z
  end.

(** The IEEE 754 double nearest to [x] (53 bits, round to nearest, ties to
    even, subnormal below [2^-1022]).  It is the double that JavaScript has
    for [x] as long as the result is finite, that is, for [x] of magnitude
    below [2^1024]. *)
Definition double (x : number) : number :=
  if Qeq_bool x 0 then 0
  else
    let a := Qabs x in
    let ulp := (2 ^ (Z.max (binade a) (-1022) - 52))%Q in
    let y := Qred (inject_Z (roundHalfEven (a / ulp)) * ulp) in
    if Qle_bool 0 x then y else (- y)%Q.

(** [x * y] on doubles: the double nearest to the product of the doubles
    of [x] and [y]. *)
Definition mul (x y : number) : number := double (double x * double y).

(** The property names of [Object.prototype], which every object literal
    inherits: [o[key]] is a function, or for ['__proto__'] the prototype
    itself, and so is truthy, for each of them that [o] does not define. *)
Definition objectPrototype : list string :=
  ["constructor"; "__defineGetter__"; "__defineSetter__"; "hasOwnProperty";
   "__lookupGetter__"; "__lookupSetter__"; "isPrototypeOf"; "propertyIsEnumerable";
   "toString"; "valueOf"; "__proto__"; "toLocaleString"].

Definition inherited (key : string) : bool :=
  existsb (String.eqb key) objectPrototype.

(** The characters of a decimal string. *)
Definition renderNumeral (s : Numeral) : string :=
  let m := Z.abs_N (unscaled s) in
  let p := Z.to_N (pow10 (scale s)) in
  let frac := pretty (m mod p)%N in
  (if (unscaled s <? 0)%Z then "-" else "") ++ pretty (m / p)%N ++
  (if Nat.eqb (scale s) 0 then ""
   else "." ++ String.concat "" (List.repeat "0" (scale s - String.length frac)) ++ frac).

(** A thrown [Error] object. *)
Record Error := { name : string; message : string }.

(** [String(error)] for an [Error]: the name alone when the message is
    empty. *)
Definition toString (e : Error) : string :=
  if String.eqb (message e) "" then name e
  else if String.eqb (name e) "" then message e
  else name e ++ ": " ++ message e.

End Js.

(** ** shared/schema.ts and the adapter interfaces *)

Module Schema.

Inductive NetworkType := ETH | BASE | BNB | SOL.

Definition networkName (n : NetworkType) : string :=
  match n with ETH => "ETH" | BASE => "BASE" | BNB => "BNB" | SOL => "SOL" end.

(** A string of the database read at type [NetworkType]. *)
Definition parseNetwork (s : string) : option NetworkType :=
  if String.eqb s "ETH" then Some ETH
  else if String.eqb s "BASE" then Some BASE
  else if String.eqb s "BNB" then Some BNB
  else if String.eqb s "SOL" then Some SOL
  else None.

Definition isEvm (n : NetworkType) : bool :=
  match n with SOL => false | _ => true end.

End Schema.

Module Dex.

(** A [Web3] instance and a Solana [Connection], known by their endpoint. *)
Record Web3 := { rpcUrl : string }.
Record Connection := { endpoint : string }.

Inductive EvmAdapter := UniswapV2 | UniswapV3 | PancakeSwapV2.

(** [UniswapSwapParams], [UniswapV3SwapParams]; [PancakeSwapParams] is the
    same without [network].  [amountETH] is the decimal string of a number
    and is kept as that number. *)
Record EvmSwapParams := {
  web3 : Web3;
  network : Schema.NetworkType;
  tokenAddress : string;
  amountETH : Js.number;
  slippageTolerance : Js.number;
  walletAddress : string;
  privateKey : string;
  nativeTokenPriceUsd : Js.number
}.

Record JupiterSwapParams := {
  connection : Connection;
  tokenMint : string;
  amountSOL : Js.number;
  slippageBps : Z;
  j_walletAddress : string;
  j_privateKey : string;
  solPriceUsd : Js.number
}.

(** [TradeResult] and the four adapter results, which have its shape. *)
Record TradeResult := {
  success : bool;
  txHash : option string;
  tokenAmount : option Js.Numeral;
  gasFee : option Js.Numeral;
  gasFeeUsd : option Js.Numeral;
  tokenPrice : option Js.Numeral;
  slippage : option Js.Numeral;
  errorMessage : option string
}.

(** [{ success: false, errorMessage }] *)
Definition failure (msg : string) : TradeResult := {|
  success := false; txHash := None; tokenAmount := None; gasFee := None;
  gasFeeUsd := None; tokenPrice := None; slippage := None;
  errorMessage := Some msg
|}.

(** The struct of [exactInputSingle]. *)
Record ExactInputSingleParams := {
  tokenIn : string;
  tokenOut : string;
  fee : Z;
  recipient : string;
  amountIn : Z;
  amountOutMinimum : Z;
  sqrtPriceLimitX96 : Z
}.

(** [QuoteGetRequest] of the Jupiter API. *)
Record QuoteGetRequest := {
  inputMint : string;
  outputMint : string;
  amount : Z;
  q_slippageBps : Z
}.

End Dex.

(** ** Asynchronous computations *)

Module Async.

(** What a computation leaves behind for an observer. *)
Inductive Event :=
| Attempt                                  (* the retry engine calls the wrapped operation *)
| Sleep (ms : Js.number)                   (* a setTimeout wait *)
| GasPriceQuery (n : Schema.NetworkType)   (* web3.eth.getGasPrice of the gas pre-check *)
| QuoteTier (fee : Z)                      (* quoter.quoteExactInputSingle for one fee tier *)
| SendSwap (p : Dex.ExactInputSingleParams)  (* a signed exactInputSingle is submitted *)
| JupiterQuote (q : Dex.QuoteGetRequest)   (* jupiterApi.quoteGet *)
| InvokeEvm (a : Dex.EvmAdapter) (p : Dex.EvmSwapParams)  (* <adapter>.executeSwap(p) *)
| InvokeJupiter (p : Dex.JupiterSwapParams)               (* jupiterClient.executeSwap(p) *)
| Broadcast (userId : string) (type : string).            (* broadcaster(userId, { type }) *)

Inductive Outcome (A : Type) :=
| Returned (a : A)
| Thrown (e : Js.Error).
Arguments Returned {A} a.
Arguments Thrown {A} e.

Record Run (W A : Type) := MkRun {
  outcome : Outcome A;
  world : W;
  events : list Event
}.
Arguments MkRun {W A}.
Arguments outcome {W A}.
Arguments world {W A}.
Arguments events {W A}.

Definition M (W A : Type) := W -> Run W A.

Section Monad.
Context {W : Type}.

Definition ret {A} (a : A) : M W A := fun w => MkRun (Returned a) w [].

Definition throw {A} (e : Js.Error) : M W A := fun w => MkRun (Thrown e) w [].

Definition bind {A B} (m : M W A) (f : A -> M W B) : M W B :=
  fun w =>
    let r := m w in
    match outcome r with
    | Returned a =>
        let r' := f a (world r) in
        MkRun (outcome r') (world r') (events r ++ events r')
    | Thrown e => MkRun (Thrown e) (world r) (events r)
    end.

(** [try { m } catch (error) { handler error }] *)
Definition tryCatch {A} (m : M W A) (handler : Js.Error -> M W A) : M W A :=
  fun w =>
    let r := m w in
    match outcome r with
    | Returned a => r
    | Thrown e =>
        let r' := handler e (world r) in
        MkRun (outcome r') (world r') (events r ++ events r')
    end.

Definition emit (ev : Event) : M W unit := fun w => MkRun (Returned tt) w [ev].

(** An external call: the world answers and moves on. *)
Definition call {A} (oracle : W -> Outcome A * W) : M W A :=
  fun w => MkRun (fst (oracle w)) (snd (oracle w)) [].

(** A synchronous library function that may throw. *)
Definition lift {A} (o : Outcome A) : M W A := fun w => MkRun o w [].

End Monad.

(** Every value that [m] returns satisfies [P]. *)
Definition returns {W A} (m : M W A) (P : A -> Prop) : Prop :=
  forall w a, outcome (m w) = Returned a -> P a.

(** Every event that [m] causes satisfies [Q]. *)
Definition emits {W A} (m : M W A) (Q : Event -> Prop) : Prop :=
  forall w, Forall Q (events (m w)).

Declare Scope async_scope.
Delimit Scope async_scope with async.
Notation "x <- m ;; k" := (bind m (fun x => k))
  (at level 100, m at next level, right associativity) : async_scope.
Notation "m ;;; k" := (bind m (fun _ => k))
  (at level 100, right associativity) : async_scope.

End Async.

Import Async.
Local Open Scope async_scope.

(** ** server/utils/retry.ts *)

Module Retry.

Record RetryOptions := {
  maxRetries : option nat;
  initialDelayMs : option Js.number;
  maxDelayMs : option Js.number;
  backoffMultiplier : option Js.number;
  retryableErrors : option (list string);
  network : option string
}.

(** [Required<Omit<RetryOptions, 'network'>>] *)
Record Profile := {
  p_maxRetries : nat;
  p_initialDelayMs : Js.number;
  p_maxDelayMs : Js.number;
  p_backoffMultiplier : Js.number;
  p_retryableErrors : list string
}.

Definition DEFAULT_OPTIONS : Profile := {|
  p_maxRetries := 3;
  p_initialDelayMs := 1000;
  p_maxDelayMs := 10000;
  p_backoffMultiplier := 2;
  p_retryableErrors :=
    ["429"; "rate limit"; "too many requests"; "ECONNRESET"; "ETIMEDOUT"; "ENOTFOUND"]
|}.

Definition BASE_NETWORK_OPTIONS : Profile := {|
  p_maxRetries := 5;
  p_initialDelayMs := 2500;
  p_maxDelayMs := 20000;
  p_backoffMultiplier := 5 # 2;
  p_retryableErrors :=
    ["429"; "rate limit"; "too many requests"; "ECONNRESET"; "ETIMEDOUT"; "ENOTFOUND"]
|}.

(** The empty options object [{}]. *)
Definition noOptions : RetryOptions := {|
  maxRetries := None; initialDelayMs := None; maxDelayMs := None;
  backoffMultiplier := None; retryableErrors := None; network := None
|}.

(** [{ network }] *)
Definition forNetwork (n : string) : RetryOptions := {|
  maxRetries := None; initialDelayMs := None; maxDelayMs := None;
  backoffMultiplier := None; retryableErrors := None; network := Some n
|}.

(** [{ ...baseOptions, ...options }] *)
Definition spread (baseOptions : Profile) (options : RetryOptions) : Profile := {|
  p_maxRetries := default (p_maxRetries baseOptions) (maxRetries options);
  p_initialDelayMs := default (p_initialDelayMs baseOptions) (initialDelayMs options);
  p_maxDelayMs := default (p_maxDelayMs baseOptions) (maxDelayMs options);
  p_backoffMultiplier := default (p_backoffMultiplier baseOptions) (backoffMultiplier options);
  p_retryableErrors := default (p_retryableErrors baseOptions) (retryableErrors options)
|}.

Definition resolve (options : RetryOptions) : Profile :=
  let baseOptions :=
    match network options with
    | Some n => if String.eqb n "BASE" then BASE_NETWORK_OPTIONS else DEFAULT_OPTIONS
    | None => DEFAULT_OPTIONS
    end in
  spread baseOptions options.

(** [String(error?.message || error).toLowerCase()] *)
Definition errorString (error : Js.Error) : string :=
  Js.toLowerCase
    (if Js.truthy (Js.message error) then Js.message error else Js.toString error).

Definition isRetryableError (error : Js.Error) (retryableErrors : list string) : bool :=
  existsb (fun retryableError =>
             Js.includes (errorString error) (Js.toLowerCase retryableError))
          retryableErrors.

Section Loop.
Context {W T : Type}.
Variable fn : M W T.
Variable opts : Profile.

(** The [for (attempt = 0; attempt <= maxRetries; attempt++)] loop;
    [left] counts the iterations that remain after the current one.  When
    none remains the loop ends and [lastError], the error just caught, is
    thrown. *)
Fixpoint loop (left attempt : nat) (delayMs : Js.number) : M W T :=
  tryCatch (emit Attempt ;;; fn)
    (fun error =>
       if (attempt =? p_maxRetries opts)%nat
          || negb (isRetryableError error (p_retryableErrors opts))
       then throw error
       else
         match left with
         | O => throw error
         | S left' =>
             emit (Sleep delayMs) ;;;
             loop left' (S attempt)
                  (Qmin (delayMs * p_backoffMultiplier opts) (p_maxDelayMs opts))
         end).
End Loop.

Definition retryWithBackoff {W T} (fn : M W T) (options : RetryOptions) : M W T :=
  let opts := resolve options in
  loop fn opts (p_maxRetries opts) 0 (p_initialDelayMs opts).

(** Number of times the wrapped operation was called. *)
Definition isAttempt (ev : Event) : bool :=
  match ev with Attempt => true | _ => false end.

Definition attempts (evs : list Event) : nat :=
  List.length (List.filter isAttempt evs).

(** The world before the [i]-th consecutive call of [fn] (from 0), and
    what that call does. *)
Definition nthWorld {W T} (fn : M W T) (w : W) (i : nat) : W :=
  Nat.iter i (fun w' => world (fn w')) w.

Definition nthOutcome {W T} (fn : M W T) (w : W) (i : nat) : Outcome T :=
  outcome (fn (nthWorld fn w i)).

(** The [i]-th call throws an error that the profile retries. *)
Definition failsRetryably {W T} (fn : M W T) (opts : Profile) (w : W) (i : nat) : Prop :=
  exists e, nthOutcome fn w i = Thrown e
            /\ isRetryableError e (p_retryableErrors opts) = true.

(** An outcome after which the loop stops at once. *)
Definition decisive {T} (opts : Profile) (o : Outcome T) : Prop :=
  match o with
  | Returned _ => True
  | Thrown e => isRetryableError e (p_retryableErrors opts) = false
  end.

(** An operation that fails [k] times with [error] and then returns [v];
    the world counts the calls made so far. *)
Definition flaky {T} (k : nat) (error : Js.Error) (v : T) : M nat T :=
  call (fun calls => (if (calls <? k)%nat then Thrown error else Returned v, S calls)).

(** The waits among the events, in their order. *)
Definition sleeps (evs : list Event) : list Js.number :=
  flat_map (fun ev => match ev with Sleep ms => [ms] | _ => [] end) evs.

(** The first [n] values that [delayMs] takes in the loop. *)
Fixpoint delays (opts : Profile) (delayMs : Js.number) (n : nat) : list Js.number :=
  match n with
  | O => []
  | S n' =>
      delayMs :: delays opts (Qmin (delayMs * p_backoffMultiplier opts) (p_maxDelayMs opts)) n'
  end.

End Retry.


(** ** server/priceService.ts *)

Module PriceService.
Import Schema.

Definition COIN_GECKO_IDS (n : NetworkType) : string :=
  match n with
  | ETH => "ethereum"
  | BASE => "ethereum"
  | BNB => "binancecoin"
  | SOL => "solana"
  end.

Definition FALLBACK_PRICES (n : NetworkType) : Js.number :=
  match n with
  | ETH => 2000
  | BASE => 2000
  | BNB => 600
  | SOL => 150
  end.

(** What [getPrice] makes of the answer of the HTTP source. *)
Definition settle (n : NetworkType) (answer : Outcome Js.number) : Js.number :=
  match answer with
  | Returned price => price
  | Thrown _ => FALLBACK_PRICES n
  end.

Section Service.
Context {W : Type}.
(** The memoized HTTP request to CoinGecko; its cache is part of the
    world. *)
Variable fetchPriceFromAPI : string -> W -> Outcome Js.number * W.

Definition getPrice (n : NetworkType) : M W Js.number :=
  let coinId := COIN_GECKO_IDS n in
  let fallbackPrice := FALLBACK_PRICES n in
  tryCatch (price <- call (fetchPriceFromAPI coinId) ;; ret price)
           (fun _ => ret fallbackPrice).
End Service.

End PriceService.

(** ** The EVM node behind a [Web3] instance *)

Module Chain.
Import Dex.

(** The transaction object handed to [estimateGas] and
    [signTransaction]; [data] is the ABI encoding of the call and is
    kept as the call. *)
Record SwapTx := {
  from : string;
  to : string;
  value : Z;
  data : ExactInputSingleParams;
  gas : option Z;
  gasPrice : option Z
}.

Record QuoteParams := {
  q_tokenIn : string;
  q_tokenOut : string;
  q_amountIn : Z;
  q_fee : Z;
  q_sqrtPriceLimitX96 : Z
}.

(** The calls of web3.js that the code makes.  [toWei] and
    [signTransaction] are synchronous library functions that may throw. *)
Record Rpc (W : Type) := {
  getGasPrice : Web3 -> W -> Outcome Z * W;
  decimals : Web3 -> string -> W -> Outcome Z * W;
  quoteExactInputSingle : Web3 -> string -> QuoteParams -> W -> Outcome N * W;
  estimateGas : Web3 -> SwapTx -> W -> Outcome Z * W;
  sendSignedTransaction : Web3 -> string -> W -> Outcome string * W;
  toWei : Js.number -> Outcome Z;
  signTransaction : SwapTx -> string -> Outcome string
}.
Arguments getGasPrice {W}.
Arguments decimals {W}.
Arguments quoteExactInputSingle {W}.
Arguments estimateGas {W}.
Arguments sendSignedTransaction {W}.
Arguments toWei {W}.
Arguments signTransaction {W}.

(** [web3.utils.fromWei(wei, 'ether')] *)
Definition fromWei (wei : Z) : Js.Numeral := {| Js.unscaled := wei; Js.scale := 18 |}.

End Chain.

(** ** server/dex/uniswapV3Client.ts *)

Module UniswapV3.
Import Schema Dex Chain.

Definition ROUTER_ADDRESSES (n : NetworkType) : option string :=
  match n with BASE => Some "0x2626664c2603336E57B271c5C0b26F421741e481" | _ => None end.

Definition QUOTER_ADDRESSES (n : NetworkType) : option string :=
  match n with BASE => Some "0x3d4e44Eb1374240CE5F1B871ab261CD16335B76a" | _ => None end.

Definition WETH_ADDRESSES (n : NetworkType) : option string :=
  match n with BASE => Some "0x4200000000000000000000000000000000000006" | _ => None end.

Definition FEE_TIERS : list Z := [100; 500; 3000; 10000]%Z.

Definition noPoolMessage (n : NetworkType) : string :=
  "No Uniswap V3 liquidity pool found for this token on " ++ networkName n
  ++ ". Tried fee tiers: 0.01%, 0.05%, 0.3%, 1%.".

(** [bestQuote] and [bestFee] of the probing loop; [bestQuote] is [null]
    until a tier answers with a non-zero amount. *)
Record Best := { bestQuote : option N; bestFee : Z }.

Definition noBest : Best := {| bestQuote := None; bestFee := 0 |}.

(** The body of the [if] inside the loop. *)
Definition consider (best : Best) (fee : Z) (amountOut : N) : Best :=
  if negb (N.eqb amountOut 0) then
    match bestQuote best with
    | None => {| bestQuote := Some amountOut; bestFee := fee |}
    | Some b =>
        if (b <? amountOut)%N then {| bestQuote := Some amountOut; bestFee := fee |}
        else best
    end
  else best.

(** The choice among the answers, taken in their order. *)
Definition select (answers : list (Z * option N)) (best : Best) : Best :=
  fold_left (fun best answer =>
               match snd answer with
               | Some amountOut => consider best (fst answer) amountOut
               | None => best
               end)
            answers best.

(** [best] is the choice among [answers] that the specification describes:
    nothing when no answer is a positive amount, otherwise the first of the
    answers with the largest amount. *)
Definition chosen (answers : list (Z * option N)) (best : Best) : Prop :=
  match bestQuote best with
  | None =>
      forall j fee amountOut, answers !! j = Some (fee, Some amountOut) -> amountOut = 0%N
  | Some q =>
      (0 < q)%N
      /\ exists i,
          answers !! i = Some (bestFee best, Some q)
          /\ forall j fee amountOut,
              answers !! j = Some (fee, Some amountOut) ->
              (amountOut <= q)%N /\ ((j < i)%nat -> (amountOut < q)%N)
  end.

(** The tiers of the quoter calls among the events, and the swaps sent. *)
Definition quotedFees (evs : list Event) : list Z :=
  flat_map (fun ev => match ev with QuoteTier fee => [fee] | _ => [] end) evs.

Definition sentSwaps (evs : list Event) : list ExactInputSingleParams :=
  flat_map (fun ev => match ev with SendSwap sp => [sp] | _ => [] end) evs.

(** Events that are neither a quote nor a submission. *)
Definition quiet (ev : Event) : Prop :=
  match ev with QuoteTier _ | SendSwap _ => False | _ => True end.

(** Events that are no quote, and no submission but with the fee [tier]. *)
Definition sendsAt (tier : Z) (ev : Event) : Prop :=
  match ev with QuoteTier _ => False | SendSwap sp => fee sp = tier | _ => True end.

Section Client.
Context {W : Type}.
Variable rpc : Rpc W.

(** The quote of one tier: the retried call of the quoter. *)
Definition quoteTier (p : EvmSwapParams) (quoterAddress wethAddress : string)
           (amountInWei : Z) (fee : Z) : M W N :=
  let quoteParams := {|
    q_tokenIn := wethAddress;
    q_tokenOut := tokenAddress p;
    q_amountIn := amountInWei;
    q_fee := fee;
    q_sqrtPriceLimitX96 := 0
  |} in
  Retry.retryWithBackoff
    (emit (QuoteTier fee) ;;;
     call (quoteExactInputSingle rpc (web3 p) quoterAddress quoteParams))
    (Retry.forNetwork (networkName (network p))).

(** [for (const fee of FEE_TIERS) { try { ... } catch { continue } ... }] *)
Fixpoint probe (p : EvmSwapParams) (quoterAddress wethAddress : string)
         (amountInWei : Z) (tiers : list Z) (best : Best) : M W Best :=
  match tiers with
  | [] => ret best
  | fee :: rest =>
      quoted <- tryCatch
        (amountOut <- quoteTier p quoterAddress wethAddress amountInWei fee ;;
         ret (Some (consider best fee amountOut)))
        (fun _ => ret None) ;;
      match quoted with
      | None => probe p quoterAddress wethAddress amountInWei rest best
      | Some best' =>
          (match network p with BASE => emit (Sleep 500) | _ => ret tt end) ;;;
          probe p quoterAddress wethAddress amountInWei rest best'
      end
  end.

(** The part of [executeSwap] after the loop has found a quote: the slippage
    bound, the gas, the signature and the submission. *)
Definition swap (p : EvmSwapParams) (routerAddress wethAddress : string)
           (tokenDecimals amountInWei : Z) (best : Best) (expectedTokenAmount : N) :
  M W TradeResult :=
  let slippageMultiplier := (1 - slippageTolerance p / 100)%Q in
  let minAmountOut :=
    Z.quot (Z.of_N expectedTokenAmount * Js.floor (slippageMultiplier * 1000)) 1000 in
  let swapParams := {|
    tokenIn := wethAddress;
    tokenOut := tokenAddress p;
    fee := bestFee best;
    recipient := walletAddress p;
    amountIn := amountInWei;
    amountOutMinimum := minAmountOut;
    sqrtPriceLimitX96 := 0
  |} in
  let unpriced := {|
    from := walletAddress p; to := routerAddress;
    value := amountInWei; data := swapParams;
    gas := None; gasPrice := None
  |} in
  gasEstimate <- Retry.retryWithBackoff
    (call (estimateGas rpc (web3 p) unpriced))
    (Retry.forNetwork (networkName (network p))) ;;
  gasPrice <- Retry.retryWithBackoff
    (call (getGasPrice rpc (web3 p)))
    (Retry.forNetwork (networkName (network p))) ;;
  let gasFeeWei := (gasEstimate * gasPrice)%Z in
  let gasFeeETH := fromWei gasFeeWei in
  let swapTx := {|
    from := walletAddress p; to := routerAddress;
    value := amountInWei; data := swapParams;
    gas := Some gasEstimate; gasPrice := Some gasPrice
  |} in
  rawTx <- lift (signTransaction rpc swapTx (privateKey p)) ;;
  transactionHash <- Retry.retryWithBackoff
    (emit (SendSwap swapParams) ;;;
     call (sendSignedTransaction rpc (web3 p) rawTx))
    (Retry.forNetwork (networkName (network p))) ;;
  let gasFeeUsd :=
    Js.toFixed (Js.parseFloat gasFeeETH * nativeTokenPriceUsd p) 2 in
  let tokenAmount :=
    Js.toFixed (inject_Z (Z.of_N expectedTokenAmount)
                / inject_Z (Js.pow10 (Z.to_nat tokenDecimals))) 6 in
  let tokenPrice :=
    Js.toFixed (amountETH p / Js.parseFloat tokenAmount) 6 in
  ret {|
    success := true;
    txHash := Some transactionHash;
    tokenAmount := Some tokenAmount;
    gasFee := Some gasFeeETH;
    gasFeeUsd := Some gasFeeUsd;
    tokenPrice := Some tokenPrice;
    slippage := Some (Js.toFixed (slippageTolerance p) 2);
    errorMessage := None
  |}.

(** "Verify token contract exists and get decimals" *)
Definition validate (p : EvmSwapParams) : M W Z :=
  Retry.retryWithBackoff (call (decimals rpc (web3 p) (tokenAddress p)))
                         (Retry.forNetwork (networkName (network p))).

Definition executeSwap (p : EvmSwapParams) : M W TradeResult :=
  tryCatch
    (match ROUTER_ADDRESSES (network p), QUOTER_ADDRESSES (network p),
           WETH_ADDRESSES (network p) with
     | Some routerAddress, Some quoterAddress, Some wethAddress =>
         validated <- tryCatch (d <- validate p ;; ret (Some d)) (fun _ => ret None) ;;
         match validated with
         | None =>
             ret (failure ("Invalid token address on " ++ networkName (network p)
               ++ ". The token contract does not exist or is not a valid ERC20 token."))
         | Some tokenDecimals =>
             amountInWei <- lift (toWei rpc (amountETH p)) ;;
             best <- probe p quoterAddress wethAddress amountInWei FEE_TIERS noBest ;;
             match bestQuote best with
             | None => ret (failure (noPoolMessage (network p)))
             | Some expectedTokenAmount =>
                 if N.eqb expectedTokenAmount 0 then
                   ret (failure ("Unable to get swap quote. The token may have insufficient liquidity on Uniswap V3 on "
                                 ++ networkName (network p) ++ "."))
                 else
                   swap p routerAddress wethAddress tokenDecimals amountInWei best
                        expectedTokenAmount
             end
         end
     | _, _, _ =>
         ret (failure ("Uniswap V3 not configured for network " ++ networkName (network p)))
     end)
    (fun error => ret (failure ("Uniswap V3 swap failed: " ++ Js.message error))).

(** *** What the loop is measured against

    The answers of the tiers, each asked in the world that the one before
    left: the quote, or nothing when the call threw. *)
Definition answerOf (o : Outcome N) : option N :=
  match o with Returned amountOut => Some amountOut | Thrown _ => None end.

Fixpoint answers (p : EvmSwapParams) (quoterAddress wethAddress : string)
         (amountInWei : Z) (tiers : list Z) (w : W) : list (Z * option N) :=
  match tiers with
  | [] => []
  | fee :: rest =>
      let r := quoteTier p quoterAddress wethAddress amountInWei fee w in
      (fee, answerOf (outcome r))
        :: answers p quoterAddress wethAddress amountInWei rest (world r)
  end.

Fixpoint asked (p : EvmSwapParams) (quoterAddress wethAddress : string)
         (amountInWei : Z) (tiers : list Z) (w : W) : W :=
  match tiers with
  | [] => w
  | fee :: rest =>
      asked p quoterAddress wethAddress amountInWei rest
            (world (quoteTier p quoterAddress wethAddress amountInWei fee w))
  end.

End Client.


End UniswapV3.

(** ** server/dex/jupiterClient.ts *)

Module Jupiter.
Import Dex.

Definition NATIVE_SOL_MINT : string := "So11111111111111111111111111111111111111112".
Definition LAMPORTS_PER_SOL : Js.number := 1000000000.

Record QuoteResponse := { outAmount : Z }.

Record SwapRequest := {
  quoteResponse : QuoteResponse;
  userPublicKey : string;
  wrapAndUnwrapSol : bool;
  dynamicComputeUnitLimit : bool
}.

Record Blockhash := { blockhash : string; lastValidBlockHeight : Z }.

(** The Jupiter HTTP API and the Solana node.  [quoteGet] may answer with
    no quote.  [signSwapTransaction] stands for the synchronous steps
    between the two: decode the transaction (versioned, else legacy),
    decode the key, sign and serialize. *)
Record Api (W : Type) := {
  quoteGet : QuoteGetRequest -> W -> Outcome (option QuoteResponse) * W;
  swapPost : SwapRequest -> W -> Outcome string * W;
  signSwapTransaction : string -> string -> Outcome string;
  sendRawTransaction : Connection -> string -> W -> Outcome string * W;
  getLatestBlockhash : Connection -> W -> Outcome Blockhash * W;
  confirmTransaction : Connection -> string -> Blockhash -> W -> Outcome unit * W;
  getMint : Connection -> string -> W -> Outcome Z * W
}.
Arguments quoteGet {W}.
Arguments swapPost {W}.
Arguments signSwapTransaction {W}.
Arguments sendRawTransaction {W}.
Arguments getLatestBlockhash {W}.
Arguments confirmTransaction {W}.
Arguments getMint {W}.

(** [{ maxRetries, initialDelayMs }] *)
Definition retries (n : nat) (ms : Js.number) : Retry.RetryOptions := {|
  Retry.maxRetries := Some n; Retry.initialDelayMs := Some ms;
  Retry.maxDelayMs := None; Retry.backoffMultiplier := None;
  Retry.retryableErrors := None; Retry.network := None
|}.

(** The literal ['0.000005']. *)
Definition GAS_FEE : Js.Numeral := {| Js.unscaled := 5; Js.scale := 6 |}.

Section Client.
Context {W : Type}.
Variable api : Api W.

Definition executeSwap (p : JupiterSwapParams) : M W TradeResult :=
  tryCatch
    (let amountInLamports := Js.floor (amountSOL p * LAMPORTS_PER_SOL) in
     let quoteRequest := {|
       inputMint := NATIVE_SOL_MINT;
       outputMint := tokenMint p;
       amount := amountInLamports;
       q_slippageBps := slippageBps p
     |} in
     quote <- Retry.retryWithBackoff
       (emit (JupiterQuote quoteRequest) ;;; call (quoteGet api quoteRequest))
       (retries 3 2000) ;;
     match quote with
     | None => ret (failure "Failed to get quote from Jupiter")
     | Some quote =>
         swapTransaction <- Retry.retryWithBackoff
           (call (swapPost api {|
              quoteResponse := quote;
              userPublicKey := j_walletAddress p;
              wrapAndUnwrapSol := true;
              dynamicComputeUnitLimit := true
            |}))
           (retries 3 2000) ;;
         rawTransaction <- lift (signSwapTransaction api swapTransaction (j_privateKey p)) ;;
         txid <- Retry.retryWithBackoff
           (call (sendRawTransaction api (connection p) rawTransaction))
           (retries 2 1500) ;;
         latestBlockhash <- Retry.retryWithBackoff
           (call (getLatestBlockhash api (connection p)))
           (retries 2 1000) ;;
         Retry.retryWithBackoff
           (call (confirmTransaction api (connection p) txid latestBlockhash))
           (retries 2 1000) ;;;
         let outputAmount := outAmount quote in
         tokenDecimals <- tryCatch
           (call (getMint api (connection p) (tokenMint p)))
           (fun _ => ret 9%Z) ;;
         let tokenAmount :=
           Js.toFixed (inject_Z outputAmount
                       / inject_Z (Js.pow10 (Z.to_nat tokenDecimals))) 6 in
         let tokenPrice := Js.toFixed (amountSOL p / Js.parseFloat tokenAmount) 6 in
         let gasFee := GAS_FEE in
         let gasFeeUsd := Js.toFixed (Js.mul (Js.parseFloat gasFee) (solPriceUsd p)) 4 in
         ret {|
           success := true;
           txHash := Some txid;
           tokenAmount := Some tokenAmount;
           gasFee := Some gasFee;
           gasFeeUsd := Some gasFeeUsd;
           tokenPrice := Some tokenPrice;
           slippage := Some (Js.toFixed (inject_Z (slippageBps p) / 100) 2);
           errorMessage := None
         |}
     end)
    (fun error => ret (failure ("Jupiter swap failed: " ++ Js.message error))).
End Client.

End Jupiter.

(** ** server/dex/uniswapClient.ts and server/dex/pancakeswapClient.ts

    The two adapters of a V2 router.  Besides the calls of [Chain.Rpc] they
    use the router's [getAmountsOut] and a transaction whose data is a call of
    [swapExactETHForTokens]. *)

Module RouterV2.
Import Dex.

(** The arguments of [swapExactETHForTokens]. *)
Record SwapExactETHForTokens := {
  amountOutMin : Z;
  path : list string;
  to : string;
  deadline : Z
}.

Record SwapTx := {
  tx_from : string;
  tx_to : string;
  tx_value : Z;
  tx_data : SwapExactETHForTokens;
  tx_gas : option Z;
  tx_gasPrice : option Z
}.

(** [getAmountsOut] answers with the array of the amounts along the path;
    [dateNow] is [Date.now()], in milliseconds. *)
Record Router (W : Type) := {
  getAmountsOut : Web3 -> string -> Z -> list string -> W -> Outcome (list N) * W;
  estimateGas : Web3 -> SwapTx -> W -> Outcome Z * W;
  signTransaction : SwapTx -> string -> Outcome string;
  dateNow : W -> Z
}.
Arguments getAmountsOut {W}.
Arguments estimateGas {W}.
Arguments signTransaction {W}.
Arguments dateNow {W}.

Section Swap.
Context {W : Type}.
Variable rpc : Chain.Rpc W.
Variable router : Router W.

(** What the two adapters do alike once they hold a quote: the slippage
    bound, the deadline, the gas, the signature and the submission.
    [retryNetwork] is the network named in the retry options. *)
Definition swap (retryNetwork : string) (p : EvmSwapParams) (routerAddress : string)
           (path : list string) (tokenDecimals amountInWei : Z) (expectedTokenAmount : N) :
  M W TradeResult :=
  let slippageMultiplier := (1 - slippageTolerance p / 100)%Q in
  let minAmountOut :=
    Z.quot (Z.of_N expectedTokenAmount * Js.floor (slippageMultiplier * 1000)) 1000 in
  fun w =>
    (let deadline := (dateNow router w / 1000 + 60 * 20)%Z in
     let swapData := {|
       amountOutMin := minAmountOut;
       path := path;
       to := walletAddress p;
       deadline := deadline
     |} in
     let unpriced := {|
       tx_from := walletAddress p; tx_to := routerAddress;
       tx_value := amountInWei; tx_data := swapData;
       tx_gas := None; tx_gasPrice := None
     |} in
     gasEstimate <- Retry.retryWithBackoff
       (call (estimateGas router (web3 p) unpriced))
       (Retry.forNetwork retryNetwork) ;;
     gasPrice <- Retry.retryWithBackoff
       (call (Chain.getGasPrice rpc (web3 p)))
       (Retry.forNetwork retryNetwork) ;;
     let gasFeeWei := (gasEstimate * gasPrice)%Z in
     let gasFeeETH := Chain.fromWei gasFeeWei in
     let swapTx := {|
       tx_from := walletAddress p; tx_to := routerAddress;
       tx_value := amountInWei; tx_data := swapData;
       tx_gas := Some gasEstimate; tx_gasPrice := Some gasPrice
     |} in
     rawTx <- lift (signTransaction router swapTx (privateKey p)) ;;
     transactionHash <- Retry.retryWithBackoff
       (call (Chain.sendSignedTransaction rpc (web3 p) rawTx))
       (Retry.forNetwork retryNetwork) ;;
     let gasFeeUsd :=
       Js.toFixed (Js.parseFloat gasFeeETH * nativeTokenPriceUsd p) 2 in
     let tokenAmount :=
       Js.toFixed (inject_Z (Z.of_N expectedTokenAmount)
                   / inject_Z (Js.pow10 (Z.to_nat tokenDecimals))) 6 in
     let tokenPrice :=
       Js.toFixed (amountETH p / Js.parseFloat tokenAmount) 6 in
     ret {|
       success := true;
       txHash := Some transactionHash;
       tokenAmount := Some tokenAmount;
       gasFee := Some gasFeeETH;
       gasFeeUsd := Some gasFeeUsd;
       tokenPrice := Some tokenPrice;
       slippage := Some (Js.toFixed (slippageTolerance p) 2);
       errorMessage := None
     |}) w.
End Swap.

End RouterV2.

Module UniswapV2.
Import Schema Dex RouterV2.

Definition ROUTER_ADDRESSES (n : NetworkType) : option string :=
  match n with
  | ETH => Some "0x7a250d5630B4cF539739dF2C5dAcb4c659F2488D"
  | BASE => Some "0x4752ba5dbc23f44d87826276bf6fd6b1c372ad24"
  | _ => None
  end.

Definition WETH_ADDRESSES (n : NetworkType) : option string :=
  match n with
  | ETH => Some "0xC02aaA39b223FE8D0A0e5C4F27eAD9083C756Cc2"
  | BASE => Some "0x4200000000000000000000000000000000000006"
  | _ => None
  end.

Definition noPoolMessage (n : NetworkType) : string :=
  "No liquidity pool found for this token on " ++ networkName n
  ++ ". The token may not be traded on Uniswap V2, or the token address is invalid.".

Definition noQuoteMessage (n : NetworkType) : string :=
  "Unable to get swap quote. The token may have insufficient liquidity on Uniswap V2 on "
  ++ networkName n ++ ".".

Section Client.
Context {W : Type}.
Variable rpc : Chain.Rpc W.
Variable router : Router W.

Definition executeSwap (p : EvmSwapParams) : M W TradeResult :=
  tryCatch
    (match ROUTER_ADDRESSES (network p), WETH_ADDRESSES (network p) with
     | Some routerAddress, Some wethAddress =>
         let retryNetwork := networkName (network p) in
         validated <- tryCatch
           (d <- Retry.retryWithBackoff
                   (call (Chain.decimals rpc (web3 p) (tokenAddress p)))
                   (Retry.forNetwork retryNetwork) ;;
            ret (Some d))
           (fun _ => ret None) ;;
         match validated with
         | None =>
             ret (failure ("Invalid token address on " ++ networkName (network p)
               ++ ". The token contract does not exist or is not a valid ERC20 token."))
         | Some tokenDecimals =>
             amountInWei <- lift (Chain.toWei rpc (amountETH p)) ;;
             let path := [wethAddress; tokenAddress p] in
             quoted <- tryCatch
               (amounts <- Retry.retryWithBackoff
                             (call (getAmountsOut router (web3 p) routerAddress amountInWei path))
                             (Retry.forNetwork retryNetwork) ;;
                ret (Some amounts))
               (fun _ => ret None) ;;
             match quoted with
             | None => ret (failure (noPoolMessage (network p)))
             | Some amounts =>
                 match amounts !! 1%nat with
                 | None => ret (failure (noQuoteMessage (network p)))
                 | Some expectedTokenAmount =>
                     if N.eqb expectedTokenAmount 0 then
                       ret (failure (noQuoteMessage (network p)))
                     else
                       swap rpc router retryNetwork p routerAddress path tokenDecimals
                            amountInWei expectedTokenAmount
                 end
             end
         end
     | _, _ =>
         ret (failure ("Uniswap not configured for network " ++ networkName (network p)))
     end)
    (fun error => ret (failure ("Uniswap swap failed: " ++ Js.message error))).
End Client.

End UniswapV2.

Module PancakeSwap.
Import Schema Dex RouterV2.

Definition PANCAKE_ROUTER : string := "0x10ED43C718714eb63d5aA57B78B54704E256024E".
Definition WBNB : string := "0xbb4CdB9CBd36B01bD1cBaEBF2De08d9173bc095c".

(** What [expectedTokenAmount.toString()] throws when [amounts[1]] is
    [undefined] (the text is that of V8). *)
Definition undefinedAmount : Js.Error := {|
  Js.name := "TypeError";
  Js.message := "Cannot read properties of undefined (reading 'toString')"
|}.

Section Client.
Context {W : Type}.
Variable rpc : Chain.Rpc W.
Variable router : Router W.

(** [PancakeSwapParams] is an [EvmSwapParams] without [network]: [amountBNB]
    is its [amountETH] and [bnbPriceUsd] its [nativeTokenPriceUsd]. *)
Definition executeSwap (p : EvmSwapParams) : M W TradeResult :=
  tryCatch
    (tokenDecimals <- Retry.retryWithBackoff
       (call (Chain.decimals rpc (web3 p) (tokenAddress p)))
       (Retry.forNetwork "BNB") ;;
     amountInWei <- lift (Chain.toWei rpc (amountETH p)) ;;
     let path := [WBNB; tokenAddress p] in
     amounts <- Retry.retryWithBackoff
       (call (getAmountsOut router (web3 p) PANCAKE_ROUTER amountInWei path))
       (Retry.forNetwork "BNB") ;;
     match amounts !! 1%nat with
     | None => throw undefinedAmount
     | Some expectedTokenAmount =>
         swap rpc router "BNB" p PANCAKE_ROUTER path tokenDecimals amountInWei
              expectedTokenAmount
     end)
    (fun error => ret (failure ("PancakeSwap swap failed: " ++ Js.message error))).
End Client.

End PancakeSwap.

(** ** server/tradingService.ts *)

Module TradingService.
Import Schema Dex.

Record TradeParams := {
  network : NetworkType;
  dex : string;
  dexVersion : option string;
  tokenAddress : string;
  amountUsd : Js.number;
  slippageTolerance : Js.number;
  maxGasRatio : Js.number
}.

(** What the service imports and reads: [process.env], the web3.js and
    Solana key functions (they throw on a malformed key), the price
    service's HTTP source, the node, the four adapter singletons, and the
    formatting of a number inside a template literal. *)
Record Env (W : Type) := {
  process_env : gmap string string;
  privateKeyToAccount : string -> Outcome string;
  keypairFromSecretKey : string -> Outcome string;
  fetchPriceFromAPI : string -> W -> Outcome Js.number * W;
  rpc : Chain.Rpc W;
  uniswapClient : EvmSwapParams -> M W TradeResult;
  uniswapV3Client : EvmSwapParams -> M W TradeResult;
  pancakeswapClient : EvmSwapParams -> M W TradeResult;
  jupiterClient : JupiterSwapParams -> M W TradeResult;
  numberToString : Js.number -> string
}.
Arguments process_env {W}.
Arguments privateKeyToAccount {W}.
Arguments keypairFromSecretKey {W}.
Arguments fetchPriceFromAPI {W}.
Arguments rpc {W}.
Arguments uniswapClient {W}.
Arguments uniswapV3Client {W}.
Arguments pancakeswapClient {W}.
Arguments jupiterClient {W}.
Arguments numberToString {W}.

(** The fields of the object. *)
Record Service := {
  web3Instances : gmap string Web3;
  solanaConnection : option Connection
}.

(** [process.env.RPC_URL_X], used as a condition. *)
Definition envSet (penv : gmap string string) (key : string) : option string :=
  match penv !! key with
  | Some v => if Js.truthy v then Some v else None
  | None => None
  end.

Definition setIf (key : string) (url : option string) (m : gmap string Web3) :
  gmap string Web3 :=
  match url with
  | Some u => <[key := {| rpcUrl := u |}]> m
  | None => m
  end.

Definition constructor (penv : gmap string string) : Service := {|
  web3Instances :=
    setIf "BNB" (envSet penv "RPC_URL_BNB")
      (setIf "BASE" (envSet penv "RPC_URL_BASE")
         (setIf "ETH" (envSet penv "RPC_URL_ETH") ∅));
  solanaConnection :=
    match envSet penv "RPC_URL_SOL" with
    | Some u => Some {| endpoint := u |}
    | None => None
    end
|}.

Definition isBase58 (c : ascii) : bool :=
  let n := nat_of_ascii c in
  ((49 <=? n) && (n <=? 57)                     (* 1-9 *)
   || (65 <=? n) && (n <=? 72)                  (* A-H *)
   || (74 <=? n) && (n <=? 78)                  (* J-N *)
   || (80 <=? n) && (n <=? 90)                  (* P-Z *)
   || (97 <=? n) && (n <=? 107)                 (* a-k *)
   || (109 <=? n) && (n <=? 122))%nat.          (* m-z *)

Definition isHex (c : ascii) : bool :=
  let n := nat_of_ascii c in
  ((97 <=? n) && (n <=? 102)                    (* a-f *)
   || (65 <=? n) && (n <=? 70)                  (* A-F *)
   || (48 <=? n) && (n <=? 57))%nat.            (* 0-9 *)

Definition isValidTokenAddress (n : NetworkType) (address : string) : bool :=
  match n with
  | SOL =>
      (* /^[1-9A-HJ-NP-Za-km-z]{32,44}$/ *)
      forallb isBase58 (list_ascii_of_string address)
      && (32 <=? String.length address)%nat && (String.length address <=? 44)%nat
  | _ =>
      (* /^0x[a-fA-F0-9]{40}$/ *)
      String.prefix "0x" address
      && forallb isHex (list_ascii_of_string (String.substring 2 (String.length address - 2) address))
      && (String.length address =? 42)%nat
  end.

(** The same environment in front of another node. *)
Definition withRpc {W} (env : Env W) (node : Chain.Rpc W) : Env W := {|
  process_env := process_env env;
  privateKeyToAccount := privateKeyToAccount env;
  keypairFromSecretKey := keypairFromSecretKey env;
  fetchPriceFromAPI := fetchPriceFromAPI env;
  rpc := node;
  uniswapClient := uniswapClient env;
  uniswapV3Client := uniswapV3Client env;
  pancakeswapClient := pancakeswapClient env;
  jupiterClient := jupiterClient env;
  numberToString := numberToString env
|}.

(** The same trade with another gas limit. *)
Definition withMaxGasRatio (params : TradeParams) (ratio : Js.number) : TradeParams := {|
  network := network params;
  dex := dex params;
  dexVersion := dexVersion params;
  tokenAddress := tokenAddress params;
  amountUsd := amountUsd params;
  slippageTolerance := slippageTolerance params;
  maxGasRatio := ratio
|}.

Section Service.
Context {W : Type}.
Variable env : Env W.
Variable this : Service.

Definition getPrivateKey (n : NetworkType) : option string :=
  process_env env !! ("PRIVATE_KEY_" ++ networkName n)%string.

Definition isNetworkAvailable (n : NetworkType) : bool :=
  let privateKey := getPrivateKey n in
  match n with
  | SOL => Js.truthyOpt privateKey && bool_decide (is_Some (solanaConnection this))
  | _ => Js.truthyOpt privateKey
         && bool_decide (is_Some (web3Instances this !! networkName n))
  end.

Definition estimateGas (n : NetworkType) (amountUsd : Js.number) :
  M W (Js.number * Js.number) :=
  match n with
  | SOL => ret (1 # 100, (1 # 100) / amountUsd)%Q
  | _ =>
      match web3Instances this !! networkName n with
      | None => ret (0, 0)%Q
      | Some web3 =>
          tryCatch
            (gasPrice <- (emit (GasPriceQuery n) ;;;
                          call (Chain.getGasPrice (rpc env) web3)) ;;
             let estimatedGas := 200000%Z in
             let gasFeeWei := (gasPrice * estimatedGas)%Z in
             let gasFeeNative := Chain.fromWei gasFeeWei in
             nativeTokenPrice <- PriceService.getPrice (fetchPriceFromAPI env) n ;;
             let gasFeeUsd := (Js.parseFloat gasFeeNative * nativeTokenPrice)%Q in
             let gasRatio := (gasFeeUsd / amountUsd)%Q in
             ret (gasFeeUsd, gasRatio))
            (fun _ => ret (0, 0)%Q)
      end
  end.

Definition evmParams (params : TradeParams) (web3 : Web3) (amountNative : Js.number)
           (walletAddress privateKey : string) (nativeTokenPriceUsd : Js.number) :
  EvmSwapParams := {|
    Dex.web3 := web3;
    Dex.network := network params;
    Dex.tokenAddress := tokenAddress params;
    Dex.amountETH := amountNative;
    Dex.slippageTolerance := slippageTolerance params;
    Dex.walletAddress := walletAddress;
    Dex.privateKey := privateKey;
    Dex.nativeTokenPriceUsd := nativeTokenPriceUsd
  |}.

Definition invoke (a : EvmAdapter) (p : EvmSwapParams) : M W TradeResult :=
  emit (InvokeEvm a p) ;;;
  match a with
  | UniswapV2 => uniswapClient env p
  | UniswapV3 => uniswapV3Client env p
  | PancakeSwapV2 => pancakeswapClient env p
  end.

Definition v4Message : string :=
  "Uniswap V4 integration is under development. Please select V2, V3, or auto-detect mode.".

Definition isNoV3Pool (r : TradeResult) : bool :=
  match errorMessage r with
  | Some m => Js.includes m "No Uniswap V3 liquidity pool found"
  | None => false
  end.

(** "Execute trade based on network and DEX": the part of
    [executeEVMTrade] after the gas pre-check. *)
Definition route (params : TradeParams) (p : EvmSwapParams) : M W TradeResult :=
  match network params with
  | BNB => invoke PancakeSwapV2 p
  | BASE | ETH =>
      if bool_decide (dexVersion params = Some "v4") then ret (failure v4Message)
      else if bool_decide (dexVersion params = Some "v2") then invoke UniswapV2 p
      else
        let isAutoMode :=
          negb (Js.truthyOpt (dexVersion params))
          || bool_decide (dexVersion params = Some "auto") in
        v3Result <- invoke UniswapV3 p ;;
        if success v3Result || bool_decide (dexVersion params = Some "v3")
        then ret v3Result
        else if isAutoMode && isNoV3Pool v3Result then invoke UniswapV2 p
        else ret v3Result
  | SOL => invoke PancakeSwapV2 p
  end.

Definition gasTooHigh (params : TradeParams) (gasFeeUsd nativeTokenPriceUsd : Js.number) :
  TradeResult := {|
    success := false;
    txHash := None;
    tokenAmount := None;
    gasFee := Some (Js.toFixed (gasFeeUsd / nativeTokenPriceUsd) 6);
    gasFeeUsd := Some (Js.toFixed gasFeeUsd 2);
    tokenPrice := None;
    slippage := None;
    errorMessage :=
      Some ("Gas fee ($" ++ Js.renderNumeral (Js.toFixed gasFeeUsd 2) ++ ") exceeds "
            ++ Js.renderNumeral (Js.toFixed (maxGasRatio params * 100) 0)
            ++ "% of trade value ($" ++ numberToString env (amountUsd params) ++ ")")%string
  |}.

Definition executeEVMTrade (params : TradeParams) : M W TradeResult :=
  match web3Instances this !! networkName (network params) with
  | None =>
      ret (failure ("Web3 instance not found for " ++ networkName (network params)))
  | Some web3 =>
      tryCatch
        (match getPrivateKey (network params) with
         | Some privateKey =>
             if Js.truthy privateKey then
               walletAddress <- lift (privateKeyToAccount env privateKey) ;;
               nativeTokenPriceUsd <-
                 PriceService.getPrice (fetchPriceFromAPI env) (network params) ;;
               let amountNative := (amountUsd params / nativeTokenPriceUsd)%Q in
               gasEstimate <- estimateGas (network params) (amountUsd params) ;;
               if Js.gtb (snd gasEstimate) (maxGasRatio params) then
                 ret (gasTooHigh params (fst gasEstimate) nativeTokenPriceUsd)
               else
                 route params
                   (evmParams params web3 amountNative walletAddress privateKey
                              nativeTokenPriceUsd)
             else
               ret (failure ("Private key not configured for "
                             ++ networkName (network params)))
         | None =>
             ret (failure ("Private key not configured for "
                           ++ networkName (network params)))
         end)
        (fun error => ret (failure ("EVM trade failed: " ++ Js.message error)))
  end.

Definition executeSolanaTrade (params : TradeParams) : M W TradeResult :=
  match solanaConnection this with
  | None => ret (failure "Solana connection not configured")
  | Some conn =>
      tryCatch
        (match getPrivateKey SOL with
         | Some privateKey =>
             if Js.truthy privateKey then
               walletAddress <- lift (keypairFromSecretKey env privateKey) ;;
               solPriceUsd <- PriceService.getPrice (fetchPriceFromAPI env) SOL ;;
               let amountSOL := (amountUsd params / solPriceUsd)%Q in
               let p := {|
                 connection := conn;
                 tokenMint := tokenAddress params;
                 Dex.amountSOL := amountSOL;
                 slippageBps := Js.floor (Js.mul (slippageTolerance params) 100);
                 j_walletAddress := walletAddress;
                 j_privateKey := privateKey;
                 Dex.solPriceUsd := solPriceUsd
               |} in
               emit (InvokeJupiter p) ;;; jupiterClient env p
             else ret (failure "Solana private key not configured")
         | None => ret (failure "Solana private key not configured")
         end)
        (fun error => ret (failure ("Solana trade failed: " ++ Js.message error)))
  end.

Definition executeTrade (params : TradeParams) : M W TradeResult :=
  tryCatch
    (if negb (isNetworkAvailable (network params)) then
       ret (failure ("Network " ++ networkName (network params)
                     ++ " not configured. Please add RPC_URL_" ++ networkName (network params)
                     ++ " and PRIVATE_KEY_" ++ networkName (network params)
                     ++ " to environment."))
     else if negb (isValidTokenAddress (network params) (tokenAddress params)) then
       ret (failure ("Invalid token address format for "
                     ++ networkName (network params) ++ " network"))
     else
       result <- (match network params with
                  | SOL => executeSolanaTrade params
                  | _ => executeEVMTrade params
                  end) ;;
       ret result)
    (fun error =>
       ret (failure (if Js.truthy (Js.message error) then Js.message error
                     else "Unknown error occurred during trade execution"))).
End Service.

(** The same trade with another [dexVersion]. *)
Definition withDexVersion (params : TradeParams) (version : option string) : TradeParams := {|
  network := network params;
  dex := dex params;
  dexVersion := version;
  tokenAddress := tokenAddress params;
  amountUsd := amountUsd params;
  slippageTolerance := slippageTolerance params;
  maxGasRatio := maxGasRatio params
|}.

End TradingService.

(** ** The service with the adapters of the repository

    [tradingService.ts] imports the four adapter singletons; [wire] puts the
    adapters embedded above in their place. *)

Module Adapters.
Import Dex.

Definition wire {W} (env : TradingService.Env W) (router : RouterV2.Router W)
           (api : Jupiter.Api W) : TradingService.Env W := {|
  TradingService.process_env := TradingService.process_env env;
  TradingService.privateKeyToAccount := TradingService.privateKeyToAccount env;
  TradingService.keypairFromSecretKey := TradingService.keypairFromSecretKey env;
  TradingService.fetchPriceFromAPI := TradingService.fetchPriceFromAPI env;
  TradingService.rpc := TradingService.rpc env;
  TradingService.uniswapClient := UniswapV2.executeSwap (TradingService.rpc env) router;
  TradingService.uniswapV3Client := UniswapV3.executeSwap (TradingService.rpc env);
  TradingService.pancakeswapClient := PancakeSwap.executeSwap (TradingService.rpc env) router;
  TradingService.jupiterClient := Jupiter.executeSwap api;
  TradingService.numberToString := TradingService.numberToString env
|}.

(** A result that says what happened: a success names its transaction and
    has no error message, a failure has an error message and names no
    transaction. *)
Definition conclusive (r : TradeResult) : Prop :=
  if success r then is_Some (txHash r) /\ errorMessage r = None
  else is_Some (errorMessage r) /\ txHash r = None.

End Adapters.

(** ** server/storage.ts over the tables of shared/schema.ts

    A table is the list of its rows in insertion order.  [gen_random_uuid()]
    draws from a counter.  A timestamp is a number of milliseconds.

    Every statement is a transaction of its own: [createConfig] runs an
    [UPDATE] and then an [INSERT], and the first stays when the second fails.
    The [INSERT] of a config checks the values against the columns of
    [trade_configs] ([varchar(n)], [decimal(p, s)]), and so does that of the
    amount of a manual trade against [amount_usd].  The other writes
    ([createTradeLog] from the columns of a config row, [updateTradeLog],
    [updateBotStatus]) are the statements for values that fit their columns,
    and store them as they are written; [logTaken], [logUpdateTaken] and
    [statusUpdateTaken] say which values fit, and the database refuses the
    others.  The table [users] is not part of the state: a [userId] that
    reaches the journal is that of a user who has logged in, whose row exists,
    and a config that the scheduler holds is a row of [trade_configs], so that
    the foreign keys on [user_id] and [config_id] hold. *)

Module Storage.

Record TradeConfig := {
  id : string;
  userId : string;
  contractAddress : string;
  walletAddress : string;
  network : string;
  dex : string;
  dexVersion : option string;
  tradeInterval : string;
  tradeAmountUsd : Js.Numeral;
  maxGasRatio : Js.Numeral;
  slippageTolerance : Js.Numeral;
  isActive : bool;
  createdAt : Z;
  updatedAt : Z
}.

(** [InsertTradeConfig]: [userId] is optional in the schema, the two
    ratios have a default in the table.  The amount and the ratios are
    strings in the schema; they are decimal numerals here, and a string that
    is not one (which the database refuses, or reads as [NaN]) is not
    covered. *)
Record InsertTradeConfig := {
  i_userId : option string;
  i_contractAddress : string;
  i_walletAddress : string;
  i_network : string;
  i_dex : string;
  i_dexVersion : option string;
  i_tradeInterval : string;
  i_tradeAmountUsd : Js.Numeral;
  i_maxGasRatio : option Js.Numeral;
  i_slippageTolerance : option Js.Numeral;
  i_isActive : bool
}.

Record TradeLog := {
  l_id : string;
  l_userId : string;
  l_configId : option string;
  l_network : string;
  l_dex : string;
  l_tokenAddress : string;
  l_tradeType : string;
  l_amountUsd : Js.Numeral;
  l_tokenAmount : option Js.Numeral;
  l_gasFee : option Js.Numeral;
  l_gasFeeUsd : option Js.Numeral;
  l_status : string;
  l_txHash : option string;
  l_errorMessage : option string;
  l_slippage : option Js.Numeral;
  l_tokenPrice : option Js.Numeral;
  l_createdAt : Z
}.

(** [InsertTradeLog] as the code fills it when it creates a row. *)
Record InsertTradeLog := {
  n_userId : string;
  n_configId : option string;
  n_network : string;
  n_dex : string;
  n_tokenAddress : string;
  n_tradeType : string;
  n_amountUsd : Js.Numeral;
  n_status : string
}.

(** [Partial<InsertTradeLog>] with the columns the code passes to
    [updateTradeLog]; [None] is [undefined], a column that is left alone. *)
Record TradeLogUpdate := {
  u_status : option string;
  u_txHash : option string;
  u_tokenAmount : option Js.Numeral;
  u_gasFee : option Js.Numeral;
  u_gasFeeUsd : option Js.Numeral;
  u_tokenPrice : option Js.Numeral;
  u_slippage : option Js.Numeral;
  u_errorMessage : option string
}.

Record BotStatus := {
  b_id : string;
  b_userId : string;
  b_network : string;
  b_isRunning : bool;
  b_activeConfigId : option string;
  b_lastTradeAt : option Z;
  b_nextTradeAt : option Z;
  b_totalTradesCount : Z;
  b_successfulTradesCount : Z;
  b_failedTradesCount : Z;
  b_totalVolumeUsd : Js.Numeral;
  b_updatedAt : Z
}.

(** [Partial<InsertBotStatus>] with the columns the code passes; for a
    nullable column [Some None] is [null]. *)
Record BotStatusUpdate := {
  s_isRunning : option bool;
  s_activeConfigId : option (option string);
  s_lastTradeAt : option (option Z);
  s_nextTradeAt : option (option Z);
  s_totalTradesCount : option Z;
  s_successfulTradesCount : option Z;
  s_failedTradesCount : option Z;
  s_totalVolumeUsd : option Js.Numeral
}.

Definition noStatusUpdate : BotStatusUpdate := {|
  s_isRunning := None; s_activeConfigId := None; s_lastTradeAt := None;
  s_nextTradeAt := None; s_totalTradesCount := None;
  s_successfulTradesCount := None; s_failedTradesCount := None;
  s_totalVolumeUsd := None
|}.

Record Db := {
  tradeConfigs : list TradeConfig;
  tradeLogs : list TradeLog;
  botStatus : list BotStatus;
  uuids : nat;
  now : Z
}.

Definition emptyDb : Db := {|
  tradeConfigs := []; tradeLogs := []; botStatus := []; uuids := 0; now := 0
|}.

Definition uuid (n : nat) : string := "uuid-" ++ pretty n.

(** *** The columns *)

(** A value stored in a column [decimal(precision, scale)]: it is rounded
    to [scale] decimals, halves away from zero, and refused when the result has
    more than [precision] digits. *)
Definition decimal (precision scale : nat) (x : Js.number) : option Js.Numeral :=
  let stored := Js.toFixed x scale in
  if (Z.abs (Js.unscaled stored) <? Js.pow10 precision)%Z then Some stored else None.

(** A value stored in a column [varchar(n)]: it is refused when it is
    longer than [n] characters.  (Excess characters that are all spaces are
    cut off instead of refused; no such value is covered here.) *)
Definition varchar (n : nat) (s : string) : option string :=
  if (String.length s <=? n)%nat then Some s else None.

Definition numericOverflow : Js.Error :=
  {| Js.name := "error"; Js.message := "numeric field overflow" |}.

Definition valueTooLong (n : nat) : Js.Error :=
  {| Js.name := "error";
     Js.message := "value too long for type character varying(" ++ pretty n ++ ")" |}.

Definition orThrow {A} (error : Js.Error) (o : option A) : Outcome A :=
  match o with Some a => Returned a | None => Thrown error end.

Definition andThen {A B} (o : Outcome A) (f : A -> Outcome B) : Outcome B :=
  match o with Returned a => f a | Thrown error => Thrown error end.

(** A column that may be [null] or take its default. *)
Definition optionally {A B} (f : A -> Outcome B) (o : option A) : Outcome (option B) :=
  match o with
  | Some a => andThen (f a) (fun b => Returned (Some b))
  | None => Returned None
  end.

(** Whether a column [decimal(precision, scale)] takes a value that may be
    absent. *)
Definition takes (precision scale : nat) (column : option Js.Numeral) : bool :=
  match column with
  | Some x =>
      match decimal precision scale (Js.parseFloat x) with
      | Some _ => true
      | None => false
      end
  | None => true
  end.

(** Whether a column [varchar(n)] takes a value that may be absent. *)
Definition takesText (n : nat) (column : option string) : bool :=
  match column with
  | Some s => match varchar n s with Some _ => true | None => false end
  | None => true
  end.

(** Whether an [integer] column takes a value that may be absent. *)
Definition takesInteger (column : option Z) : bool :=
  match column with
  | Some n => ((-2147483648 <=? n) && (n <=? 2147483647))%Z
  | None => true
  end.

(** Whether [trade_logs] takes the values of a new row: [network
    varchar(10)], [dex varchar(20)], [trade_type varchar(20)], [amount_usd
    decimal(10, 2)], [status varchar(20)]; the address is [text]. *)
Definition logTaken (log : InsertTradeLog) : bool :=
  takesText 10 (Some (n_network log)) && takesText 20 (Some (n_dex log))
  && takesText 20 (Some (n_tradeType log)) && takes 10 2 (Some (n_amountUsd log))
  && takesText 20 (Some (n_status log)).

(** Whether [trade_logs] takes the values of an update: [status
    varchar(20)], [gas_fee decimal(18, 8)], [gas_fee_usd decimal(10, 2)],
    [token_price decimal(18, 8)], [slippage decimal(5, 2)]; the hash, the
    token amount and the error message are [text]. *)
Definition logUpdateTaken (updates : TradeLogUpdate) : bool :=
  takesText 20 (u_status updates) && takes 18 8 (u_gasFee updates)
  && takes 10 2 (u_gasFeeUsd updates) && takes 18 8 (u_tokenPrice updates)
  && takes 5 2 (u_slippage updates).

(** Whether [bot_status] takes the values of an update: the three counts
    are [integer] columns, [total_volume_usd] is [decimal(12, 2)]. *)
Definition statusUpdateTaken (updates : BotStatusUpdate) : bool :=
  takesInteger (s_totalTradesCount updates)
  && takesInteger (s_successfulTradesCount updates)
  && takesInteger (s_failedTradesCount updates)
  && takes 12 2 (s_totalVolumeUsd updates).

Definition eqs (a b : string) : bool := String.eqb a b.

(** *** Trade configs *)

Definition getActiveConfig (userId network : string) (d : Db) : option TradeConfig :=
  head (List.filter
          (fun c => eqs (Storage.userId c) userId && eqs (Storage.network c) network
                    && Bool.eqb (isActive c) true)
          (tradeConfigs d)).

Definition getAllActiveConfigs (userId : string) (d : Db) : list TradeConfig :=
  List.filter (fun c => eqs (Storage.userId c) userId && Bool.eqb (isActive c) true)
              (tradeConfigs d).

Definition getConfigById (id : string) (d : Db) : option TradeConfig :=
  head (List.filter (fun c => eqs (Storage.id c) id) (tradeConfigs d)).

Definition deactivate (d : Db) (c : TradeConfig) : TradeConfig := {|
  id := id c; userId := userId c; contractAddress := contractAddress c;
  walletAddress := walletAddress c; network := network c; dex := dex c;
  dexVersion := dexVersion c; tradeInterval := tradeInterval c;
  tradeAmountUsd := tradeAmountUsd c; maxGasRatio := maxGasRatio c;
  slippageTolerance := slippageTolerance c;
  isActive := false;
  createdAt := createdAt c;
  updatedAt := now d
|}.

Definition withConfigs (d : Db) (cs : list TradeConfig) (used : nat) : Db := {|
  tradeConfigs := cs; tradeLogs := tradeLogs d; botStatus := botStatus d;
  uuids := uuids d + used; now := now d
|}.

Definition deactivateConfigsForNetwork (userId network : string) (d : Db) : Db :=
  withConfigs d
    (map (fun c => if eqs (Storage.userId c) userId && eqs (Storage.network c) network
                   then deactivate d c else c)
         (tradeConfigs d))
    0.

(** The row that [insert(tradeConfigs).values(config)] writes. *)
Definition configRow (d : Db) (userId : string) (config : InsertTradeConfig) : TradeConfig := {|
  id := uuid (uuids d);
  userId := userId;
  contractAddress := i_contractAddress config;
  walletAddress := i_walletAddress config;
  network := i_network config;
  dex := i_dex config;
  dexVersion := i_dexVersion config;
  tradeInterval := i_tradeInterval config;
  tradeAmountUsd := i_tradeAmountUsd config;
  maxGasRatio := default {| Js.unscaled := 80; Js.scale := 2 |} (i_maxGasRatio config);
  slippageTolerance := default {| Js.unscaled := 500; Js.scale := 2 |} (i_slippageTolerance config);
  isActive := i_isActive config;
  createdAt := now d;
  updatedAt := now d
|}.

Definition notNullViolation : Js.Error := {|
  Js.name := "error";
  Js.message := "null value in column user_id of relation trade_configs violates not-null constraint"
|}.

(** The values of an insert as the columns of [trade_configs] hold them:
    [network varchar(10)], [dex varchar(20)], [dex_version varchar(10)],
    [trade_interval varchar(20)], [trade_amount_usd decimal(10, 2)],
    [max_gas_ratio decimal(3, 2)], [slippage_tolerance decimal(3, 2)]; or the
    error of the first column that refuses its value. *)
Definition storedConfig (config : InsertTradeConfig) : Outcome InsertTradeConfig :=
  andThen (orThrow (valueTooLong 10) (varchar 10 (i_network config))) (fun network =>
  andThen (orThrow (valueTooLong 20) (varchar 20 (i_dex config))) (fun dex =>
  andThen (optionally (fun v => orThrow (valueTooLong 10) (varchar 10 v))
                      (i_dexVersion config)) (fun dexVersion =>
  andThen (orThrow (valueTooLong 20) (varchar 20 (i_tradeInterval config))) (fun tradeInterval =>
  andThen (orThrow numericOverflow
                   (decimal 10 2 (Js.parseFloat (i_tradeAmountUsd config)))) (fun tradeAmountUsd =>
  andThen (optionally (fun x => orThrow numericOverflow (decimal 3 2 (Js.parseFloat x)))
                      (i_maxGasRatio config)) (fun maxGasRatio =>
  andThen (optionally (fun x => orThrow numericOverflow (decimal 3 2 (Js.parseFloat x)))
                      (i_slippageTolerance config)) (fun slippageTolerance =>
  Returned {|
    i_userId := i_userId config;
    i_contractAddress := i_contractAddress config;
    i_walletAddress := i_walletAddress config;
    i_network := network;
    i_dex := dex;
    i_dexVersion := dexVersion;
    i_tradeInterval := tradeInterval;
    i_tradeAmountUsd := tradeAmountUsd;
    i_maxGasRatio := maxGasRatio;
    i_slippageTolerance := slippageTolerance;
    i_isActive := i_isActive config
  |}))))))).

(** The [UPDATE] of the deactivation has been done when the [INSERT] is
    tried, and it stays when the [INSERT] is refused. *)
Definition createConfig (config : InsertTradeConfig) (d : Db) : Outcome TradeConfig * Db :=
  let d1 :=
    if Js.truthyOpt (i_userId config) && Js.truthy (i_network config)
    then deactivateConfigsForNetwork (default "" (i_userId config)) (i_network config) d
    else d in
  match i_userId config with
  | None => (Thrown notNullViolation, d1)
  | Some userId =>
      match storedConfig config with
      | Returned stored =>
          let newConfig := configRow d1 userId stored in
          (Returned newConfig, withConfigs d1 (tradeConfigs d1 ++ [newConfig]) 1)
      | Thrown error => (Thrown error, d1)
      end
  end.

(** *** Trade logs *)

Definition withLogs (d : Db) (ls : list TradeLog) (used : nat) : Db := {|
  tradeConfigs := tradeConfigs d; tradeLogs := ls; botStatus := botStatus d;
  uuids := uuids d + used; now := now d
|}.

(** The insert of a row whose values the table takes ([logTaken]) and
    holds as they are given: the scheduler passes the columns of a config
    row. *)
Definition createTradeLog (log : InsertTradeLog) (d : Db) : TradeLog * Db :=
  let newLog := {|
    l_id := uuid (uuids d);
    l_userId := n_userId log;
    l_configId := n_configId log;
    l_network := n_network log;
    l_dex := n_dex log;
    l_tokenAddress := n_tokenAddress log;
    l_tradeType := n_tradeType log;
    l_amountUsd := n_amountUsd log;
    l_tokenAmount := None;
    l_gasFee := None;
    l_gasFeeUsd := None;
    l_status := n_status log;
    l_txHash := None;
    l_errorMessage := None;
    l_slippage := None;
    l_tokenPrice := None;
    l_createdAt := now d
  |} in
  (newLog, withLogs d (tradeLogs d ++ [newLog]) 1).

(** The insert of a row whose amount is a number that the caller has not
    stored before, as in a manual trade: [amount_usd decimal(10, 2)] rounds
    it, or refuses it, and then nothing is inserted. *)
Definition createTradeLogOf (amountUsd : Js.number) (log : Js.Numeral -> InsertTradeLog)
           (d : Db) : Outcome TradeLog * Db :=
  match decimal 10 2 amountUsd with
  | Some stored =>
      let r := createTradeLog (log stored) d in
      (Returned (fst r), snd r)
  | None => (Thrown numericOverflow, d)
  end.

Definition orKeep {A} (update old : option A) : option A :=
  match update with Some v => Some v | None => old end.

(** [set(updates)] on one row: a column that is [undefined] keeps its
    value. *)
Definition setLog (updates : TradeLogUpdate) (l : TradeLog) : TradeLog := {|
  l_id := l_id l; l_userId := l_userId l; l_configId := l_configId l;
  l_network := l_network l; l_dex := l_dex l; l_tokenAddress := l_tokenAddress l;
  l_tradeType := l_tradeType l; l_amountUsd := l_amountUsd l;
  l_tokenAmount := orKeep (u_tokenAmount updates) (l_tokenAmount l);
  l_gasFee := orKeep (u_gasFee updates) (l_gasFee l);
  l_gasFeeUsd := orKeep (u_gasFeeUsd updates) (l_gasFeeUsd l);
  l_status := default (l_status l) (u_status updates);
  l_txHash := orKeep (u_txHash updates) (l_txHash l);
  l_errorMessage :=
    orKeep (u_errorMessage updates) (l_errorMessage l);
  l_slippage := orKeep (u_slippage updates) (l_slippage l);
  l_tokenPrice := orKeep (u_tokenPrice updates) (l_tokenPrice l);
  l_createdAt := l_createdAt l
|}.

(** The update of a row with values that the table takes
    ([logUpdateTaken]); the database refuses the others. *)
Definition updateTradeLog (id : string) (updates : TradeLogUpdate) (d : Db) :
  option TradeLog * Db :=
  let ls := map (fun l => if eqs (l_id l) id then setLog updates l else l) (tradeLogs d) in
  (head (List.filter (fun l => eqs (l_id l) id) ls), withLogs d ls 0).

Definition getTradeLog (id : string) (d : Db) : option TradeLog :=
  head (List.filter (fun l => eqs (l_id l) id) (tradeLogs d)).

(** *** Bot status *)

Definition withStatus (d : Db) (bs : list BotStatus) (used : nat) : Db := {|
  tradeConfigs := tradeConfigs d; tradeLogs := tradeLogs d; botStatus := bs;
  uuids := uuids d + used; now := now d
|}.

Definition isKey (userId network : string) (b : BotStatus) : bool :=
  eqs (b_userId b) userId && eqs (b_network b) network.

Definition getBotStatus (userId network : string) (d : Db) : option BotStatus :=
  head (List.filter (isKey userId network) (botStatus d)).

(** [set({ ...updates, updatedAt: new Date() })] on one row. *)
Definition setStatus (d : Db) (updates : BotStatusUpdate) (b : BotStatus) : BotStatus := {|
  b_id := b_id b; b_userId := b_userId b; b_network := b_network b;
  b_isRunning := default (b_isRunning b) (s_isRunning updates);
  b_activeConfigId := default (b_activeConfigId b) (s_activeConfigId updates);
  b_lastTradeAt := default (b_lastTradeAt b) (s_lastTradeAt updates);
  b_nextTradeAt := default (b_nextTradeAt b) (s_nextTradeAt updates);
  b_totalTradesCount := default (b_totalTradesCount b) (s_totalTradesCount updates);
  b_successfulTradesCount :=
    default (b_successfulTradesCount b) (s_successfulTradesCount updates);
  b_failedTradesCount := default (b_failedTradesCount b) (s_failedTradesCount updates);
  b_totalVolumeUsd := default (b_totalVolumeUsd b) (s_totalVolumeUsd updates);
  b_updatedAt := now d
|}.

(** The update of the row of a key with values that the table takes
    ([statusUpdateTaken]); the database refuses the others. *)
Definition updateBotStatus (userId network : string) (updates : BotStatusUpdate) (d : Db) :
  option BotStatus * Db :=
  let bs := map (fun b => if isKey userId network b then setStatus d updates b else b)
                (botStatus d) in
  (head (List.filter (isKey userId network) bs), withStatus d bs 0).

(** [upsertBotStatus({ userId, network, ...updates })]: the columns that
    are not given take the defaults of the table on insertion. *)
Definition upsertBotStatus (userId network : string) (updates : BotStatusUpdate) (d : Db) :
  BotStatus * Db :=
  match getBotStatus userId network d with
  | Some existing =>
      let r := updateBotStatus userId network updates d in
      (default existing (fst r), snd r)
  | None =>
      let result := {|
        b_id := uuid (uuids d);
        b_userId := userId;
        b_network := network;
        b_isRunning := default false (s_isRunning updates);
        b_activeConfigId := default None (s_activeConfigId updates);
        b_lastTradeAt := default None (s_lastTradeAt updates);
        b_nextTradeAt := default None (s_nextTradeAt updates);
        b_totalTradesCount := default 0%Z (s_totalTradesCount updates);
        b_successfulTradesCount := default 0%Z (s_successfulTradesCount updates);
        b_failedTradesCount := default 0%Z (s_failedTradesCount updates);
        b_totalVolumeUsd :=
          default {| Js.unscaled := 0; Js.scale := 0 |} (s_totalVolumeUsd updates);
        b_updatedAt := now d
      |} in
      (result, withStatus d (botStatus d ++ [result]) 1)
  end.

(** *** The other statements of the journal *)

(** [Partial<InsertTradeConfig>]; [None] is [undefined], a column that is
    left alone. *)
Record ConfigUpdate := {
  c_userId : option string;
  c_contractAddress : option string;
  c_walletAddress : option string;
  c_network : option string;
  c_dex : option string;
  c_dexVersion : option (option string);
  c_tradeInterval : option string;
  c_tradeAmountUsd : option Js.Numeral;
  c_maxGasRatio : option Js.Numeral;
  c_slippageTolerance : option Js.Numeral;
  c_isActive : option bool
}.

(** [set({ ...config, updatedAt: new Date() })] on one row. *)
Definition setConfig (d : Db) (updates : ConfigUpdate) (c : TradeConfig) : TradeConfig := {|
  id := id c;
  userId := default (userId c) (c_userId updates);
  contractAddress := default (contractAddress c) (c_contractAddress updates);
  walletAddress := default (walletAddress c) (c_walletAddress updates);
  network := default (network c) (c_network updates);
  dex := default (dex c) (c_dex updates);
  dexVersion := default (dexVersion c) (c_dexVersion updates);
  tradeInterval := default (tradeInterval c) (c_tradeInterval updates);
  tradeAmountUsd := default (tradeAmountUsd c) (c_tradeAmountUsd updates);
  maxGasRatio := default (maxGasRatio c) (c_maxGasRatio updates);
  slippageTolerance := default (slippageTolerance c) (c_slippageTolerance updates);
  isActive := default (isActive c) (c_isActive updates);
  createdAt := createdAt c;
  updatedAt := now d
|}.

Definition updateConfig (configId : string) (config : ConfigUpdate) (d : Db) :
  option TradeConfig * Db :=
  let cs := map (fun c => if eqs (id c) configId then setConfig d config c else c)
                (tradeConfigs d) in
  (head (List.filter (fun c => eqs (id c) configId) cs), withConfigs d cs 0).

(** [ORDER BY ... DESC]: the later row first.  Rows of the same time come in
    the order that the merge sort gives them; the database promises none. *)
Definition laterConfig (a b : TradeConfig) : Prop := (updatedAt b <= updatedAt a)%Z.
Definition laterLog (a b : TradeLog) : Prop := (l_createdAt b <= l_createdAt a)%Z.

#[global] Instance laterConfig_dec : RelDecision laterConfig :=
  fun a b => Z_le_dec (updatedAt b) (updatedAt a).
#[global] Instance laterLog_dec : RelDecision laterLog :=
  fun a b => Z_le_dec (l_createdAt b) (l_createdAt a).

Definition getAllConfigs (userId : string) (d : Db) : list TradeConfig :=
  merge_sort laterConfig
    (List.filter (fun c => eqs (Storage.userId c) userId) (tradeConfigs d)).

Definition getAllTrades (userId : string) (d : Db) : list TradeLog :=
  merge_sort laterLog (List.filter (fun l => eqs (l_userId l) userId) (tradeLogs d)).

(** [limit] is 10 when it is not given. *)
Definition getRecentTrades (userId : string) (limit : option nat) (d : Db) : list TradeLog :=
  take (default 10%nat limit) (getAllTrades userId d).

Definition getAllBotStatuses (userId : string) (d : Db) : list BotStatus :=
  List.filter (fun b => eqs (b_userId b) userId) (botStatus d).

(** The sums that [getNetworkStats] keeps for one network. *)
Record Tally := {
  totalTrades : nat;
  successfulTrades : nat;
  failedTrades : nat;
  totalGasFees : Js.number;
  totalGasFeesUsd : Js.number;
  totalVolumeUsd : Js.number
}.

Definition noTally : Tally := {|
  totalTrades := 0; successfulTrades := 0; failedTrades := 0;
  totalGasFees := 0; totalGasFeesUsd := 0; totalVolumeUsd := 0
|}.

Record NetworkStats := {
  ns_network : string;
  ns_totalTrades : nat;
  ns_successfulTrades : nat;
  ns_failedTrades : nat;
  ns_totalGasFees : Js.Numeral;
  ns_totalGasFeesUsd : Js.Numeral;
  ns_totalVolumeUsd : Js.Numeral
}.

(** [parseFloat(column || '0')] *)
Definition parseOrZero (column : option Js.Numeral) : Js.number :=
  match column with Some s => Js.parseFloat s | None => 0 end.

(** The body of [trades.forEach] on the entry of the network of the log. *)
Definition tally (log : TradeLog) (stats : Tally) : Tally := {|
  totalTrades := S (totalTrades stats);
  successfulTrades :=
    if eqs (l_status log) "success" then S (successfulTrades stats)
    else successfulTrades stats;
  failedTrades :=
    if eqs (l_status log) "success" then failedTrades stats
    else if eqs (l_status log) "failed" then S (failedTrades stats)
    else failedTrades stats;
  totalGasFees := (totalGasFees stats + parseOrZero (l_gasFee log))%Q;
  totalGasFeesUsd := (totalGasFeesUsd stats + parseOrZero (l_gasFeeUsd log))%Q;
  totalVolumeUsd := (totalVolumeUsd stats + Js.parseFloat (l_amountUsd log))%Q
|}.

(** [networkMap.get(trade.network)] and the update of what it finds; the
    map is the list of its entries in insertion order. *)
Definition aggregate (networkMap : list (string * Tally)) (log : TradeLog) :
  list (string * Tally) :=
  map (fun entry => if eqs (fst entry) (l_network log)
                    then (fst entry, tally log (snd entry)) else entry)
      networkMap.

Definition report (entry : string * Tally) : NetworkStats := {|
  ns_network := fst entry;
  ns_totalTrades := totalTrades (snd entry);
  ns_successfulTrades := successfulTrades (snd entry);
  ns_failedTrades := failedTrades (snd entry);
  ns_totalGasFees := Js.toFixed (totalGasFees (snd entry)) 8;
  ns_totalGasFeesUsd := Js.toFixed (totalGasFeesUsd (snd entry)) 2;
  ns_totalVolumeUsd := Js.toFixed (totalVolumeUsd (snd entry)) 2
|}.

Definition getNetworkStats (userId : string) (d : Db) : list NetworkStats :=
  let trades := getAllTrades userId d in
  let networkMap := map (fun n => (n, noTally)) ["ETH"; "BASE"; "BNB"; "SOL"] in
  map report (fold_left aggregate trades networkMap).

(** What the statistics are measured against: the logs of a network, the
    logs of a status, the sums of one entry over a list of logs and the
    volume of a list of logs. *)
Definition onNetwork (n : string) (log : TradeLog) : bool := eqs n (l_network log).
Definition hasStatus (status : string) (log : TradeLog) : bool := eqs (l_status log) status.

Definition talliedOver (logs : list TradeLog) (stats : Tally) : Tally :=
  fold_left (fun stats log => tally log stats) logs stats.

Definition volumeOf (logs : list TradeLog) : Js.number :=
  fold_right (fun log sum => (Js.parseFloat (l_amountUsd log) + sum)%Q) 0%Q logs.

(** The test of [getActiveConfig]. *)
Definition forKey (u n : string) (c : TradeConfig) : bool :=
  eqs (userId c) u && eqs (network c) n && Bool.eqb (isActive c) true.

End Storage.

(** ** server/botScheduler.ts

    The scheduler object, the database and the outside world make up the
    state of the server.  [node-cron] is represented by what it does with a
    scheduled task: at every time that matches the cron expression it calls
    the task's function, and it does not wait for the promise of an earlier
    call (it is used here with its default options). *)

Module BotScheduler.
Import Storage.

(** The closure handed to [cron.schedule]: it holds [userId] and
    [config]. *)
Record ScheduledTask := {
  cronExpression : string;
  t_userId : string;
  t_config : TradeConfig
}.

Record System (W : Type) := {
  scheduledTasks : gmap string ScheduledTask;
  broadcaster : bool;
  db : Db;
  ext : W
}.
Arguments scheduledTasks {W}.
Arguments broadcaster {W}.
Arguments db {W}.
Arguments ext {W}.

(** The properties of the object literal [intervalMap].  The object also
    inherits those of [Object.prototype]: see [startBot]. *)
Definition intervalMap (interval : string) : option string :=
  if String.eqb interval "1min" then Some "*/1 * * * *"
  else if String.eqb interval "5min" then Some "*/5 * * * *"
  else if String.eqb interval "10min" then Some "*/10 * * * *"
  else if String.eqb interval "30min" then Some "*/30 * * * *"
  else if String.eqb interval "1hour" then Some "0 * * * *"
  else None.

Definition getBotKey (userId network : string) : string :=
  userId ++ ":" ++ network.

(** What [cron.schedule] throws for an expression that is not a string:
    [node-cron] validates the expression before it creates a task. *)
Definition notAPattern : Js.Error :=
  {| Js.name := "TypeError"; Js.message := "pattern must be a string!" |}.

Definition isDigit (c : ascii) : bool :=
  let n := nat_of_ascii c in ((48 <=? n) && (n <=? 57))%nat.

(** [parseInt(interval.replace(/\D/g, ''))]; [None] is [NaN]. *)
Definition parseIntDigits (interval : string) : option Z :=
  match List.filter isDigit (list_ascii_of_string interval) with
  | [] => None
  | ds => Some (fold_left (fun acc c => (acc * 10 + Z.of_nat (nat_of_ascii c - 48))%Z) ds 0%Z)
  end.

(** The date is a number of milliseconds (no daylight saving); [None] is
    the invalid date of an interval without a digit. *)
Definition calculateNextTradeTime (interval : string) (now : Z) : option Z :=
  match parseIntDigits interval with
  | None => None
  | Some minutes =>
      if Js.includes interval "hour" then Some (now + minutes * 3600000)%Z
      else Some (now + minutes * 60000)%Z
  end.

Section Scheduler.
Context {W : Type}.
Variable env : TradingService.Env W.
Variable tradingService : TradingService.Service.

Definition onDb {A} (f : Db -> A * Db) : M (System W) A :=
  fun s =>
    let r := f (db s) in
    MkRun (Returned (fst r))
          {| scheduledTasks := scheduledTasks s; broadcaster := broadcaster s;
             db := snd r; ext := ext s |} [].

Definition readDb {A} (f : Db -> A) : M (System W) A :=
  fun s => MkRun (Returned (f (db s))) s [].

Definition onExt {A} (m : M W A) : M (System W) A :=
  fun s =>
    let r := m (ext s) in
    MkRun (outcome r)
          {| scheduledTasks := scheduledTasks s; broadcaster := broadcaster s;
             db := db s; ext := world r |} (events r).

Definition onTasks (f : gmap string ScheduledTask -> gmap string ScheduledTask) :
  M (System W) unit :=
  fun s =>
    MkRun (Returned tt)
          {| scheduledTasks := f (scheduledTasks s); broadcaster := broadcaster s;
             db := db s; ext := ext s |} [].

Definition stopBot (userId network : string) : M (System W) unit :=
  let botKey := getBotKey userId network in
  onTasks (fun tasks =>
             match tasks !! botKey with
             | Some task => delete botKey tasks
             | None => tasks
             end).

(** [this.intervalMap[config.tradeInterval]] is one of the five cron
    expressions; or, for a property name of [Object.prototype], a value that
    is truthy and not a string, which passes the test [!cronExpression] and is
    refused by [cron.schedule]; or [undefined]. *)
Definition startBot (userId : string) (config : TradeConfig) : M (System W) unit :=
  let botKey := getBotKey userId (network config) in
  stopBot userId (network config) ;;;
  match intervalMap (tradeInterval config) with
  | None =>
      if Js.inherited (tradeInterval config) then throw notAPattern
      else
        throw {| Js.name := "Error";
                 Js.message := "Invalid trade interval: " ++ tradeInterval config |}
  | Some cronExpression =>
      let task := {| cronExpression := cronExpression;
                     t_userId := userId; t_config := config |} in
      onTasks (fun tasks => <[botKey := task]> tasks) ;;;
      now <- readDb now ;;
      onDb (upsertBotStatus userId (network config) {|
        s_isRunning := Some true;
        s_activeConfigId := Some (Some (id config));
        s_lastTradeAt := None;
        s_nextTradeAt := Some (calculateNextTradeTime (tradeInterval config) now);
        s_totalTradesCount := None;
        s_successfulTradesCount := None;
        s_failedTradesCount := None;
        s_totalVolumeUsd := None
      |}) ;;;
      ret tt
  end.

Definition isRunning (userId network : string) (s : System W) : bool :=
  bool_decide (is_Some (scheduledTasks s !! getBotKey userId network)).

(** [tradingService.executeTrade({ network: config.network as any, ... })].
    A string that names no network has no [Web3] instance and is not
    ['SOL'], so that [isNetworkAvailable] is false for it. *)
Definition trade (config : TradeConfig) : M W Dex.TradeResult :=
  match Schema.parseNetwork (network config) with
  | Some n =>
      TradingService.executeTrade env tradingService {|
        TradingService.network := n;
        TradingService.dex := dex config;
        TradingService.dexVersion :=
          if Js.truthyOpt (dexVersion config) then dexVersion config else None;
        TradingService.tokenAddress := contractAddress config;
        TradingService.amountUsd := Js.parseFloat (tradeAmountUsd config);
        TradingService.slippageTolerance := Js.parseFloat (slippageTolerance config);
        TradingService.maxGasRatio := Js.parseFloat (maxGasRatio config)
      |}
  | None =>
      ret (Dex.failure ("Network " ++ network config
                        ++ " not configured. Please add RPC_URL_" ++ network config
                        ++ " and PRIVATE_KEY_" ++ network config ++ " to environment."))
  end.

(** The row of "Create pending trade log". *)
Definition pending (userId : string) (config : TradeConfig) : InsertTradeLog := {|
  n_userId := userId;
  n_configId := Some (id config);
  n_network := network config;
  n_dex := dex config;
  n_tokenAddress := contractAddress config;
  n_tradeType := "automated";
  n_amountUsd := tradeAmountUsd config;
  n_status := "pending"
|}.

(** [executeTrade] up to its first [await]. *)
Definition beginTrade (userId : string) (config : TradeConfig) : M (System W) TradeLog :=
  onDb (createTradeLog (pending userId config)).

(** The counters after a trade: "Update bot status". *)
Definition advance (now : Z) (config : TradeConfig) (result : Dex.TradeResult)
           (botStatus : BotStatus) : BotStatusUpdate := {|
  s_isRunning := None;
  s_activeConfigId := None;
  s_lastTradeAt := Some (Some now);
  s_nextTradeAt := Some (calculateNextTradeTime (tradeInterval config) now);
  s_totalTradesCount := Some (b_totalTradesCount botStatus + 1)%Z;
  s_successfulTradesCount :=
    Some (if Dex.success result then (b_successfulTradesCount botStatus + 1)%Z
          else b_successfulTradesCount botStatus);
  s_failedTradesCount :=
    Some (if Dex.success result then b_failedTradesCount botStatus
          else (b_failedTradesCount botStatus + 1)%Z);
  s_totalVolumeUsd :=
    Some (if Dex.success result
          then Js.toFixed (Js.parseFloat (b_totalVolumeUsd botStatus)
                           + Js.parseFloat (tradeAmountUsd config)) 2
          else b_totalVolumeUsd botStatus)
|}.

(** The terminal fields of the log: "Update trade log with result". *)
Definition terminal (result : Dex.TradeResult) : TradeLogUpdate := {|
  u_status := Some (if Dex.success result then "success" else "failed");
  u_txHash := Dex.txHash result;
  u_tokenAmount := Dex.tokenAmount result;
  u_gasFee := Dex.gasFee result;
  u_gasFeeUsd := Dex.gasFeeUsd result;
  u_tokenPrice := Dex.tokenPrice result;
  u_slippage := Dex.slippage result;
  u_errorMessage := Dex.errorMessage result
|}.

(** The rest of [executeTrade]: its [try] and [catch]. *)
Definition finishTrade (userId : string) (config : TradeConfig) (tradeLog : TradeLog) :
  M (System W) unit :=
  tryCatch
    (result <- onExt (trade config) ;;
     onDb (updateTradeLog (l_id tradeLog) (terminal result)) ;;;
     botStatus <- readDb (getBotStatus userId (network config)) ;;
     (match botStatus with
      | Some botStatus =>
          now <- readDb now ;;
          onDb (updateBotStatus userId (network config)
                  (advance now config result botStatus)) ;;;
          ret tt
      | None => ret tt
      end) ;;;
     fun s =>
       (if broadcaster s
        then emit (Broadcast userId "new_trade") ;;; emit (Broadcast userId "bot_status")
        else ret tt) s)
    (fun error =>
       onDb (updateTradeLog (l_id tradeLog) {|
         u_status := Some "failed";
         u_txHash := None; u_tokenAmount := None; u_gasFee := None;
         u_gasFeeUsd := None; u_tokenPrice := None; u_slippage := None;
         u_errorMessage :=
           Some (if Js.truthy (Js.message error) then Js.message error
                 else "Unknown error")
       |}) ;;;
       ret tt).

Definition executeTrade (userId : string) (config : TradeConfig) : M (System W) unit :=
  tradeLog <- beginTrade userId config ;;
  finishTrade userId config tradeLog.

(** *** The server at run time

    [executeTrade] runs from one [await] to the next, and other code runs in
    between: requests, firings, and the steps of other executions.  An
    execution is followed here from the creation of its log on: it waits for
    its trade ([running]), and once the trade has returned it goes through the
    three statements of the journal that follow, one at a time ([resumed]).
    [Settle] is the schedule in which nothing else happens between the return
    of the trade and the end of the execution. *)
Record Execution := {
  e_userId : string;
  e_config : TradeConfig;
  e_tradeLog : TradeLog
}.

(** What an execution does next after its trade has returned. *)
Inductive Stage :=
| Traded (result : Dex.TradeResult)        (* [await storage.updateTradeLog] *)
| Logged (result : Dex.TradeResult)        (* [await storage.getBotStatus] *)
| Counting (result : Dex.TradeResult) (botStatus : BotStatus).
                                           (* [await storage.updateBotStatus], with the row read *)

Record Resumed := {
  r_execution : Execution;
  r_stage : Stage
}.

Record Runtime := {
  system : System W;
  running : list Execution;
  resumed : list Resumed;
  trace : list Event
}.

Inductive Action :=
| Start (userId : string) (config : TradeConfig)   (* a request calls startBot *)
| Stop (userId network : string)                   (* a request calls stopBot *)
| Fire (botKey : string)                           (* node-cron: the time of a task has come *)
| Settle (i : nat)                                 (* the trade of a running execution returns,
                                                      and the execution runs to its end *)
| Return (i : nat)                                 (* the trade of a running execution returns *)
| Resume (j : nat).                                (* a resumed execution does its next statement *)

Definition after {A} (rt : Runtime) (r : Run (System W) A) (running' : list Execution) :
  Runtime := {|
    system := world r;
    running := running';
    resumed := resumed rt;
    trace := trace rt ++ events r
  |}.

(** The [catch] block of [executeTrade]. *)
Definition failTrade (tradeLog : TradeLog) (error : Js.Error) : M (System W) unit :=
  onDb (updateTradeLog (l_id tradeLog) {|
    u_status := Some "failed";
    u_txHash := None; u_tokenAmount := None; u_gasFee := None;
    u_gasFeeUsd := None; u_tokenPrice := None; u_slippage := None;
    u_errorMessage :=
      Some (if Js.truthy (Js.message error) then Js.message error
            else "Unknown error")
  |}) ;;;
  ret tt.

(** "Broadcast updates via WebSocket" *)
Definition announce (userId : string) : M (System W) unit :=
  fun s =>
    (if broadcaster s
     then emit (Broadcast userId "new_trade") ;;; emit (Broadcast userId "bot_status")
     else ret tt) s.

(** [executeTrade] from the return of its trade to the next [await]; [None]
    when the execution throws there, after its [catch] block. *)
Definition returnTrade (e : Execution) : M (System W) (option Stage) :=
  tryCatch
    (result <- onExt (trade (e_config e)) ;;
     ret (Some (Traded result)))
    (fun error => failTrade (e_tradeLog e) error ;;; ret None).

(** [executeTrade] from one [await] of its [try] block to the next; [None]
    when the execution has come to its end. *)
Definition resume (e : Execution) (stage : Stage) : M (System W) (option Stage) :=
  tryCatch
    (match stage with
     | Traded result =>
         onDb (updateTradeLog (l_id (e_tradeLog e)) (terminal result)) ;;;
         ret (Some (Logged result))
     | Logged result =>
         botStatus <- readDb (getBotStatus (e_userId e) (network (e_config e))) ;;
         match botStatus with
         | Some botStatus => ret (Some (Counting result botStatus))
         | None => announce (e_userId e) ;;; ret None
         end
     | Counting result botStatus =>
         now <- readDb now ;;
         onDb (updateBotStatus (e_userId e) (network (e_config e))
                 (advance now (e_config e) result botStatus)) ;;;
         announce (e_userId e) ;;;
         ret None
     end)
    (fun error => failTrade (e_tradeLog e) error ;;; ret None).

Definition step (a : Action) (rt : Runtime) : Runtime :=
  match a with
  | Start userId config =>
      after rt (startBot userId config (system rt)) (running rt)
  | Stop userId network =>
      after rt (stopBot userId network (system rt)) (running rt)
  | Fire botKey =>
      match scheduledTasks (system rt) !! botKey with
      | Some task =>
          let r := beginTrade (t_userId task) (t_config task) (system rt) in
          match outcome r with
          | Returned tradeLog =>
              after rt r
                (running rt ++ [{| e_userId := t_userId task;
                                   e_config := t_config task;
                                   e_tradeLog := tradeLog |}])
          | Thrown _ => after rt r (running rt)
          end
      | None => rt
      end
  | Settle i =>
      match running rt !! i with
      | Some e =>
          after rt (finishTrade (e_userId e) (e_config e) (e_tradeLog e) (system rt))
                (take i (running rt) ++ drop (S i) (running rt))
      | None => rt
      end
  | Return i =>
      match running rt !! i with
      | Some e =>
          let r := returnTrade e (system rt) in
          {| system := world r;
             running := take i (running rt) ++ drop (S i) (running rt);
             resumed := match outcome r with
                        | Returned (Some stage) =>
                            resumed rt ++ [{| r_execution := e; r_stage := stage |}]
                        | _ => resumed rt
                        end;
             trace := trace rt ++ events r |}
      | None => rt
      end
  | Resume j =>
      match resumed rt !! j with
      | Some x =>
          let r := resume (r_execution x) (r_stage x) (system rt) in
          {| system := world r;
             running := running rt;
             resumed := match outcome r with
                        | Returned (Some stage) =>
                            <[j := {| r_execution := r_execution x; r_stage := stage |}]>
                              (resumed rt)
                        | _ => take j (resumed rt) ++ drop (S j) (resumed rt)
                        end;
             trace := trace rt ++ events r |}
      | None => rt
      end
  end.

Definition run (actions : list Action) (rt : Runtime) : Runtime :=
  fold_left (fun rt a => step a rt) actions rt.

(** The executions of one bot that are under way. *)
Definition runningFor (userId network : string) (rt : Runtime) : list Execution :=
  List.filter (fun e => String.eqb (e_userId e) userId
                        && String.eqb (Storage.network (e_config e)) network)
              (running rt).

End Scheduler.

(** *** The other operations of the scheduler *)

Section Control.
Context {W : Type}.

Definition setBroadcaster : M (System W) unit :=
  fun s =>
    MkRun (Returned tt)
          {| scheduledTasks := scheduledTasks s; broadcaster := true;
             db := db s; ext := ext s |} [].

Definition networks : list string := ["ETH"; "BASE"; "BNB"; "SOL"].

(** [networks.forEach(network => this.stopBot(userId, network))] *)
Definition stopAllBots (userId : string) : M (System W) unit :=
  fold_right (fun network rest => stopBot userId network ;;; rest) (ret tt) networks.

Definition getRunningNetworks (userId : string) (s : System W) : list string :=
  List.filter (fun network => isRunning userId network s) networks.

End Control.

(** A name without a colon. *)
Definition colonFree (name : string) : bool :=
  forallb (fun c => negb (Ascii.eqb c ":")) (list_ascii_of_string name).

End BotScheduler.

(** ** server/routes.ts and the request schema of shared/schema.ts

    The handlers of the requests that change something.  A handler runs for
    an authenticated user ([req.user.claims.sub]) on the state of the server
    and ends in a response; [broadcastToUser] is the event [Broadcast]. *)

Module Routes.
Import Schema.

(** A JSON value of a request body, as far as the schema tells values
    apart.  A number is a finite one: a literal such as [1e999], which
    [JSON.parse] reads as [Infinity], is not covered.  It is given by the
    decimal that JavaScript prints for it ([toString]), which is the shortest
    one that reads back as the same number; a body that writes more digits
    stands for the number of that decimal. *)
Inductive Json :=
| JNull
| JBool (b : bool)
| JNumber (x : Js.number)
| JString (s : string)
| JOther.

(** The body of [POST /api/trades/manual]; [None] is a key that is absent. *)
Record ManualTradeBody := {
  b_contractAddress : option Json;
  b_network : option Json;
  b_dexVersion : option Json;
  b_amountUsd : option Json;
  b_slippageTolerance : option Json
}.

(** [ManualTradeRequest] *)
Record ManualTradeRequest := {
  contractAddress : string;
  network : NetworkType;
  dexVersion : option string;
  amountUsd : Js.number;
  slippageTolerance : Js.number
}.

(** [manualTradeSchema.parse]: [None] when it throws a [ZodError]. *)
Definition manualTradeSchema (body : ManualTradeBody) : option ManualTradeRequest :=
  match b_contractAddress body, b_network body, b_amountUsd body with
  | Some (JString contractAddress), Some (JString network), Some (JNumber amountUsd) =>
      match parseNetwork network,
            match b_dexVersion body with
            | None => Some None
            | Some (JString version) => Some (Some version)
            | Some _ => None
            end,
            match b_slippageTolerance body with
            | None => Some (5 : Js.number)
            | Some (JNumber slippage) =>
                if Qle_bool (1 # 10) slippage && Qle_bool slippage 50
                then Some slippage else None
            | Some _ => None
            end with
      | Some network, Some dexVersion, Some slippageTolerance =>
          if (1 <=? String.length contractAddress)%nat && Qle_bool 1 amountUsd then
            Some {| contractAddress := contractAddress;
                    network := network;
                    dexVersion := dexVersion;
                    amountUsd := amountUsd;
                    slippageTolerance := slippageTolerance |}
          else None
      | _, _, _ => None
      end
  | _, _, _ => None
  end.

Inductive Body :=
| Message (message : string)
| Config (config : Storage.TradeConfig)
| Trade (trade : option Storage.TradeLog)
| Refusal (message : option string) (trade : option Storage.TradeLog).

Record Response := { status : nat; body : Body }.

Definition dexMap (n : NetworkType) : string :=
  match n with
  | ETH => "Uniswap"
  | BASE => "Uniswap"
  | BNB => "PancakeSwap"
  | SOL => "Jupiter"
  end.

(** The parameters of a manual trade. *)
Definition manualParams (validatedData : ManualTradeRequest) : TradingService.TradeParams := {|
  TradingService.network := network validatedData;
  TradingService.dex := dexMap (network validatedData);
  TradingService.dexVersion :=
    if Js.truthyOpt (dexVersion validatedData) then dexVersion validatedData
    else Some "auto";
  TradingService.tokenAddress := contractAddress validatedData;
  TradingService.amountUsd := amountUsd validatedData;
  TradingService.slippageTolerance := slippageTolerance validatedData;
  TradingService.maxGasRatio := 8 # 10
|}.

(** "Update bot status counters for this network" *)
Definition count (amountUsd : Js.number) (result : Dex.TradeResult)
           (botStatus : Storage.BotStatus) : Storage.BotStatusUpdate := {|
  Storage.s_isRunning := None;
  Storage.s_activeConfigId := None;
  Storage.s_lastTradeAt := None;
  Storage.s_nextTradeAt := None;
  Storage.s_totalTradesCount := Some (Storage.b_totalTradesCount botStatus + 1)%Z;
  Storage.s_successfulTradesCount :=
    Some (if Dex.success result then (Storage.b_successfulTradesCount botStatus + 1)%Z
          else Storage.b_successfulTradesCount botStatus);
  Storage.s_failedTradesCount :=
    Some (if Dex.success result then Storage.b_failedTradesCount botStatus
          else (Storage.b_failedTradesCount botStatus + 1)%Z);
  Storage.s_totalVolumeUsd :=
    Some (if Dex.success result
          then Js.toFixed (Js.parseFloat (Storage.b_totalVolumeUsd botStatus) + amountUsd) 2
          else Storage.b_totalVolumeUsd botStatus)
|}.

Section Handlers.
Context {W : Type}.
Variable env : TradingService.Env W.
Variable tradingService : TradingService.Service.
(** The message of the [ZodError] of a body that the schema refuses. *)
Variable zodMessage : ManualTradeBody -> string.

Local Abbreviation System := (BotScheduler.System W).

(** A statement of the journal that may throw. *)
Definition onDbTry {A} (f : Storage.Db -> Outcome A * Storage.Db) : M System A :=
  fun s =>
    let r := f (BotScheduler.db s) in
    MkRun (fst r)
          {| BotScheduler.scheduledTasks := BotScheduler.scheduledTasks s;
             BotScheduler.broadcaster := BotScheduler.broadcaster s;
             BotScheduler.db := snd r;
             BotScheduler.ext := BotScheduler.ext s |} [].

(** [error.message || fallback] *)
Definition messageOr (fallback : string) (error : Js.Error) : string :=
  if Js.truthy (Js.message error) then Js.message error else fallback.

(** [POST /api/bot/start] with [req.body.network]. *)
Definition startBot (userId : string) (network : option string) : M System Response :=
  tryCatch
    (match network with
     | Some network =>
         if Js.truthy network then
           activeConfig <- BotScheduler.readDb (Storage.getActiveConfig userId network) ;;
           match activeConfig with
           | None =>
               ret {| status := 400;
                      body := Message ("No active configuration found for " ++ network
                                ++ ". Please create a trading configuration first.") |}
           | Some activeConfig =>
               BotScheduler.startBot userId activeConfig ;;;
               emit (Broadcast userId "bot_status") ;;;
               ret {| status := 200;
                      body := Message ("Bot started successfully on " ++ network) |}
           end
         else ret {| status := 400; body := Message "Network is required" |}
     | None => ret {| status := 400; body := Message "Network is required" |}
     end)
    (fun error =>
       ret {| status := 500; body := Message (messageOr "Failed to start bot" error) |}).

(** [POST /api/bot/stop] with [req.body.network]. *)
Definition stopBot (userId : string) (network : option string) : M System Response :=
  tryCatch
    (match network with
     | Some network =>
         if Js.truthy network then
           BotScheduler.stopBot userId network ;;;
           BotScheduler.onDb (Storage.updateBotStatus userId network {|
             Storage.s_isRunning := Some false;
             Storage.s_activeConfigId := None;
             Storage.s_lastTradeAt := None;
             Storage.s_nextTradeAt := Some None;
             Storage.s_totalTradesCount := None;
             Storage.s_successfulTradesCount := None;
             Storage.s_failedTradesCount := None;
             Storage.s_totalVolumeUsd := None
           |}) ;;;
           emit (Broadcast userId "bot_status") ;;;
           ret {| status := 200;
                  body := Message ("Bot stopped successfully on " ++ network) |}
         else ret {| status := 400; body := Message "Network is required" |}
     | None => ret {| status := 400; body := Message "Network is required" |}
     end)
    (fun error =>
       ret {| status := 500; body := Message (messageOr "Failed to stop bot" error) |}).

(** [{ ...req.body, userId }] after [insertTradeConfigSchema.parse]. *)
Definition withUser (userId : string) (config : Storage.InsertTradeConfig) :
  Storage.InsertTradeConfig := {|
  Storage.i_userId := Some userId;
  Storage.i_contractAddress := Storage.i_contractAddress config;
  Storage.i_walletAddress := Storage.i_walletAddress config;
  Storage.i_network := Storage.i_network config;
  Storage.i_dex := Storage.i_dex config;
  Storage.i_dexVersion := Storage.i_dexVersion config;
  Storage.i_tradeInterval := Storage.i_tradeInterval config;
  Storage.i_tradeAmountUsd := Storage.i_tradeAmountUsd config;
  Storage.i_maxGasRatio := Storage.i_maxGasRatio config;
  Storage.i_slippageTolerance := Storage.i_slippageTolerance config;
  Storage.i_isActive := Storage.i_isActive config
|}.

(** [POST /api/configs]; [parsed] is what [insertTradeConfigSchema.parse]
    makes of the body: a config, or the [ZodError] it throws. *)
Definition createConfig (userId : string) (parsed : Outcome Storage.InsertTradeConfig) :
  M System Response :=
  tryCatch
    (validatedData <- lift parsed ;;
     config <- onDbTry (Storage.createConfig (withUser userId validatedData)) ;;
     (fun s =>
        (if BotScheduler.isRunning userId (Storage.network config) s then
           BotScheduler.stopBot userId (Storage.network config) ;;;
           if Storage.isActive config then BotScheduler.startBot userId config else ret tt
         else ret tt) s) ;;;
     ret {| status := 200; body := Config config |})
    (fun error =>
       ret {| status := 400;
              body := Message (messageOr "Failed to create configuration" error) |}).

(** [POST /api/trades/manual] *)
Definition manualTrade (userId : string) (requestBody : ManualTradeBody) : M System Response :=
  tryCatch
    (validatedData <- lift (match manualTradeSchema requestBody with
                            | Some validatedData => Returned validatedData
                            | None => Thrown {| Js.name := "ZodError";
                                                Js.message := zodMessage requestBody |}
                            end) ;;
     tradeLog <- onDbTry (Storage.createTradeLogOf (amountUsd validatedData)
       (fun amountUsd => {|
          Storage.n_userId := userId;
          Storage.n_configId := None;
          Storage.n_network := networkName (network validatedData);
          Storage.n_dex := dexMap (network validatedData);
          Storage.n_tokenAddress := contractAddress validatedData;
          Storage.n_tradeType := "manual";
          Storage.n_amountUsd := amountUsd;
          Storage.n_status := "pending"
        |})) ;;
     result <- BotScheduler.onExt
       (TradingService.executeTrade env tradingService (manualParams validatedData)) ;;
     updatedLog <- BotScheduler.onDb
       (Storage.updateTradeLog (Storage.l_id tradeLog) (BotScheduler.terminal result)) ;;
     botStatus <- BotScheduler.readDb
       (Storage.getBotStatus userId (networkName (network validatedData))) ;;
     (match botStatus with
      | Some botStatus =>
          BotScheduler.onDb
            (Storage.updateBotStatus userId (networkName (network validatedData))
               (count (amountUsd validatedData) result botStatus)) ;;;
          ret tt
      | None => ret tt
      end) ;;;
     emit (Broadcast userId "new_trade") ;;;
     if negb (Dex.success result) then
       ret {| status := 400; body := Refusal (Dex.errorMessage result) updatedLog |}
     else ret {| status := 200; body := Trade updatedLog |})
    (fun error =>
       ret {| status := 400; body := Message (messageOr "Failed to execute trade" error) |}).

End Handlers.

End Routes.

(** ** A concrete server

    One environment whose outside world is a record of the answers that the
    node, the price source and the Jupiter API give; it is used to run the
    code on concrete inputs. *)

Module Scenario.
Import Schema Dex.

Record World := {
  gasPriceWei : Outcome Z;
  coinPrice : string -> Outcome Js.number;
  tierQuote : Z -> Outcome N;
  v2Result : TradeResult;
  submitted : nat
}.

Definition submit (w : World) : World := {|
  gasPriceWei := gasPriceWei w; coinPrice := coinPrice w; tierQuote := tierQuote w;
  v2Result := v2Result w; submitted := S (submitted w)
|}.

Definition rpc : Chain.Rpc World := {|
  Chain.getGasPrice := fun _ w => (gasPriceWei w, w);
  Chain.decimals := fun _ _ w => (Returned 18%Z, w);
  Chain.quoteExactInputSingle := fun _ _ q w => (tierQuote w (Chain.q_fee q), w);
  Chain.estimateGas := fun _ _ w => (Returned 150000%Z, w);
  Chain.sendSignedTransaction := fun _ _ w => (Returned "0xabc", submit w);
  Chain.toWei := fun x => Returned (Qfloor (x * inject_Z (Js.pow10 18)));
  Chain.signTransaction := fun _ _ => Returned "0xsigned"
|}.

Definition api : Jupiter.Api World := {|
  Jupiter.quoteGet := fun _ w => (Returned (Some {| Jupiter.outAmount := 2500000 |}), w);
  Jupiter.swapPost := fun _ w => (Returned "AQAB", w);
  Jupiter.signSwapTransaction := fun _ _ => Returned "signed";
  Jupiter.sendRawTransaction := fun _ _ w => (Returned "5sig", submit w);
  Jupiter.getLatestBlockhash := fun _ w =>
    (Returned {| Jupiter.blockhash := "hash"; Jupiter.lastValidBlockHeight := 100 |}, w);
  Jupiter.confirmTransaction := fun _ _ _ w => (Returned tt, w);
  Jupiter.getMint := fun _ _ w => (Returned 6%Z, w)
|}.

Definition penv : gmap string string :=
  list_to_map [
    ("RPC_URL_ETH", "https://eth.example"); ("PRIVATE_KEY_ETH", "0xkey");
    ("RPC_URL_BASE", "https://base.example"); ("PRIVATE_KEY_BASE", "0xkey");
    ("RPC_URL_BNB", "https://bnb.example"); ("PRIVATE_KEY_BNB", "0xkey");
    ("RPC_URL_SOL", "https://sol.example"); ("PRIVATE_KEY_SOL", "base58key")
  ].

Definition env : TradingService.Env World := {|
  TradingService.process_env := penv;
  TradingService.privateKeyToAccount := fun _ => Returned "0xWallet";
  TradingService.keypairFromSecretKey := fun _ => Returned "SoLWallet";
  TradingService.fetchPriceFromAPI := fun coinId w => (coinPrice w coinId, w);
  TradingService.rpc := rpc;
  TradingService.uniswapClient := fun _ => call (fun w => (Returned (v2Result w), submit w));
  TradingService.uniswapV3Client := UniswapV3.executeSwap rpc;
  TradingService.pancakeswapClient := fun _ => call (fun w => (Returned (v2Result w), submit w));
  TradingService.jupiterClient := Jupiter.executeSwap api;
  TradingService.numberToString := fun x => Js.renderNumeral (Js.toFixed x 2)
|}.

Definition tradingService : TradingService.Service := TradingService.constructor penv.

Definition swapped : TradeResult := {|
  success := true; txHash := Some "0xv2"; tokenAmount := None; gasFee := None;
  gasFeeUsd := None; tokenPrice := None; slippage := None; errorMessage := None
|}.

Definition apiDown : Js.Error := {| Js.name := "Error"; Js.message := "CoinGecko API error: 500" |}.
Definition reverted : Js.Error := {| Js.name := "Error"; Js.message := "execution reverted" |}.
Definition http429 : Js.Error := {| Js.name := "Error"; Js.message := "HTTP 429" |}.
Definition timeout : Js.Error := {| Js.name := "Error"; Js.message := "connect ETIMEDOUT" |}.

(** Gas at 10 gwei, the price source down (the fallback prices apply),
    no V3 pool at any tier. *)
Definition calm : World := {|
  gasPriceWei := Returned 10000000000%Z;
  coinPrice := fun _ => Thrown apiDown;
  tierQuote := fun _ => Thrown reverted;
  v2Result := swapped;
  submitted := 0
|}.

(** The same with a pool at the tiers 500 and 3000. *)
Definition pools : World := {|
  gasPriceWei := Returned 10000000000%Z;
  coinPrice := fun _ => Thrown apiDown;
  tierQuote := fun fee =>
    if (fee =? 500)%Z then Returned 700%N
    else if (fee =? 3000)%Z then Returned 700%N
    else if (fee =? 100)%Z then Returned 0%N
    else Thrown reverted;
  v2Result := swapped;
  submitted := 0
|}.

(** The same as [calm] when the node does not answer the gas price. *)
Definition blind : World := {|
  gasPriceWei := Thrown timeout;
  coinPrice := fun _ => Thrown apiDown;
  tierQuote := fun _ => Thrown reverted;
  v2Result := swapped;
  submitted := 0
|}.

Definition token : string := "0x4200000000000000000000000000000000000042".
Definition mint : string := "EPjFWdd5AufqSSqeM2qN1xzybapC8G4wEGGkZwyTDt1v".

Definition manual (n : NetworkType) (version : option string) (address : string)
           (amountUsd slippage maxGasRatio : Js.number) : TradingService.TradeParams := {|
  TradingService.network := n;
  TradingService.dex := match n with BNB => "PancakeSwap" | SOL => "Jupiter" | _ => "Uniswap" end;
  TradingService.dexVersion := version;
  TradingService.tokenAddress := address;
  TradingService.amountUsd := amountUsd;
  TradingService.slippageTolerance := slippage;
  TradingService.maxGasRatio := maxGasRatio
|}.

Definition executeTrade := TradingService.executeTrade env tradingService.

(** 0.025 ETH for the token on BASE at 1 percent. *)
Definition swapOnBase : EvmSwapParams := {|
  web3 := {| rpcUrl := "https://base.example" |};
  Dex.network := BASE;
  Dex.tokenAddress := token;
  amountETH := 25 # 1000;
  Dex.slippageTolerance := 1;
  walletAddress := "0xWallet";
  privateKey := "0xkey";
  nativeTokenPriceUsd := 2000
|}.

(** A configuration for [alice] on [network], and the row it becomes. *)
Definition request (network : string) (active : bool) : Storage.InsertTradeConfig := {|
  Storage.i_userId := Some "alice";
  Storage.i_contractAddress := token;
  Storage.i_walletAddress := "0xWallet";
  Storage.i_network := network;
  Storage.i_dex := "Uniswap";
  Storage.i_dexVersion := Some "auto";
  Storage.i_tradeInterval := "10min";
  Storage.i_tradeAmountUsd := {| Js.unscaled := 5000; Js.scale := 2 |};
  Storage.i_maxGasRatio := Some {| Js.unscaled := 50; Js.scale := 2 |};
  Storage.i_slippageTolerance := Some {| Js.unscaled := 100; Js.scale := 2 |};
  Storage.i_isActive := active
|}.

Definition bot : Storage.TradeConfig :=
  Storage.configRow Storage.emptyDb "alice" (request "BASE" true).

(** A pending log of [bot]. *)
Definition pendingLog : Storage.InsertTradeLog := {|
  Storage.n_userId := "alice";
  Storage.n_configId := Some (Storage.id bot);
  Storage.n_network := "BASE";
  Storage.n_dex := "Uniswap";
  Storage.n_tokenAddress := token;
  Storage.n_tradeType := "automated";
  Storage.n_amountUsd := {| Js.unscaled := 5000; Js.scale := 2 |};
  Storage.n_status := "pending"
|}.

Definition succeeded : Storage.TradeLogUpdate := {|
  Storage.u_status := Some "success"; Storage.u_txHash := Some "0xabc";
  Storage.u_tokenAmount := None; Storage.u_gasFee := None; Storage.u_gasFeeUsd := None;
  Storage.u_tokenPrice := None; Storage.u_slippage := None; Storage.u_errorMessage := None
|}.

Definition failed : Storage.TradeLogUpdate := {|
  Storage.u_status := Some "failed"; Storage.u_txHash := None;
  Storage.u_tokenAmount := None; Storage.u_gasFee := None; Storage.u_gasFeeUsd := None;
  Storage.u_tokenPrice := None; Storage.u_slippage := None;
  Storage.u_errorMessage := Some "connection lost"
|}.

(** The server before anything has happened, in the world [w]. *)
Definition boot (w : World) : BotScheduler.Runtime (W := World) := {|
  BotScheduler.system := {|
    BotScheduler.scheduledTasks := ∅;
    BotScheduler.broadcaster := true;
    BotScheduler.db := Storage.emptyDb;
    BotScheduler.ext := w
  |};
  BotScheduler.running := [];
  BotScheduler.resumed := [];
  BotScheduler.trace := []
|}.

Definition run := BotScheduler.run env tradingService.

(** A V2 router with a pool that pays 1000 units for any amount, and one
    without a pool. *)
Definition router : RouterV2.Router World := {|
  RouterV2.getAmountsOut := fun _ _ amountIn _ w => (Returned [Z.to_N amountIn; 1000%N], w);
  RouterV2.estimateGas := fun _ _ w => (Returned 150000%Z, w);
  RouterV2.signTransaction := fun _ _ => Returned "0xsigned";
  RouterV2.dateNow := fun _ => 1700000000000%Z
|}.

Definition dryRouter : RouterV2.Router World := {|
  RouterV2.getAmountsOut := fun _ _ _ _ w => (Thrown reverted, w);
  RouterV2.estimateGas := fun _ _ w => (Returned 150000%Z, w);
  RouterV2.signTransaction := fun _ _ => Returned "0xsigned";
  RouterV2.dateNow := fun _ => 1700000000000%Z
|}.

(** The row [bot] with another trade interval. *)
Definition every (interval : string) : Storage.TradeConfig :=
  Storage.setConfig Storage.emptyDb {|
    Storage.c_userId := None; Storage.c_contractAddress := None;
    Storage.c_walletAddress := None; Storage.c_network := None; Storage.c_dex := None;
    Storage.c_dexVersion := None; Storage.c_tradeInterval := Some interval;
    Storage.c_tradeAmountUsd := None; Storage.c_maxGasRatio := None;
    Storage.c_slippageTolerance := None; Storage.c_isActive := None
  |} bot.

(** A configuration for [alice] with a slippage tolerance of 10 percent. *)
Definition steepOn (network : string) : Storage.InsertTradeConfig := {|
  Storage.i_userId := Some "alice";
  Storage.i_contractAddress := token;
  Storage.i_walletAddress := "0xWallet";
  Storage.i_network := network;
  Storage.i_dex := "Uniswap";
  Storage.i_dexVersion := None;
  Storage.i_tradeInterval := "10min";
  Storage.i_tradeAmountUsd := {| Js.unscaled := 5000; Js.scale := 2 |};
  Storage.i_maxGasRatio := Some {| Js.unscaled := 50; Js.scale := 2 |};
  Storage.i_slippageTolerance := Some {| Js.unscaled := 1000; Js.scale := 2 |};
  Storage.i_isActive := true
|}.


(** The row [bot] with the gas limit -0.50. *)
Definition negativeLimit : Storage.TradeConfig :=
  Storage.setConfig Storage.emptyDb {|
    Storage.c_userId := None; Storage.c_contractAddress := None;
    Storage.c_walletAddress := None; Storage.c_network := None; Storage.c_dex := None;
    Storage.c_dexVersion := None; Storage.c_tradeInterval := None;
    Storage.c_tradeAmountUsd := None;
    Storage.c_maxGasRatio := Some {| Js.unscaled := -50; Js.scale := 2 |};
    Storage.c_slippageTolerance := None; Storage.c_isActive := None
  |} bot.

(** The body of a manual trade of 10 USD on Solana that names no slippage
    and no version, and that of a trade of half a dollar. *)
Definition order : Routes.ManualTradeBody := {|
  Routes.b_contractAddress := Some (Routes.JString mint);
  Routes.b_network := Some (Routes.JString "SOL");
  Routes.b_dexVersion := None;
  Routes.b_amountUsd := Some (Routes.JNumber 10);
  Routes.b_slippageTolerance := None
|}.

Definition tooSmall : Routes.ManualTradeBody := {|
  Routes.b_contractAddress := Some (Routes.JString mint);
  Routes.b_network := Some (Routes.JString "SOL");
  Routes.b_dexVersion := None;
  Routes.b_amountUsd := Some (Routes.JNumber (1 # 2));
  Routes.b_slippageTolerance := None
|}.

(** The server on which alice has created a config for BASE whose interval
    is "2min", and no bot runs. *)
Definition odd : BotScheduler.System World := {|
  BotScheduler.scheduledTasks := ∅;
  BotScheduler.broadcaster := true;
  BotScheduler.db :=
    snd (Storage.createConfig {|
           Storage.i_userId := Some "alice";
           Storage.i_contractAddress := token;
           Storage.i_walletAddress := "0xWallet";
           Storage.i_network := "BASE";
           Storage.i_dex := "Uniswap";
           Storage.i_dexVersion := None;
           Storage.i_tradeInterval := "2min";
           Storage.i_tradeAmountUsd := {| Js.unscaled := 5000; Js.scale := 2 |};
           Storage.i_maxGasRatio := None;
           Storage.i_slippageTolerance := None;
           Storage.i_isActive := true
         |} Storage.emptyDb);
  BotScheduler.ext := calm
|}.

(** The handlers on this server: a [ZodError] says "invalid". *)
Definition manualTrade :=
  Routes.manualTrade env tradingService (fun _ => "invalid").

(** The body of a manual trade of a hundred million USD on Solana. *)
Definition tooLarge : Routes.ManualTradeBody := {|
  Routes.b_contractAddress := Some (Routes.JString mint);
  Routes.b_network := Some (Routes.JString "SOL");
  Routes.b_dexVersion := None;
  Routes.b_amountUsd := Some (Routes.JNumber 100000000);
  Routes.b_slippageTolerance := None
|}.

End Scenario.


(** * Properties *)

(** ** Runs of computations *)

Section RunFacts.
Context {W : Type}.

Lemma run_eta {A} (r : Run W A) : MkRun (outcome r) (world r) (events r) = r.
Proof. now destruct r. Qed.

Lemma bind_returned {A B} (m : M W A) (f : A -> M W B) w a :
  outcome (m w) = Returned a ->
  bind m f w = MkRun (outcome (f a (world (m w)))) (world (f a (world (m w))))
                     (events (m w) ++ events (f a (world (m w)))).
Proof. intros H. unfold bind. now rewrite H. Qed.

Lemma bind_thrown {A B} (m : M W A) (f : A -> M W B) w e :
  outcome (m w) = Thrown e ->
  bind m f w = MkRun (Thrown e) (world (m w)) (events (m w)).
Proof. intros H. unfold bind. now rewrite H. Qed.

Lemma tryCatch_returned {A} (m : M W A) h w a :
  outcome (m w) = Returned a -> tryCatch m h w = m w.
Proof. intros H. unfold tryCatch. now rewrite H. Qed.

Lemma tryCatch_thrown {A} (m : M W A) h w e :
  outcome (m w) = Thrown e ->
  tryCatch m h w = MkRun (outcome (h e (world (m w)))) (world (h e (world (m w))))
                         (events (m w) ++ events (h e (world (m w)))).
Proof. intros H. unfold tryCatch. now rewrite H. Qed.

Lemma bind_ret_r {A} (m : M W A) w : bind m (fun a => ret a) w = m w.
Proof.
  unfold bind, ret. destruct (m w) as [[a|e] w' evs]; simpl; [|reflexivity].
  now rewrite app_nil_r.
Qed.

(** A [try] whose handler returns always returns. *)
Lemma tryCatch_total {A} (m : M W A) (h : Js.Error -> A) w :
  exists a, outcome (tryCatch m (fun e => ret (h e)) w) = Returned a.
Proof.
  unfold tryCatch. destruct (outcome (m w)) as [a|e] eqn:H.
  - exists a. exact H.
  - exists (h e). reflexivity.
Qed.
Lemma returns_ret {A} (a : A) (P : A -> Prop) : P a -> returns (W := W) (ret a) P.
Proof. intros H w a' Ha. inversion Ha. now subst. Qed.

Lemma returns_bind {A B} (m : M W A) (f : A -> M W B) (P : B -> Prop) :
  (forall a, returns (f a) P) -> returns (bind m f) P.
Proof.
  intros Hf w b. unfold bind. destruct (outcome (m w)) as [a|e] eqn:Hm; simpl.
  - apply Hf.
  - discriminate.
Qed.

Lemma returns_tryCatch {A} (m : M W A) h (P : A -> Prop) :
  returns m P -> (forall e, returns (h e) P) -> returns (tryCatch m h) P.
Proof.
  intros Hm Hh w a. unfold tryCatch. destruct (outcome (m w)) as [a'|e] eqn:Hout; simpl.
  - intros H. apply (Hm w). congruence.
  - apply Hh.
Qed.

Lemma emits_ret {A} (a : A) Q : emits (W := W) (ret a) Q.
Proof. intros w. constructor. Qed.

Lemma emits_throw {A} e Q : emits (W := W) (A := A) (throw e) Q.
Proof. intros w. constructor. Qed.

Lemma emits_lift {A} (o : Outcome A) Q : emits (W := W) (lift o) Q.
Proof. intros w. constructor. Qed.

Lemma emits_call {A} (oracle : W -> Outcome A * W) Q : emits (call oracle) Q.
Proof. intros w. constructor. Qed.

Lemma emits_emit ev (Q : Event -> Prop) : Q ev -> emits (W := W) (emit ev) Q.
Proof. intros H w. repeat constructor. exact H. Qed.

Lemma emits_bind {A B} (m : M W A) (f : A -> M W B) Q :
  emits m Q -> (forall a, emits (f a) Q) -> emits (bind m f) Q.
Proof.
  intros Hm Hf w. unfold bind. destruct (outcome (m w)) as [a|e]; simpl.
  - apply Forall_app. split; [apply Hm | apply Hf].
  - apply Hm.
Qed.

Lemma emits_tryCatch {A} (m : M W A) h Q :
  emits m Q -> (forall e, emits (h e) Q) -> emits (tryCatch m h) Q.
Proof.
  intros Hm Hh w. unfold tryCatch. destruct (outcome (m w)) as [a|e]; simpl.
  - apply Hm.
  - apply Forall_app. split; [apply Hm | apply Hh].
Qed.

(** The retry engine returns only what the operation returns, and adds only
    [Attempt] and [Sleep] to its events. *)
Lemma returns_retry {T} (fn : M W T) options (P : T -> Prop) :
  returns fn P -> returns (Retry.retryWithBackoff fn options) P.
Proof.
  intros Hfn. unfold Retry.retryWithBackoff.
  generalize 0%nat (Retry.p_initialDelayMs (Retry.resolve options)).
  induction (Retry.p_maxRetries (Retry.resolve options)) as [|left IH]; intros attempt delayMs;
    simpl; apply returns_tryCatch;
    try (apply returns_bind; intros _; exact Hfn);
    intros e; destruct (_ || _); try (intros w a H; discriminate).
  apply returns_bind. intros _. apply IH.
Qed.

Lemma emits_retry {T} (fn : M W T) options (Q : Event -> Prop) :
  emits fn Q -> Q Attempt -> (forall ms, Q (Sleep ms)) ->
  emits (Retry.retryWithBackoff fn options) Q.
Proof.
  intros Hfn Hattempt Hsleep. unfold Retry.retryWithBackoff.
  generalize 0%nat (Retry.p_initialDelayMs (Retry.resolve options)).
  induction (Retry.p_maxRetries (Retry.resolve options)) as [|left IH]; intros attempt delayMs;
    simpl; apply emits_tryCatch;
    try (apply emits_bind; [now apply emits_emit | intros _; exact Hfn]);
    intros e; destruct (_ || _); try apply emits_throw.
  apply emits_bind; [now apply emits_emit | intros _; apply IH].
Qed.

(** Runs composed from the runs of the parts. *)
Lemma bind_run {A B} (m : M W A) (f : A -> M W B) w a w1 evs1 o2 w2 evs2 :
  m w = MkRun (Returned a) w1 evs1 ->
  f a w1 = MkRun o2 w2 evs2 ->
  bind m f w = MkRun o2 w2 (evs1 ++ evs2).
Proof. intros Hm Hf. unfold bind. rewrite Hm. simpl. now rewrite Hf. Qed.

Lemma tryCatch_run {A} (m : M W A) h w a w1 evs1 :
  m w = MkRun (Returned a) w1 evs1 -> tryCatch m h w = MkRun (Returned a) w1 evs1.
Proof. intros Hm. unfold tryCatch. now rewrite Hm. Qed.

End RunFacts.

(** ** The retry engine *)

Section RetryFacts.
Context {W T : Type}.
Variable fn : M W T.
Variable opts : Retry.Profile.
(** The wrapped operation is not itself a retry loop. *)
Hypothesis leaf : forall w, Retry.attempts (events (fn w)) = 0%nat.

Lemma nthWorld_succ w i :
  Retry.nthWorld fn w (S i) = Retry.nthWorld fn (world (fn w)) i.
Proof. unfold Retry.nthWorld. now rewrite Nat.iter_succ_r. Qed.

Lemma nthOutcome_succ w i :
  Retry.nthOutcome fn w (S i) = Retry.nthOutcome fn (world (fn w)) i.
Proof. unfold Retry.nthOutcome. now rewrite nthWorld_succ. Qed.

Lemma attempts_app evs evs' :
  Retry.attempts (evs ++ evs') = (Retry.attempts evs + Retry.attempts evs')%nat.
Proof. unfold Retry.attempts. now rewrite List.filter_app, List.length_app. Qed.

Lemma attempts_attempt evs : Retry.attempts (Attempt :: evs) = S (Retry.attempts evs).
Proof. reflexivity. Qed.

Lemma attempts_sleep ms evs : Retry.attempts (Sleep ms :: evs) = Retry.attempts evs.
Proof. reflexivity. Qed.

(** One iteration of the loop. *)
Lemma loop_step left attempt delayMs w :
  Retry.loop fn opts left attempt delayMs w =
  match outcome (fn w) with
  | Returned v => MkRun (Returned v) (world (fn w)) (Attempt :: events (fn w))
  | Thrown e =>
      if (attempt =? Retry.p_maxRetries opts)%nat
         || negb (Retry.isRetryableError e (Retry.p_retryableErrors opts))
      then MkRun (Thrown e) (world (fn w)) (Attempt :: events (fn w))
      else
        match left with
        | O => MkRun (Thrown e) (world (fn w)) (Attempt :: events (fn w))
        | S left' =>
            let r' := Retry.loop fn opts left' (S attempt)
                        (Qmin (delayMs * Retry.p_backoffMultiplier opts)
                              (Retry.p_maxDelayMs opts))
                        (world (fn w)) in
            MkRun (outcome r') (world r')
                  (Attempt :: events (fn w) ++ Sleep delayMs :: events r')
        end
  end.
Proof.
  destruct left; simpl; unfold tryCatch, bind, emit, throw; simpl;
    destruct (fn w) as [[v|e] w' evs]; simpl; try reflexivity;
    destruct (_ || _); simpl; rewrite ?app_nil_r; try reflexivity.
Qed.

(** The loop calls the operation [n] times in a row, [n] at most the
    number of iterations it has; all calls but the last throw an error that
    is retried, the result is that of the last call, and the loop stops
    before its last iteration only on a decisive outcome. *)
Lemma loop_calls left :
  forall attempt delayMs w,
    (attempt + left = Retry.p_maxRetries opts)%nat ->
    let r := Retry.loop fn opts left attempt delayMs w in
    exists n,
      (1 <= n <= S left)%nat
      /\ Retry.attempts (events r) = n
      /\ (forall i, (S i < n)%nat -> Retry.failsRetryably fn opts w i)
      /\ outcome r = Retry.nthOutcome fn w (n - 1)
      /\ world r = Retry.nthWorld fn w n
      /\ ((n < S left)%nat -> Retry.decisive opts (outcome r)).
Proof.
  induction left as [|left IH]; intros attempt delayMs w Hsum r; subst r;
    rewrite loop_step; destruct (outcome (fn w)) as [v|e] eqn:Hfn.
  - exists 1%nat. simpl. rewrite attempts_attempt, leaf.
    repeat split; try lia. now rewrite <- Hfn.
  - replace (attempt =? Retry.p_maxRetries opts)%nat with true
      by (symmetry; apply Nat.eqb_eq; lia).
    exists 1%nat. simpl. rewrite attempts_attempt, leaf.
    repeat split; try lia. now rewrite <- Hfn.
  - exists 1%nat. simpl. rewrite attempts_attempt, leaf.
    repeat split; try lia. now rewrite <- Hfn.
  - replace (attempt =? Retry.p_maxRetries opts)%nat with false
      by (symmetry; apply Nat.eqb_neq; lia).
    destruct (Retry.isRetryableError e (Retry.p_retryableErrors opts)) eqn:Hre; simpl.
    + set (delay' := Qmin _ _).
      destruct (IH (S attempt) delay' (world (fn w)) ltac:(lia))
        as (n & Hn & Hatt & Hfail & Hout & Hworld & Hdec).
      exists (S n).
      rewrite attempts_attempt, attempts_app, leaf, attempts_sleep, Hatt.
      repeat split; try lia.
      * intros [|i] Hi.
        -- exists e. split; [exact Hfn | exact Hre].
        -- destruct (Hfail i ltac:(lia)) as (e' & He' & Hre').
           exists e'. split; [now rewrite nthOutcome_succ | exact Hre'].
      * rewrite Hout. destruct n as [|n]; [lia|].
        simpl. rewrite Nat.sub_0_r. now rewrite nthOutcome_succ.
      * rewrite Hworld. now rewrite nthWorld_succ.
      * intros Hlt. apply Hdec. lia.
    + exists 1%nat. rewrite attempts_attempt, leaf.
      repeat split; try lia; [now rewrite <- Hfn | intros _; exact Hre].
Qed.

(** A call cannot both be retried and be decisive. *)
Lemma retried_not_decisive w i :
  Retry.failsRetryably fn opts w i ->
  Retry.decisive opts (Retry.nthOutcome fn w i) -> False.
Proof.
  intros (e & He & Hre) Hdec. rewrite He in Hdec. simpl in Hdec. congruence.
Qed.

(** Where the loop stops: after the first call that is decisive, or after
    its last iteration. *)
Lemma loop_stops left attempt delayMs w k :
  (attempt + left = Retry.p_maxRetries opts)%nat ->
  (k <= left)%nat ->
  (forall i, (i < k)%nat -> Retry.failsRetryably fn opts w i) ->
  Retry.decisive opts (Retry.nthOutcome fn w k) \/ k = left ->
  let r := Retry.loop fn opts left attempt delayMs w in
  outcome r = Retry.nthOutcome fn w k
  /\ world r = Retry.nthWorld fn w (S k)
  /\ Retry.attempts (events r) = S k.
Proof.
  intros Hsum Hk Hbefore Hstop r.
  destruct (loop_calls left attempt delayMs w Hsum)
    as (n & Hn & Hatt & Hfail & Hout & Hworld & Hdec).
  fold r in Hatt, Hout, Hworld, Hdec.
  assert (n = S k) as ->.
  { destruct (Nat.lt_trichotomy n (S k)) as [Hlt | [Heq | Hgt]]; [|exact Heq|].
    - exfalso. apply (retried_not_decisive w (n - 1)).
      + apply Hbefore. lia.
      + rewrite <- Hout. apply Hdec. lia.
    - exfalso. destruct Hstop as [Hstop | ->]; [|lia].
      apply (retried_not_decisive w k); [apply Hfail; lia | exact Hstop]. }
  rewrite Hout, Hworld, Hatt. simpl. now rewrite Nat.sub_0_r.
Qed.

End RetryFacts.




(** The two scenarios of the specification, run. *)
Example retry_429_twice_then_success :
  let r := Retry.retryWithBackoff (Retry.flaky 2 Scenario.http429 7%nat) Retry.noOptions 0%nat in
  outcome r = Returned 7%nat /\ world r = 3%nat
  /\ events r = [Attempt; Sleep 1000; Attempt; Sleep 2000; Attempt].
Proof. vm_compute. auto. Qed.

Example retry_429_four_times :
  let r := Retry.retryWithBackoff (Retry.flaky 9 Scenario.http429 7%nat) Retry.noOptions 0%nat in
  outcome r = Thrown Scenario.http429 /\ world r = 4%nat
  /\ events r = [Attempt; Sleep 1000; Attempt; Sleep 2000; Attempt; Sleep 4000; Attempt].
Proof. vm_compute. auto. Qed.

(** ** The trading service *)

Section TradingFacts.
Import Schema Dex.
Context {W : Type}.
Variable env : TradingService.Env W.
Variable this : TradingService.Service.

Local Abbreviation fetchPrice := (TradingService.fetchPriceFromAPI env).
Local Abbreviation gasPriceOf := (Chain.getGasPrice (TradingService.rpc env)).

Lemma getPrice_run n w :
  PriceService.getPrice fetchPrice n w =
  let answer := fetchPrice (PriceService.COIN_GECKO_IDS n) w in
  MkRun (Returned (PriceService.settle n (fst answer))) (snd answer) [].
Proof.
  unfold PriceService.getPrice, tryCatch, bind, call, ret. simpl.
  destruct (fetchPrice _ w) as [[price|e] w']; reflexivity.
Qed.

(** The gas estimate of an EVM network that has a [Web3] instance. *)
Lemma estimateGas_run n amountUsd web3 w :
  isEvm n = true ->
  TradingService.web3Instances this !! networkName n = Some web3 ->
  TradingService.estimateGas env this n amountUsd w =
  let gas := gasPriceOf web3 w in
  match fst gas with
  | Returned gasPrice =>
      let answer := fetchPrice (PriceService.COIN_GECKO_IDS n) (snd gas) in
      let gasFeeUsd :=
        (Js.parseFloat (Chain.fromWei (gasPrice * 200000))
         * PriceService.settle n (fst answer))%Q in
      MkRun (Returned (gasFeeUsd, gasFeeUsd / amountUsd)%Q) (snd answer)
            [GasPriceQuery n]
  | Thrown _ => MkRun (Returned (0, 0)%Q) (snd gas) [GasPriceQuery n]
  end.
Proof.
  intros Hevm Hweb3. unfold TradingService.estimateGas. rewrite Hweb3.
  destruct n; try discriminate; clear Hevm;
    unfold tryCatch, bind, emit, call, ret; simpl;
    destruct (gasPriceOf web3 w) as [[gasPrice|e] w']; simpl; try reflexivity;
    rewrite getPrice_run; simpl; reflexivity.
Qed.

Lemma available_evm n web3 privateKey :
  isEvm n = true ->
  TradingService.web3Instances this !! networkName n = Some web3 ->
  TradingService.getPrivateKey env n = Some privateKey ->
  Js.truthy privateKey = true ->
  TradingService.isNetworkAvailable env this n = true.
Proof.
  intros Hevm Hweb3 Hkey Htruthy. unfold TradingService.isNetworkAvailable.
  rewrite Hkey, Hweb3. simpl. rewrite Htruthy.
  destruct n; try discriminate; reflexivity.
Qed.

(** An EVM trade that passes the availability and address checks and whose
    key yields an account: the price, the gas estimate, and then either the
    refusal of the pre-check or the routing to an adapter. *)
Lemma evm_trade_run params w web3 privateKey walletAddress :
  let n := TradingService.network params in
  isEvm n = true ->
  TradingService.web3Instances this !! networkName n = Some web3 ->
  TradingService.getPrivateKey env n = Some privateKey ->
  Js.truthy privateKey = true ->
  TradingService.isValidTokenAddress n (TradingService.tokenAddress params) = true ->
  TradingService.privateKeyToAccount env privateKey = Returned walletAddress ->
  TradingService.executeTrade env this params w =
  let answer := fetchPrice (PriceService.COIN_GECKO_IDS n) w in
  let nativeTokenPriceUsd := PriceService.settle n (fst answer) in
  let amountNative := (TradingService.amountUsd params / nativeTokenPriceUsd)%Q in
  let g := TradingService.estimateGas env this n (TradingService.amountUsd params)
                                      (snd answer) in
  match outcome g with
  | Returned gasEstimate =>
      if Js.gtb (snd gasEstimate) (TradingService.maxGasRatio params) then
        MkRun (Returned (TradingService.gasTooHigh env params (fst gasEstimate)
                                                   nativeTokenPriceUsd))
              (world g) (events g)
      else
        let routed :=
          TradingService.route env params
            (TradingService.evmParams params web3 amountNative walletAddress privateKey
                                      nativeTokenPriceUsd)
            (world g) in
        MkRun (Returned
                 match outcome routed with
                 | Returned result => result
                 | Thrown error => failure ("EVM trade failed: " ++ Js.message error)
                 end)
              (world routed) (events g ++ events routed)
  | Thrown error =>
      MkRun (Returned (failure ("EVM trade failed: " ++ Js.message error)))
            (world g) (events g)
  end.
Proof.
  intros n Hevm Hweb3 Hkey Htruthy Hvalid Hacct.
  unfold TradingService.executeTrade. fold n.
  rewrite (available_evm n web3 privateKey Hevm Hweb3 Hkey Htruthy), Hvalid. simpl.
  assert (Hdispatch :
            (match n with
             | SOL => TradingService.executeSolanaTrade env this params
             | _ => TradingService.executeEVMTrade env this params
             end) = TradingService.executeEVMTrade env this params)
    by (destruct n; try discriminate; reflexivity).
  rewrite Hdispatch. clear Hdispatch.
  unfold TradingService.executeEVMTrade. fold n. rewrite Hweb3, Hkey, Htruthy, Hacct.
  unfold tryCatch at 1. rewrite bind_ret_r.
  unfold tryCatch, bind, lift, ret. simpl.
  rewrite getPrice_run. simpl.
  destruct (TradingService.estimateGas env this n _ _) as [[gasEstimate|e] wg evg]; simpl.
  - destruct (Js.gtb (snd gasEstimate) (TradingService.maxGasRatio params)); simpl.
    + now rewrite !app_nil_r.
    + destruct (TradingService.route env params _ wg) as [[result|e] wr evr]; simpl;
        now rewrite ?app_nil_r.
  - now rewrite !app_nil_r.
Qed.

Lemma gtb_lt x y : Js.gtb x y = true <-> (y < x)%Q.
Proof.
  unfold Js.gtb. rewrite negb_true_iff. split.
  - intros H. apply Qnot_le_lt. intros Hle. apply Qle_bool_iff in Hle. congruence.
  - intros H. destruct (Qle_bool x y) eqn:Hle; [|reflexivity].
    apply Qle_bool_iff in Hle. exfalso. exact (Qlt_not_le _ _ H Hle).
Qed.

(** The adapter singleton behind each name. *)
Lemma invoke_run a p w :
TradingService.invoke env a p w =
let r := match a with
         | UniswapV2 => TradingService.uniswapClient env p w
         | UniswapV3 => TradingService.uniswapV3Client env p w
         | PancakeSwapV2 => TradingService.pancakeswapClient env p w
         end in
MkRun (outcome r) (world r) (InvokeEvm a p :: events r).
Proof.
unfold TradingService.invoke, bind, emit. simpl.
destruct a; match goal with |- context [?f env p w] => destruct (f env p w) as [[?|?] ? ?] end;
  reflexivity.
Qed.

Lemma route_v4 params p w :
TradingService.network params = ETH \/ TradingService.network params = BASE ->
TradingService.dexVersion params = Some "v4" ->
TradingService.route env params p w = MkRun (Returned (failure TradingService.v4Message)) w [].
Proof.
intros [Hn | Hn] Hv; unfold TradingService.route; rewrite Hn, Hv; reflexivity.
Qed.

Lemma route_v2 params p w :
TradingService.network params = ETH \/ TradingService.network params = BASE ->
TradingService.dexVersion params = Some "v2" ->
TradingService.route env params p w = TradingService.invoke env UniswapV2 p w.
Proof.
intros [Hn | Hn] Hv; unfold TradingService.route; rewrite Hn, Hv; reflexivity.
Qed.

Lemma route_v3 params p w v3Result :
TradingService.network params = ETH \/ TradingService.network params = BASE ->
TradingService.dexVersion params = Some "v3" ->
outcome (TradingService.uniswapV3Client env p w) = Returned v3Result ->
TradingService.route env params p w = TradingService.invoke env UniswapV3 p w.
Proof.
intros Hn Hv Hv3.
assert (Hrun : TradingService.route env params p w =
               bind (TradingService.invoke env UniswapV3 p)
                    (fun v3Result => ret v3Result) w).
{ destruct Hn as [Hn | Hn]; unfold TradingService.route; rewrite Hn, Hv; simpl;
    unfold bind; destruct (outcome (TradingService.invoke env UniswapV3 p w)); try reflexivity;
    now rewrite orb_true_r. }
rewrite Hrun. apply bind_ret_r.
Qed.

Lemma route_auto params p w v3Result :
TradingService.network params = ETH \/ TradingService.network params = BASE ->
TradingService.dexVersion params = None \/ TradingService.dexVersion params = Some "auto" ->
outcome (TradingService.uniswapV3Client env p w) = Returned v3Result ->
TradingService.route env params p w =
let v3 := TradingService.uniswapV3Client env p w in
if negb (success v3Result) && TradingService.isNoV3Pool v3Result then
  let v2 := TradingService.uniswapClient env p (world v3) in
  MkRun (outcome v2) (world v2)
        (InvokeEvm UniswapV3 p :: events v3 ++ InvokeEvm UniswapV2 p :: events v2)
else MkRun (Returned v3Result) (world v3) (InvokeEvm UniswapV3 p :: events v3).
Proof.
intros Hn Hv Hv3.
assert (Hrun : TradingService.route env params p w =
               bind (TradingService.invoke env UniswapV3 p)
                    (fun v3Result =>
                       if success v3Result then ret v3Result
                       else if TradingService.isNoV3Pool v3Result
                            then TradingService.invoke env UniswapV2 p
                            else ret v3Result) w).
{ destruct Hn as [Hn | Hn], Hv as [Hv | Hv]; unfold TradingService.route;
    rewrite Hn, Hv; simpl; unfold bind;
    destruct (outcome (TradingService.invoke env UniswapV3 p w)) as [res|]; try reflexivity;
    destruct (success res); reflexivity. }
rewrite Hrun. clear Hrun.
rewrite (bind_returned _ _ w v3Result) by (rewrite invoke_run; exact Hv3).
rewrite !invoke_run. cbv zeta. simpl world. simpl events.
destruct (success v3Result); simpl.
- now rewrite app_nil_r.
- destruct (TradingService.isNoV3Pool v3Result); simpl.
  + reflexivity.
  + now rewrite app_nil_r.
Qed.

(** Unless V4 is asked of Uniswap, routing begins with a call of an
    adapter. *)
Lemma route_invokes params p w :
isEvm (TradingService.network params) = true ->
TradingService.network params = BNB \/ TradingService.dexVersion params <> Some "v4" ->
exists a rest, events (TradingService.route env params p w) = InvokeEvm a p :: rest.
Proof.
intros Hevm Hv. unfold TradingService.route.
destruct (TradingService.network params) eqn:Hn; try discriminate.
1, 2: destruct Hv as [Hv | Hv]; [discriminate|];
  rewrite (bool_decide_eq_false_2 _ Hv);
  destruct (bool_decide _); [rewrite invoke_run; simpl; eauto|];
  unfold bind; rewrite invoke_run; simpl;
  destruct (outcome (TradingService.uniswapV3Client env p w)); simpl; eauto.
rewrite invoke_run; simpl; eauto.
Qed.

Lemma estimateGas_events n amountUsd web3 w :
isEvm n = true ->
TradingService.web3Instances this !! networkName n = Some web3 ->
events (TradingService.estimateGas env this n amountUsd w) = [GasPriceQuery n].
Proof.
intros Hevm Hweb3. rewrite (estimateGas_run n amountUsd web3 w Hevm Hweb3). cbv zeta.
destruct (fst (gasPriceOf web3 w)); reflexivity.
Qed.

(** An EVM trade that passes the pre-check is routed. *)
Lemma evm_trade_routed params w web3 privateKey walletAddress gasEstimate :
let n := TradingService.network params in
let answer := fetchPrice (PriceService.COIN_GECKO_IDS n) w in
let nativeTokenPriceUsd := PriceService.settle n (fst answer) in
let g := TradingService.estimateGas env this n (TradingService.amountUsd params)
                                    (snd answer) in
let p := TradingService.evmParams params web3
           (TradingService.amountUsd params / nativeTokenPriceUsd)%Q
           walletAddress privateKey nativeTokenPriceUsd in
let routed := TradingService.route env params p (world g) in
isEvm n = true ->
TradingService.web3Instances this !! networkName n = Some web3 ->
TradingService.getPrivateKey env n = Some privateKey ->
Js.truthy privateKey = true ->
TradingService.isValidTokenAddress n (TradingService.tokenAddress params) = true ->
TradingService.privateKeyToAccount env privateKey = Returned walletAddress ->
outcome g = Returned gasEstimate ->
(snd gasEstimate <= TradingService.maxGasRatio params)%Q ->
TradingService.executeTrade env this params w =
MkRun (Returned
         match outcome routed with
         | Returned result => result
         | Thrown error => failure ("EVM trade failed: " ++ Js.message error)
         end)
      (world routed) (GasPriceQuery n :: events routed).
Proof.
intros n answer nativeTokenPriceUsd g p routed Hevm Hweb3 Hkey Htruthy Hvalid Hacct Hg Hle.
rewrite (evm_trade_run params w web3 privateKey walletAddress
           Hevm Hweb3 Hkey Htruthy Hvalid Hacct).
unfold routed, p, g, nativeTokenPriceUsd, answer, n in *. cbv zeta. rewrite Hg.
assert (Hpass : Js.gtb (snd gasEstimate) (TradingService.maxGasRatio params) = false).
{ unfold Js.gtb. apply negb_false_iff. now apply Qle_bool_iff. }
rewrite Hpass.
rewrite (estimateGas_events _ _ web3 _ Hevm Hweb3). reflexivity.
Qed.

End TradingFacts.

(** A Solana trade reads neither the gas limit nor the node. *)
Lemma solana_trade_ignores_gas {W} (env : TradingService.Env W) this params :
  TradingService.network params = Schema.SOL ->
  forall ratio node w,
    TradingService.executeTrade (TradingService.withRpc env node) this
      (TradingService.withMaxGasRatio params ratio) w
    = TradingService.executeTrade env this params w.
Proof.
  intros Hsol ratio node w. unfold TradingService.executeTrade. simpl. rewrite Hsol.
  reflexivity.
Qed.

(** C1. An EVM trade (ETH, BASE or BNB) that reaches the gas pre-check
    (the network is available, the address is well formed, the key yields an
    account) and whose gas ratio, the price of 200000 gas in USD over
    [amountUsd], exceeds [maxGasRatio]: [executeTrade] returns a failure that
    carries [gasFee] and [gasFeeUsd] and no [txHash], and the only event is
    the gas price query: no adapter is invoked.  A Solana trade is the same
    whatever [maxGasRatio] and the node's gas price are. *)
Theorem gas_precheck_refuses {W} (env : TradingService.Env W) this params w
        web3 privateKey walletAddress gasPrice :
  let n := TradingService.network params in
  let coin := PriceService.COIN_GECKO_IDS n in
  let answer1 := TradingService.fetchPriceFromAPI env coin w in
  let nativeTokenPriceUsd := PriceService.settle n (fst answer1) in
  let gas := Chain.getGasPrice (TradingService.rpc env) web3 (snd answer1) in
  let answer2 := TradingService.fetchPriceFromAPI env coin (snd gas) in
  let gasFeeUsd :=
    (inject_Z (gasPrice * 200000) / inject_Z (10 ^ 18)
     * PriceService.settle n (fst answer2))%Q in
  n = Schema.ETH \/ n = Schema.BASE \/ n = Schema.BNB ->
  TradingService.web3Instances this !! Schema.networkName n = Some web3 ->
  TradingService.getPrivateKey env n = Some privateKey ->
  Js.truthy privateKey = true ->
  TradingService.isValidTokenAddress n (TradingService.tokenAddress params) = true ->
  TradingService.privateKeyToAccount env privateKey = Returned walletAddress ->
  fst gas = Returned gasPrice ->
  (TradingService.maxGasRatio params < gasFeeUsd / TradingService.amountUsd params)%Q ->
  let r := TradingService.executeTrade env this params w in
  (exists result,
      outcome r = Returned result
      /\ Dex.success result = false
      /\ Dex.gasFee result = Some (Js.toFixed (gasFeeUsd / nativeTokenPriceUsd) 6)
      /\ Dex.gasFeeUsd result = Some (Js.toFixed gasFeeUsd 2)
      /\ Dex.txHash result = None)
  /\ events r = [GasPriceQuery n]
  /\ world r = snd answer2
  /\ (forall solana ratio node w',
         TradingService.network solana = Schema.SOL ->
         TradingService.executeTrade (TradingService.withRpc env node) this
           (TradingService.withMaxGasRatio solana ratio) w'
         = TradingService.executeTrade env this solana w').
Proof.
  intros n coin answer1 nativeTokenPriceUsd gas answer2 gasFeeUsd
         Hn Hweb3 Hkey Htruthy Hvalid Hacct Hgas Hratio r.
  assert (Hevm : Schema.isEvm n = true) by (destruct Hn as [-> | [-> | ->]]; reflexivity).
  subst r.
  rewrite (evm_trade_run env this params w web3 privateKey walletAddress
             Hevm Hweb3 Hkey Htruthy Hvalid Hacct).
  fold n coin answer1 nativeTokenPriceUsd. cbv zeta.
  rewrite (estimateGas_run env this n _ web3 _ Hevm Hweb3).
  fold gas. cbv zeta. rewrite Hgas. fold answer2. simpl outcome. cbv iota.
  repeat match goal with
  | |- context [Js.gtb ?a ?b] =>
      replace (Js.gtb a b) with true by (symmetry; apply gtb_lt; exact Hratio)
  end.
  simpl. split; [|split; [reflexivity|split; [reflexivity|]]].
  - eexists. split; [reflexivity|]. repeat split.
  - intros solana ratio node w' Hsol. now apply solana_trade_ignores_gas.
Qed.

(** The second scenario of the specification: 5 USD on BASE with a limit of
    0.5 while 200000 gas cost 4 USD. *)
Lemma gas_precheck_refuses_witness :
  let params := Scenario.manual Schema.BASE (Some "auto") Scenario.token 5 1 (1 # 2) in
  let r := TradingService.executeTrade Scenario.env Scenario.tradingService params Scenario.calm in
  (exists result,
      outcome r = Returned result
      /\ Dex.success result = false
      /\ Dex.gasFee result = Some {| Js.unscaled := 2000; Js.scale := 6 |}
      /\ Dex.gasFeeUsd result = Some {| Js.unscaled := 400; Js.scale := 2 |}
      /\ Dex.txHash result = None)
  /\ events r = [GasPriceQuery Schema.BASE].
Proof.
  intros params r.
  destruct (gas_precheck_refuses Scenario.env Scenario.tradingService params Scenario.calm
              {| Dex.rpcUrl := "https://base.example" |} "0xkey" "0xWallet" 10000000000)
    as (Hresult & Hevents & _).
  - right. left. reflexivity.
  - vm_compute. reflexivity.
  - vm_compute. reflexivity.
  - reflexivity.
  - vm_compute. reflexivity.
  - reflexivity.
  - reflexivity.
  - vm_compute. reflexivity.
  - split; [|exact Hevents].
    destruct Hresult as (result & Hout & Hfail & Hfee & Husd & Hhash).
    exists result. repeat split; assumption.
Defined.

(** [s.includes(sub)] says that [sub] occurs in [s]. *)
Lemma prefix_spec sub s : String.prefix sub s = true <-> exists post, s = (sub ++ post)%string.
Proof.
  revert s. induction sub as [|c sub IH]; intros s.
  - split; [intros _; exists s; reflexivity | intros _; now destruct s].
  - destruct s as [|c' s]; cbv [String.prefix]; fold String.prefix.
    + split; [discriminate | intros [post H]; discriminate].
    + destruct (Ascii.ascii_dec c c') as [<- | Hne].
      * rewrite IH. split; intros [post H]; exists post.
        -- cbv [String.append]; fold String.append. now rewrite H.
        -- cbv [String.append] in H; fold String.append in H. now inversion H.
      * split; [discriminate|]. intros [post H].
        cbv [String.append] in H; fold String.append in H. inversion H. congruence.
Qed.

Lemma includes_spec s sub :
  Js.includes s sub = true <-> exists pre post, s = (pre ++ sub ++ post)%string.
Proof.
  induction s as [|c s IH]; cbn [Js.includes]; rewrite orb_true_iff, prefix_spec.
  - split.
    + intros [[post H] | H]; [|discriminate]. exists "", post. exact H.
    + intros (pre & post & H). left.
      destruct pre as [|c pre]; [|discriminate]. exists post. exact H.
  - rewrite IH. split.
    + intros [[post H] | (pre & post & H)].
      * exists "", post. exact H.
      * exists (String c pre), post. cbv [String.append]; fold String.append. now rewrite H.
    + intros (pre & post & H). destruct pre as [|c' pre].
      * left. exists post. exact H.
      * right. exists pre, post. cbv [String.append] in H; fold String.append in H.
        now inversion H.
Qed.

(** C2. An ETH or BASE trade that reaches the routing (it passes the
    availability, address and gas checks).  With [dexVersion] 'v4' the
    result is the not-implemented failure and no adapter is called; with 'v2'
    only the V2 adapter is called; with 'v3' only the V3 adapter is called and
    its result is returned; with 'auto' or no version the V3 adapter is
    called first and, exactly when its result is a failure whose message
    contains the text "No Uniswap V3 liquidity pool found", the V2 adapter is
    called once after it and its result is returned; otherwise the result of
    V3 is returned and V2 is not called. *)
Theorem uniswap_version_strategy {W} (env : TradingService.Env W) this params w
        web3 privateKey walletAddress gasEstimate :
  let n := TradingService.network params in
  let answer := TradingService.fetchPriceFromAPI env (PriceService.COIN_GECKO_IDS n) w in
  let nativeTokenPriceUsd := PriceService.settle n (fst answer) in
  let g := TradingService.estimateGas env this n (TradingService.amountUsd params)
                                      (snd answer) in
  let p := TradingService.evmParams params web3
             (TradingService.amountUsd params / nativeTokenPriceUsd)%Q
             walletAddress privateKey nativeTokenPriceUsd in
  let v2 := TradingService.uniswapClient env p in
  let v3 := TradingService.uniswapV3Client env p in
  let version := TradingService.dexVersion params in
  let r := TradingService.executeTrade env this params w in
  n = Schema.ETH \/ n = Schema.BASE ->
  TradingService.web3Instances this !! Schema.networkName n = Some web3 ->
  TradingService.getPrivateKey env n = Some privateKey ->
  Js.truthy privateKey = true ->
  TradingService.isValidTokenAddress n (TradingService.tokenAddress params) = true ->
  TradingService.privateKeyToAccount env privateKey = Returned walletAddress ->
  outcome g = Returned gasEstimate ->
  (snd gasEstimate <= TradingService.maxGasRatio params)%Q ->
  (version = Some "v4" ->
   outcome r = Returned (Dex.failure TradingService.v4Message)
   /\ events r = [GasPriceQuery n])
  /\ (version = Some "v2" ->
      forall result, outcome (v2 (world g)) = Returned result ->
      outcome r = Returned result
      /\ events r = GasPriceQuery n :: InvokeEvm Dex.UniswapV2 p :: events (v2 (world g)))
  /\ (version = Some "v3" ->
      forall v3Result, outcome (v3 (world g)) = Returned v3Result ->
      outcome r = Returned v3Result
      /\ events r = GasPriceQuery n :: InvokeEvm Dex.UniswapV3 p :: events (v3 (world g)))
  /\ (version = None \/ version = Some "auto" ->
      forall v3Result, outcome (v3 (world g)) = Returned v3Result ->
      let noV3Pool :=
        Dex.success v3Result = false
        /\ exists before after,
             Dex.errorMessage v3Result
             = Some (before ++ "No Uniswap V3 liquidity pool found" ++ after)%string in
      (noV3Pool ->
       forall result, outcome (v2 (world (v3 (world g)))) = Returned result ->
       outcome r = Returned result
       /\ events r = GasPriceQuery n :: InvokeEvm Dex.UniswapV3 p :: events (v3 (world g))
                      ++ InvokeEvm Dex.UniswapV2 p :: events (v2 (world (v3 (world g)))))
      /\ (~ noV3Pool ->
          outcome r = Returned v3Result
          /\ events r = GasPriceQuery n :: InvokeEvm Dex.UniswapV3 p :: events (v3 (world g)))).
Proof.
  intros n answer nativeTokenPriceUsd g p v2 v3 version r
         Hn Hweb3 Hkey Htruthy Hvalid Hacct Hg Hle.
  assert (Hevm : Schema.isEvm n = true) by (destruct Hn as [-> | ->]; reflexivity).
  assert (Hrun := evm_trade_routed env this params w web3 privateKey walletAddress gasEstimate
                    Hevm Hweb3 Hkey Htruthy Hvalid Hacct Hg Hle).
  fold n answer nativeTokenPriceUsd g p r in Hrun. cbv zeta in Hrun.
  fold n answer nativeTokenPriceUsd g p r in Hrun.
  split; [|split; [|split]].
  - intros Hv. rewrite Hrun, (route_v4 env params p _ Hn Hv). split; reflexivity.
  - intros Hv result Hres.
    rewrite Hrun, (route_v2 env params p _ Hn Hv), invoke_run. cbv zeta.
    fold v2. simpl. rewrite Hres. split; reflexivity.
  - intros Hv v3Result Hres.
    rewrite Hrun, (route_v3 env params p _ v3Result Hn Hv Hres), invoke_run. cbv zeta.
    fold v3. simpl. rewrite Hres. split; reflexivity.
  - intros Hv v3Result Hres noV3Pool.
    rewrite Hrun, (route_auto env params p _ v3Result Hn Hv Hres). cbv zeta. fold v3 v2.
    assert (Htest : negb (Dex.success v3Result) && TradingService.isNoV3Pool v3Result = true
                    <-> noV3Pool).
    { unfold noV3Pool, TradingService.isNoV3Pool.
      rewrite andb_true_iff, negb_true_iff.
      destruct (Dex.errorMessage v3Result) as [m|].
      - rewrite includes_spec. split.
        + intros [Hfail (before & after & Hm)]. split; [exact Hfail|].
          exists before, after. now rewrite Hm.
        + intros [Hfail (before & after & Hm)]. split; [exact Hfail|].
          exists before, after. now inversion Hm.
      - split; [intros [_ H]; discriminate | intros [_ (before & after & H)]; discriminate]. }
    destruct (negb (Dex.success v3Result) && TradingService.isNoV3Pool v3Result).
    + split.
      * intros _ result Hres2. simpl. rewrite Hres2. split; reflexivity.
      * intros Hnot. exfalso. apply Hnot, Htest. reflexivity.
    + split.
      * intros Hpool. apply Htest in Hpool. discriminate.
      * intros _. simpl. split; reflexivity.
Qed.

(** The third scenario of the specification: BASE, 'auto', no V3 pool at any
    tier; the V2 adapter is called after V3 and its result is returned. *)
Lemma uniswap_version_strategy_witness :
  let params := Scenario.manual Schema.BASE (Some "auto") Scenario.token 50 1 (1 # 2) in
  let r := TradingService.executeTrade Scenario.env Scenario.tradingService params Scenario.calm in
  outcome r = Returned Scenario.swapped
  /\ List.filter (fun ev => match ev with InvokeEvm _ _ => true | _ => false end) (events r)
     = [InvokeEvm Dex.UniswapV3
          (TradingService.evmParams params {| Dex.rpcUrl := "https://base.example" |}
                                    (50 / 2000)%Q "0xWallet" "0xkey" 2000);
        InvokeEvm Dex.UniswapV2
          (TradingService.evmParams params {| Dex.rpcUrl := "https://base.example" |}
                                    (50 / 2000)%Q "0xWallet" "0xkey" 2000)].
Proof.
  intros params r.
  destruct (uniswap_version_strategy Scenario.env Scenario.tradingService params Scenario.calm
              {| Dex.rpcUrl := "https://base.example" |} "0xkey" "0xWallet"
              (Js.parseFloat (Chain.fromWei (10000000000 * 200000)) * 2000,
               Js.parseFloat (Chain.fromWei (10000000000 * 200000)) * 2000 / 50)%Q)
    as (_ & _ & _ & Hauto).
  - right. reflexivity.
  - vm_compute. reflexivity.
  - vm_compute. reflexivity.
  - reflexivity.
  - vm_compute. reflexivity.
  - reflexivity.
  - vm_compute. reflexivity.
  - vm_compute. discriminate.
  - specialize (Hauto (or_intror eq_refl)
                      (Dex.failure (UniswapV3.noPoolMessage Schema.BASE))).
    cbv zeta in Hauto.
    assert (Hv3 : outcome
                    (TradingService.uniswapV3Client Scenario.env
                       (TradingService.evmParams params {| Dex.rpcUrl := "https://base.example" |}
                          (TradingService.amountUsd params
                           / PriceService.settle (TradingService.network params)
                               (fst (TradingService.fetchPriceFromAPI Scenario.env
                                       (PriceService.COIN_GECKO_IDS (TradingService.network params))
                                       Scenario.calm)))%Q
                          "0xWallet" "0xkey"
                          (PriceService.settle (TradingService.network params)
                               (fst (TradingService.fetchPriceFromAPI Scenario.env
                                       (PriceService.COIN_GECKO_IDS (TradingService.network params))
                                       Scenario.calm))))
                       (world (TradingService.estimateGas Scenario.env Scenario.tradingService
                                 (TradingService.network params) (TradingService.amountUsd params)
                                 (snd (TradingService.fetchPriceFromAPI Scenario.env
                                       (PriceService.COIN_GECKO_IDS (TradingService.network params))
                                       Scenario.calm)))))
                  = Returned (Dex.failure (UniswapV3.noPoolMessage Schema.BASE)))
      by (vm_compute; reflexivity).
    destruct (Hauto Hv3) as [Hfallback _].
    assert (Hpool : Dex.success (Dex.failure (UniswapV3.noPoolMessage Schema.BASE)) = false
                    /\ exists before after,
                         Dex.errorMessage (Dex.failure (UniswapV3.noPoolMessage Schema.BASE))
                         = Some (before ++ "No Uniswap V3 liquidity pool found" ++ after)%string).
    { split; [reflexivity|].
      exists "", " for this token on BASE. Tried fee tiers: 0.01%, 0.05%, 0.3%, 1%.".
      vm_compute. reflexivity. }
    destruct (Hfallback Hpool Scenario.swapped ltac:(vm_compute; reflexivity)) as (Hout & Hev).
    split; [exact Hout|]. fold r in Hev. rewrite Hev. vm_compute. reflexivity.
Defined.

(** C10, as the code has it.  An EVM trade that reaches the gas pre-check
    while the node's gas price query throws: [estimateGas] returns
    [gasFeeUsd = 0] and [gasRatio = 0].  For every limit [maxGasRatio >= 0]
    the pre-check lets the trade pass, and [executeTrade] goes on to the
    routing, whose first step is the call of an adapter unless V4 is asked of
    Uniswap, which has none.  For a limit below zero the pre-check refuses the
    trade all the same, [0 > maxGasRatio], and no adapter is called. *)
Theorem gas_estimate_failure_bypasses_precheck {W} (env : TradingService.Env W) this params w
        web3 privateKey walletAddress error :
  let n := TradingService.network params in
  let answer := TradingService.fetchPriceFromAPI env (PriceService.COIN_GECKO_IDS n) w in
  let nativeTokenPriceUsd := PriceService.settle n (fst answer) in
  let gas := Chain.getGasPrice (TradingService.rpc env) web3 (snd answer) in
  let p := TradingService.evmParams params web3
             (TradingService.amountUsd params / nativeTokenPriceUsd)%Q
             walletAddress privateKey nativeTokenPriceUsd in
  let routed := TradingService.route env params p (snd gas) in
  let r := TradingService.executeTrade env this params w in
  n = Schema.ETH \/ n = Schema.BASE \/ n = Schema.BNB ->
  TradingService.web3Instances this !! Schema.networkName n = Some web3 ->
  TradingService.getPrivateKey env n = Some privateKey ->
  Js.truthy privateKey = true ->
  TradingService.isValidTokenAddress n (TradingService.tokenAddress params) = true ->
  TradingService.privateKeyToAccount env privateKey = Returned walletAddress ->
  fst gas = Thrown error ->
  outcome (TradingService.estimateGas env this n (TradingService.amountUsd params) (snd answer))
  = Returned (0, 0)%Q
  /\ ((0 <= TradingService.maxGasRatio params)%Q ->
      events r = GasPriceQuery n :: events routed
      /\ world r = world routed
      /\ outcome r = Returned
                       match outcome routed with
                       | Returned result => result
                       | Thrown e => Dex.failure ("EVM trade failed: " ++ Js.message e)
                       end
      /\ (n = Schema.BNB \/ TradingService.dexVersion params <> Some "v4" ->
          exists a rest, events routed = InvokeEvm a p :: rest))
  /\ ((TradingService.maxGasRatio params < 0)%Q ->
      events r = [GasPriceQuery n]
      /\ world r = snd gas
      /\ outcome r = Returned (TradingService.gasTooHigh env params 0 nativeTokenPriceUsd)).
Proof.
  intros n answer nativeTokenPriceUsd gas p routed r
         Hn Hweb3 Hkey Htruthy Hvalid Hacct Hgas.
  assert (Hevm : Schema.isEvm n = true) by (destruct Hn as [-> | [-> | ->]]; reflexivity).
  assert (Hg : TradingService.estimateGas env this n (TradingService.amountUsd params)
                 (snd answer)
               = MkRun (Returned (0, 0)%Q) (snd gas) [GasPriceQuery n]).
  { rewrite (estimateGas_run env this n _ web3 _ Hevm Hweb3). cbv zeta.
    fold gas. now rewrite Hgas. }
  split; [now rewrite Hg|]. split.
  - intros Hmax.
    assert (Hrun := evm_trade_routed env this params w web3 privateKey walletAddress (0, 0)%Q
                      Hevm Hweb3 Hkey Htruthy Hvalid Hacct).
    cbv zeta in Hrun. fold n answer nativeTokenPriceUsd in Hrun.
    rewrite Hg in Hrun. simpl world in Hrun. fold p routed r in Hrun.
    specialize (Hrun eq_refl Hmax).
    rewrite Hrun. repeat split.
    intros Hv. apply route_invokes; assumption.
  - intros Hneg. subst r.
    rewrite (evm_trade_run env this params w web3 privateKey walletAddress
               Hevm Hweb3 Hkey Htruthy Hvalid Hacct).
    fold n answer nativeTokenPriceUsd. cbv zeta. rewrite Hg.
    cbn [outcome world events fst snd].
    replace (Js.gtb 0 (TradingService.maxGasRatio params)) with true
      by (symmetry; apply gtb_lt; exact Hneg).
    repeat split.
Qed.

(** 5 USD on BASE with a limit of 0.5 while the node does not answer the gas
    price: the trade is handed to the adapters all the same. *)
Lemma gas_estimate_failure_bypasses_precheck_witness :
  let params := Scenario.manual Schema.BASE (Some "auto") Scenario.token 5 1 (1 # 2) in
  let r := TradingService.executeTrade Scenario.env Scenario.tradingService params Scenario.blind in
  outcome (TradingService.estimateGas Scenario.env Scenario.tradingService Schema.BASE 5
                                      Scenario.blind)
  = Returned (0, 0)%Q
  /\ outcome r = Returned Scenario.swapped
  /\ exists p rest, events r = GasPriceQuery Schema.BASE :: InvokeEvm Dex.UniswapV3 p :: rest.
Proof.
  intros params r.
  destruct (gas_estimate_failure_bypasses_precheck
              Scenario.env Scenario.tradingService params Scenario.blind
              {| Dex.rpcUrl := "https://base.example" |} "0xkey" "0xWallet" Scenario.timeout)
    as (Hzero & Hpass & _).
  - right. left. reflexivity.
  - vm_compute. reflexivity.
  - vm_compute. reflexivity.
  - reflexivity.
  - vm_compute. reflexivity.
  - reflexivity.
  - reflexivity.
  - destruct Hpass as (Hevents & _ & Hout & _); [vm_compute; discriminate|].
    split; [exact Hzero|]. fold r in Hevents, Hout. split.
    + rewrite Hout. vm_compute. reflexivity.
    + rewrite Hevents. vm_compute. eauto.
Defined.

(** C10 as it is stated fails: the adapter is not invoked "regardless of
    [maxGasRatio]".  The config of alice on BASE with the limit -0.50, which
    the insert schema and the column [decimal(3, 2)] take, is traded by the
    scheduler while the node does not answer the gas price: the estimate is
    (0, 0), the pre-check refuses the trade because [0 > -0.5], and no adapter
    is called.  Nor is one called for a limit of 0.5 when V4 is asked. *)
Lemma negative_limit_still_refused :
  let r := BotScheduler.trade Scenario.env Scenario.tradingService Scenario.negativeLimit
                              Scenario.blind in
  let v4 := TradingService.executeTrade Scenario.env Scenario.tradingService
              (Scenario.manual Schema.BASE (Some "v4") Scenario.token 5 1 (1 # 2))
              Scenario.blind in
  outcome (TradingService.estimateGas Scenario.env Scenario.tradingService Schema.BASE 50
                                      Scenario.blind)
  = Returned (0, 0)%Q
  /\ (exists result,
         outcome r = Returned result
         /\ Dex.success result = false
         /\ Dex.gasFeeUsd result = Some {| Js.unscaled := 0; Js.scale := 2 |}
         /\ Dex.txHash result = None)
  /\ events r = [GasPriceQuery Schema.BASE]
  /\ outcome v4 = Returned (Dex.failure TradingService.v4Message)
  /\ events v4 = [GasPriceQuery Schema.BASE].
Proof.
  vm_compute. split; [reflexivity|]. split; [eexists; repeat split|]. repeat split.
Qed.

(** ** The Jupiter adapter and the Solana path *)

(** [Js.double] and [Js.mul] on numbers whose doubles are known: 0.1 and
    0.29; 0.1 * 3, which is 0.30000000000000004; 0.29 * 100, which is
    28.999999999999996; 1.15 * 100, which is 114.99999999999999; and
    0.000005 * 150, which is a little more than 0.00075. *)
Lemma double_known_values :
  Js.double (1 # 10) = (3602879701896397 # 36028797018963968)%Q
  /\ Js.double (29 # 100) = (5224175567749775 # 18014398509481984)%Q
  /\ Js.mul (1 # 10) 3 = (1351079888211149 # 4503599627370496)%Q
  /\ Js.mul (29 # 100) 100 = (8162774324609023 # 281474976710656)%Q
  /\ Js.mul (115 # 100) 100 = (8092405580431359 # 70368744177664)%Q
  /\ Js.mul (5 # 1000000) 150 = (3458764513820541 # 4611686018427387904)%Q
  /\ Js.floor (Js.mul (29 # 100) 100) = 28%Z
  /\ Js.floor (Js.mul (1 # 10) 100) = 10%Z.
Proof. vm_compute. repeat split. Qed.

Section JupiterFacts.
Import Dex.
Context {W : Type}.
Variable api : Jupiter.Api W.

(** A swap that succeeds reports the constant fee, and its USD value with
    four decimals. *)
Lemma jupiter_success_gas p :
  returns (Jupiter.executeSwap api p)
    (fun result =>
       success result = true ->
       gasFee result = Some Jupiter.GAS_FEE
       /\ gasFeeUsd result
          = Some (Js.toFixed (Js.mul (Js.parseFloat Jupiter.GAS_FEE) (solPriceUsd p)) 4)).
Proof.
  unfold Jupiter.executeSwap. apply returns_tryCatch.
  - apply returns_bind. intros [quote|].
    + repeat (apply returns_bind; intros ?).
      apply returns_ret. intros _. split; reflexivity.
    + apply returns_ret. discriminate.
  - intros e. apply returns_ret. discriminate.
Qed.

(** Every quote request carries the basis points that the adapter was
    given. *)
Lemma jupiter_quote_request p :
  emits (Jupiter.executeSwap api p)
    (fun ev =>
       match ev with
       | JupiterQuote q =>
           q = {| inputMint := Jupiter.NATIVE_SOL_MINT;
                  outputMint := tokenMint p;
                  amount := Js.floor (amountSOL p * Jupiter.LAMPORTS_PER_SOL);
                  q_slippageBps := slippageBps p |}
       | _ => True
       end).
Proof.
  unfold Jupiter.executeSwap. apply emits_tryCatch.
  - apply emits_bind.
    + apply emits_retry; [|exact I|intros; exact I].
      apply emits_bind; [now apply emits_emit | intros _; apply emits_call].
    + intros [quote|]; [|apply emits_ret].
      repeat (apply emits_bind;
              [first [apply emits_retry; [apply emits_call | exact I | intros; exact I]
                     | apply emits_lift
                     | apply emits_tryCatch; [apply emits_call | intros; apply emits_ret]]
              | intros ?]).
      apply emits_ret.
  - intros e. apply emits_ret.
Qed.

End JupiterFacts.

Section SolanaFacts.
Import Schema Dex.
Context {W : Type}.
Variable env : TradingService.Env W.
Variable this : TradingService.Service.

(** A Solana trade that passes the availability and address checks and
    whose key decodes: the price, then the Jupiter adapter. *)
Lemma solana_trade_run params w conn privateKey walletAddress :
  TradingService.network params = SOL ->
  TradingService.solanaConnection this = Some conn ->
  TradingService.getPrivateKey env SOL = Some privateKey ->
  Js.truthy privateKey = true ->
  TradingService.isValidTokenAddress SOL (TradingService.tokenAddress params) = true ->
  TradingService.keypairFromSecretKey env privateKey = Returned walletAddress ->
  TradingService.executeTrade env this params w =
  let answer := TradingService.fetchPriceFromAPI env "solana" w in
  let price := PriceService.settle SOL (fst answer) in
  let p := {|
    connection := conn;
    tokenMint := TradingService.tokenAddress params;
    amountSOL := (TradingService.amountUsd params / price)%Q;
    slippageBps := Js.floor (Js.mul (TradingService.slippageTolerance params) 100);
    j_walletAddress := walletAddress;
    j_privateKey := privateKey;
    solPriceUsd := price
  |} in
  let j := TradingService.jupiterClient env p (snd answer) in
  MkRun (Returned
           match outcome j with
           | Returned result => result
           | Thrown error => failure ("Solana trade failed: " ++ Js.message error)
           end)
        (world j) (InvokeJupiter p :: events j).
Proof.
  intros Hn Hconn Hkey Htruthy Hvalid Hpair.
  unfold TradingService.executeTrade, TradingService.isNetworkAvailable.
  rewrite Hn, Hkey, Hconn, Hvalid. simpl. rewrite Htruthy. simpl.
  unfold tryCatch at 1. rewrite bind_ret_r.
  unfold TradingService.executeSolanaTrade. rewrite Hconn, Hkey, Htruthy, Hpair.
  unfold tryCatch, bind, lift, ret, emit. simpl.
  rewrite getPrice_run. simpl.
  destruct (TradingService.jupiterClient env _ _) as [[result|e] wj evj]; simpl;
    now rewrite ?app_nil_r.
Qed.

End SolanaFacts.

(** C9, as the code has it.  A Solana trade that reaches the adapter hands
    it the slippage in basis points as [Math.floor(slippage * 100)], where the
    product is the one of doubles, and every quote request of the Jupiter
    client carries that number; every successful Jupiter swap reports the gas
    fee 0.000005 SOL, and as [gasFeeUsd] the product, in doubles, of that
    constant and the SOL price, written with four decimals.  The tolerance is
    at most 100 percent in magnitude and the price is between 0 and 10^12
    USD, so that no product leaves the finite doubles and [toFixed] writes
    plain digits. *)
Theorem jupiter_slippage_and_gas {W} (env : TradingService.Env W) this
        (api : Jupiter.Api W) params w conn privateKey walletAddress :
  let r := TradingService.executeTrade env this params w in
  let bps := Js.floor (Js.mul (TradingService.slippageTolerance params) 100) in
  let price := PriceService.settle Schema.SOL
                 (fst (TradingService.fetchPriceFromAPI env "solana" w)) in
  TradingService.network params = Schema.SOL ->
  TradingService.solanaConnection this = Some conn ->
  TradingService.getPrivateKey env Schema.SOL = Some privateKey ->
  Js.truthy privateKey = true ->
  TradingService.isValidTokenAddress Schema.SOL (TradingService.tokenAddress params) = true ->
  TradingService.keypairFromSecretKey env privateKey = Returned walletAddress ->
  TradingService.jupiterClient env = Jupiter.executeSwap api ->
  (Qabs (TradingService.slippageTolerance params) <= 100)%Q ->
  (0 <= price <= 1000000000000)%Q ->
  (exists p rest, events r = InvokeJupiter p :: rest /\ Dex.slippageBps p = bps)
  /\ (forall q, In (JupiterQuote q) (events r) -> Dex.q_slippageBps q = bps)
  /\ (forall result,
         outcome r = Returned result -> Dex.success result = true ->
         Dex.gasFee result = Some {| Js.unscaled := 5; Js.scale := 6 |}
         /\ Dex.gasFeeUsd result
            = Some (Js.toFixed (Js.mul (Js.parseFloat {| Js.unscaled := 5; Js.scale := 6 |})
                                       price) 4))
  /\ (Js.parseFloat {| Js.unscaled := 5; Js.scale := 6 |} == 5 / 1000000)%Q.
Proof.
  intros r bps price Hn Hconn Hkey Htruthy Hvalid Hpair Hclient _ _.
  subst r.
  rewrite (solana_trade_run env this params w conn privateKey walletAddress
             Hn Hconn Hkey Htruthy Hvalid Hpair).
  cbv zeta. fold price bps. rewrite Hclient.
  set (p := {| Dex.connection := conn |}).
  split; [|split; [|split]].
  - exists p, (events (Jupiter.executeSwap api p
                         (snd (TradingService.fetchPriceFromAPI env "solana" w)))).
    split; reflexivity.
  - intros q [Hq | Hq]; [discriminate|].
    pose proof (jupiter_quote_request api p
                  (snd (TradingService.fetchPriceFromAPI env "solana" w))) as Hall.
    rewrite List.Forall_forall in Hall. specialize (Hall _ Hq). simpl in Hall.
    now rewrite Hall.
  - intros result Hout Hsuccess. simpl in Hout.
    destruct (outcome (Jupiter.executeSwap api p _)) as [res|e] eqn:Hj.
    + inversion Hout. subst res.
      exact (jupiter_success_gas api p _ _ Hj Hsuccess).
    + inversion Hout. subst result. discriminate.
  - reflexivity.
Qed.

(** 10 USD on Solana at 0.29 percent with SOL at 150 USD: the product
    0.29 * 100 is 28.999999999999996 in doubles, and the adapter receives 28
    basis points; the gas fee in USD is written 0.0008. *)
Lemma jupiter_slippage_and_gas_witness :
  let params := Scenario.manual Schema.SOL None Scenario.mint 10 (29 # 100) (1 # 2) in
  let r := TradingService.executeTrade Scenario.env Scenario.tradingService params Scenario.calm in
  (exists p rest, events r = InvokeJupiter p :: rest /\ Dex.slippageBps p = 28%Z)
  /\ (forall result,
         outcome r = Returned result -> Dex.success result = true ->
         Dex.gasFee result = Some {| Js.unscaled := 5; Js.scale := 6 |}
         /\ Dex.gasFeeUsd result = Some {| Js.unscaled := 8; Js.scale := 4 |}).
Proof.
  intros params r.
  destruct (jupiter_slippage_and_gas Scenario.env Scenario.tradingService Scenario.api
              params Scenario.calm {| Dex.endpoint := "https://sol.example" |}
              "base58key" "SoLWallet")
    as (Hinvoke & _ & Hgas & _).
  - reflexivity.
  - vm_compute. reflexivity.
  - vm_compute. reflexivity.
  - reflexivity.
  - vm_compute. reflexivity.
  - reflexivity.
  - reflexivity.
  - apply Qle_bool_imp_le. reflexivity.
  - split; apply Qle_bool_imp_le; reflexivity.
  - split.
    + destruct Hinvoke as (p & rest & Hevents & Hbps).
      exists p, rest. split; [exact Hevents|]. rewrite Hbps. vm_compute. reflexivity.
    + intros result Hout Hsuccess.
      destruct (Hgas result Hout Hsuccess) as [Hfee Husd].
      split; [exact Hfee|]. rewrite Husd. vm_compute. reflexivity.
Defined.

(** C9 as it is stated fails: at 0.1875 percent, which is a double, the
    adapter receives 18 basis points, and [round (0.1875 * 100)] is 19. *)
Lemma jupiter_slippage_not_rounded :
  let params := Scenario.manual Schema.SOL None Scenario.mint 10 (3 # 16) (1 # 2) in
  let r := TradingService.executeTrade Scenario.env Scenario.tradingService params Scenario.calm in
  exists p rest,
    events r = InvokeJupiter p :: rest
    /\ In (JupiterQuote {| Dex.inputMint := Jupiter.NATIVE_SOL_MINT;
                           Dex.outputMint := Scenario.mint;
                           Dex.amount := 66666666;
                           Dex.q_slippageBps := 18 |}) rest
    /\ Dex.slippageBps p = 18%Z
    /\ Js.round (TradingService.slippageTolerance params * 100) = 19%Z
    /\ Dex.slippageBps p <> Js.round (TradingService.slippageTolerance params * 100).
Proof.
  vm_compute. eexists. eexists. split; [reflexivity|].
  split; [right; left; reflexivity|]. repeat split. discriminate.
Qed.

(** ** The Uniswap V3 adapter *)

Section TierChoice.
Import UniswapV3.

Lemma lookup_snoc {A} (l : list A) (x y : A) j :
  (l ++ [x]) !! j = Some y -> l !! j = Some y \/ (j = List.length l /\ y = x).
Proof.
  intros H. apply lookup_app_Some in H as [H | [Hge H]]; [now left|right].
  destruct (j - List.length l)%nat eqn:Hd; simpl in H; [|discriminate].
  inversion H. split; [lia | reflexivity].
Qed.

(** One more answer keeps the choice right. *)
Lemma chosen_step prefix best fee answer :
  chosen prefix best ->
  chosen (prefix ++ [(fee, answer)])
         (match answer with
          | Some amountOut => consider best fee amountOut
          | None => best
          end).
Proof.
  intros Hbest.
  assert (Hkeep : (answer = None \/ answer = Some 0%N
                   \/ (exists amountOut b, answer = Some amountOut
                                      /\ bestQuote best = Some b /\ (amountOut <= b)%N)) ->
                  chosen (prefix ++ [(fee, answer)]) best).
  { intros Hanswer. unfold chosen in *. destruct (bestQuote best) as [q|] eqn:Hq.
    - destruct Hbest as (Hpos & i & Hi & Hall). split; [exact Hpos|].
      exists i. split; [now apply lookup_app_l_Some|].
      intros j fee' amountOut Hj. apply lookup_snoc in Hj as [Hj | [-> Hj]].
      + now apply (Hall j fee').
      + inversion Hj. subst. apply lookup_lt_Some in Hi.
        split; [|lia].
        destruct Hanswer as [? | [Ha | (a & b & Ha & Hb & Hle)]]; try discriminate.
        * inversion Ha. lia.
        * inversion Ha. inversion Hb. subst. exact Hle.
    - intros j fee' amountOut Hj. apply lookup_snoc in Hj as [Hj | [-> Hj]].
      + now apply (Hbest j fee').
      + inversion Hj. subst.
        destruct Hanswer as [? | [Ha | (a & b & Ha & Hb & Hle)]]; try discriminate.
        now inversion Ha. }
  assert (Hnew : forall amountOut,
             answer = Some amountOut -> (0 < amountOut)%N ->
             (forall j fee' a, prefix !! j = Some (fee', Some a) -> (a < amountOut)%N) ->
             chosen (prefix ++ [(fee, answer)])
                    {| bestQuote := Some amountOut; bestFee := fee |}).
  { intros amountOut -> Hpos Hless. unfold chosen. simpl. split; [exact Hpos|].
    exists (List.length prefix). split.
    - rewrite lookup_app_r by lia. now rewrite Nat.sub_diag.
    - intros j fee' a Hj. apply lookup_snoc in Hj as [Hj | [-> Hj]].
      + specialize (Hless j fee' a Hj). split; [lia | intros _; exact Hless].
      + inversion Hj. subst. split; [lia | lia]. }
  destruct answer as [amountOut|]; [|apply Hkeep; now left].
  unfold consider. destruct (N.eqb_spec amountOut 0) as [-> | Hne]; simpl.
  { apply Hkeep. right. now left. }
  destruct (bestQuote best) as [b|] eqn:Hb.
  - destruct (N.ltb_spec b amountOut) as [Hlt | Hge].
    + apply (Hnew amountOut eq_refl); [lia|].
      intros j fee' a Hj. unfold chosen in Hbest. rewrite Hb in Hbest.
      destruct Hbest as (_ & i & _ & Hall). destruct (Hall j fee' a Hj). lia.
    + apply Hkeep. right. right. exists amountOut, b. auto.
  - apply (Hnew amountOut eq_refl); [lia|].
    intros j fee' a Hj. unfold chosen in Hbest. rewrite Hb in Hbest.
    rewrite (Hbest j fee' a Hj). lia.
Qed.

Lemma select_chosen_from rest :
  forall prefix best, chosen prefix best -> chosen (prefix ++ rest) (select rest best).
Proof.
  induction rest as [|[fee answer] rest IH]; intros prefix best Hbest; simpl.
  - now rewrite app_nil_r.
  - change (prefix ++ (fee, answer) :: rest) with (prefix ++ [(fee, answer)] ++ rest).
    rewrite app_assoc. apply IH. now apply chosen_step.
Qed.

(** The loop's choice is the first of the largest positive answers. *)
Lemma select_chosen answers : chosen answers (select answers noBest).
Proof.
  apply (select_chosen_from answers [] noBest). intros j fee amountOut Hj. discriminate.
Qed.

End TierChoice.

Section V3Facts.
Import Schema Dex Chain UniswapV3.
Context {W : Type}.
Variable rpc : Rpc W.

Lemma quotedFees_app evs evs' : quotedFees (evs ++ evs') = quotedFees evs ++ quotedFees evs'.
Proof. apply flat_map_app. Qed.

Lemma sentSwaps_app evs evs' : sentSwaps (evs ++ evs') = sentSwaps evs ++ sentSwaps evs'.
Proof. apply flat_map_app. Qed.

(** The retried quote of a tier asks the quoter for that tier, at least
    once, and sends nothing. *)
Lemma loop_quote_fees fee (oracle : W -> Outcome N * W) opts left :
  forall attempt delayMs w,
    let r := Retry.loop (emit (QuoteTier fee) ;;; call oracle) opts left attempt delayMs w in
    exists k, (1 <= k)%nat /\ quotedFees (events r) = repeat fee k /\ sentSwaps (events r) = [].
Proof.
  set (fn := (emit (QuoteTier fee) ;;; call oracle) : M W N).
  assert (Hev : forall w, events (fn w) = [QuoteTier fee]) by reflexivity.
  induction left as [|left IH]; intros attempt delayMs w r; subst r; rewrite loop_step;
    rewrite Hev; destruct (outcome (fn w)) as [amountOut|e]; simpl;
    try (exists 1%nat; repeat split; lia);
    destruct (_ || _); simpl; try (exists 1%nat; repeat split; lia).
  destruct (IH (S attempt)
               (Qmin (delayMs * Retry.p_backoffMultiplier opts) (Retry.p_maxDelayMs opts))
               (world (fn w))) as (k & Hk & Hfees & Hsent).
  exists (S k). simpl in *. rewrite Hfees, Hsent. repeat split. lia.
Qed.

Lemma quoteTier_fees p quoterAddress wethAddress amountInWei fee w :
  let r := quoteTier rpc p quoterAddress wethAddress amountInWei fee w in
  exists k, (1 <= k)%nat /\ quotedFees (events r) = repeat fee k /\ sentSwaps (events r) = [].
Proof. apply loop_quote_fees. Qed.

(** One turn of the loop. *)
Lemma probe_step p quoterAddress wethAddress amountInWei fee rest best w :
  probe rpc p quoterAddress wethAddress amountInWei (fee :: rest) best w =
  let asked := quoteTier rpc p quoterAddress wethAddress amountInWei fee w in
  let best' := match outcome asked with
               | Returned amountOut => consider best fee amountOut
               | Thrown _ => best
               end in
  let pause := match outcome asked, network p with
               | Returned _, BASE => [Sleep 500]
               | _, _ => []
               end in
  let r := probe rpc p quoterAddress wethAddress amountInWei rest best' (world asked) in
  MkRun (outcome r) (world r) (events asked ++ pause ++ events r).
Proof.
  set (asked1 := quoteTier rpc p quoterAddress wethAddress amountInWei fee w).
  assert (Hquoted :
            tryCatch (amountOut <- quoteTier rpc p quoterAddress wethAddress amountInWei fee ;;
                      ret (Some (consider best fee amountOut)))
                     (fun _ => ret None) w
            = MkRun (Returned match outcome asked1 with
                              | Returned amountOut => Some (consider best fee amountOut)
                              | Thrown _ => None
                              end)
                    (world asked1) (events asked1)).
  { unfold tryCatch, bind, ret. fold asked1.
    destruct asked1 as [[amountOut|e] w' evs]; simpl; now rewrite app_nil_r. }
  change (probe rpc p quoterAddress wethAddress amountInWei (fee :: rest) best w)
    with (bind (tryCatch (amountOut <- quoteTier rpc p quoterAddress wethAddress amountInWei fee ;;
                          ret (Some (consider best fee amountOut)))
                         (fun _ => ret None))
               (fun quoted =>
                  match quoted with
                  | None => probe rpc p quoterAddress wethAddress amountInWei rest best
                  | Some best' =>
                      (match network p with BASE => emit (Sleep 500) | _ => ret tt end) ;;;
                      probe rpc p quoterAddress wethAddress amountInWei rest best'
                  end) w).
  unfold bind at 1. rewrite Hquoted. cbv zeta. simpl outcome. simpl world. simpl events.
  destruct (outcome asked1) as [amountOut|e]; [|reflexivity].
  unfold bind, emit, ret. destruct (network p); simpl;
    destruct (probe rpc p quoterAddress wethAddress amountInWei rest _ (world asked1))
    as [[?|?] ? ?]; reflexivity.
Qed.

(** The loop returns the choice among the answers of the tiers, asks the
    tiers in their order, and sends nothing. *)
Lemma probe_run p quoterAddress wethAddress amountInWei tiers :
  forall best w,
    let r := probe rpc p quoterAddress wethAddress amountInWei tiers best w in
    outcome r
    = Returned (select (answers rpc p quoterAddress wethAddress amountInWei tiers w) best)
    /\ world r = asked rpc p quoterAddress wethAddress amountInWei tiers w
    /\ sentSwaps (events r) = []
    /\ exists counts,
        List.length counts = List.length tiers
        /\ List.Forall (fun k => (1 <= k)%nat) counts
        /\ quotedFees (events r)
           = flat_map (fun tier => repeat (fst tier) (snd tier)) (combine tiers counts).
Proof.
  induction tiers as [|fee rest IH]; intros best w r; subst r.
  - simpl. repeat split. exists []. repeat split. constructor.
  - rewrite probe_step. cbv zeta. simpl outcome. simpl world. simpl events.
    destruct (quoteTier_fees p quoterAddress wethAddress amountInWei fee w)
      as (k & Hk & Hfees & Hsent).
    set (asked1 := quoteTier rpc p quoterAddress wethAddress amountInWei fee w) in *.
    set (best' := match outcome asked1 with
                  | Returned amountOut => consider best fee amountOut
                  | Thrown _ => best
                  end).
    destruct (IH best' (world asked1)) as (Hout & Hworld & Hnone & counts & Hlen & Hpos & Hq).
    assert (Hpause : forall pause : list Event,
               pause = match outcome asked1, network p with
                       | Returned _, BASE => [Sleep 500]
                       | _, _ => []
                       end ->
               quotedFees pause = [] /\ sentSwaps pause = []).
    { intros pause ->. destruct (outcome asked1), (network p); split; reflexivity. }
    destruct (Hpause _ eq_refl) as (Hpq & Hps).
    repeat split.
    + rewrite Hout. simpl. fold asked1. subst best'.
      destruct (outcome asked1); reflexivity.
    + rewrite Hworld. reflexivity.
    + rewrite !sentSwaps_app, Hsent, Hps, Hnone. reflexivity.
    + exists (k :: counts). repeat split.
      * simpl. now rewrite Hlen.
      * now constructor.
      * rewrite !quotedFees_app, Hfees, Hpq, Hq. reflexivity.
Qed.

Lemma quiet_fees evs : List.Forall quiet evs -> quotedFees evs = [] /\ sentSwaps evs = [].
Proof.
  induction 1 as [|ev evs Hev _ [IHq IHs]]; [split; reflexivity|].
  destruct ev; simpl in *; try contradiction; auto.
Qed.

Lemma sendsAt_fees tier evs :
  List.Forall (sendsAt tier) evs ->
  quotedFees evs = [] /\ forall sp, In sp (sentSwaps evs) -> fee sp = tier.
Proof.
  induction 1 as [|ev evs Hev _ [IHq IHs]]; [split; [reflexivity | intros ? []]|].
  destruct ev; simpl in *; try contradiction; auto.
  split; [exact IHq|]. intros sp [<- | Hin]; auto.
Qed.

Lemma validate_quiet p : emits (validate rpc p) quiet.
Proof. unfold validate. apply emits_retry; [apply emits_call | exact I | intros; exact I]. Qed.

Lemma swap_sends p routerAddress wethAddress tokenDecimals amountInWei best q :
  emits (swap rpc p routerAddress wethAddress tokenDecimals amountInWei best q)
        (sendsAt (bestFee best)).
Proof.
  unfold swap.
  apply emits_bind; [apply emits_retry; [apply emits_call | exact I | intros; exact I]|].
  intros gasEstimate.
  apply emits_bind; [apply emits_retry; [apply emits_call | exact I | intros; exact I]|].
  intros gasPrice.
  apply emits_bind; [apply emits_lift|]. intros rawTx.
  apply emits_bind; [|intros; apply emits_ret].
  apply emits_retry; [|exact I | intros; exact I].
  apply emits_bind; [apply emits_emit; reflexivity | intros; apply emits_call].
Qed.

(** A swap on a network that has the three addresses, for a token whose
    [decimals] answered and an amount that converts to wei. *)
Lemma executeSwap_run p w routerAddress quoterAddress wethAddress tokenDecimals amountInWei :
  ROUTER_ADDRESSES (network p) = Some routerAddress ->
  QUOTER_ADDRESSES (network p) = Some quoterAddress ->
  WETH_ADDRESSES (network p) = Some wethAddress ->
  outcome (validate rpc p w) = Returned tokenDecimals ->
  toWei rpc (amountETH p) = Returned amountInWei ->
  executeSwap rpc p w =
  let validation := validate rpc p w in
  let probed := probe rpc p quoterAddress wethAddress amountInWei FEE_TIERS noBest
                      (world validation) in
  let best := select (answers rpc p quoterAddress wethAddress amountInWei FEE_TIERS
                              (world validation)) noBest in
  match bestQuote best with
  | None =>
      MkRun (Returned (failure (noPoolMessage (network p)))) (world probed)
            (events validation ++ events probed)
  | Some expectedTokenAmount =>
      let swapped := swap rpc p routerAddress wethAddress tokenDecimals amountInWei best
                          expectedTokenAmount (world probed) in
      MkRun (Returned
               match outcome swapped with
               | Returned result => result
               | Thrown error => failure ("Uniswap V3 swap failed: " ++ Js.message error)
               end)
            (world swapped) (events validation ++ events probed ++ events swapped)
  end.
Proof.
  intros Hrouter Hquoter Hweth Hvalid Hwei.
  unfold executeSwap. rewrite Hrouter, Hquoter, Hweth, Hwei. cbv beta iota zeta.
  generalize FEE_TIERS. intros tiers.
  set (validation := validate rpc p w).
  assert (Hvalidated :
            tryCatch (d <- validate rpc p ;; ret (Some d)) (fun _ => ret None) w
            = MkRun (Returned (Some tokenDecimals)) (world validation) (events validation)).
  { unfold tryCatch, bind, ret. fold validation. fold validation in Hvalid.
    destruct validation as [[d|e] w' evs]; simpl in *; [|discriminate].
    inversion Hvalid. now rewrite app_nil_r. }
  destruct (probe_run p quoterAddress wethAddress amountInWei tiers noBest
                      (world validation)) as (Hout & _).
  pose proof (select_chosen (answers rpc p quoterAddress wethAddress amountInWei tiers
                                     (world validation))) as Hchosen.
  set (probed := probe rpc p quoterAddress wethAddress amountInWei tiers noBest
                       (world validation)) in *.
  set (best := select _ noBest) in *.
  unfold tryCatch at 1.
  erewrite bind_returned by (rewrite Hvalidated; reflexivity).
  rewrite Hvalidated. cbn [outcome world events].
  erewrite bind_returned by reflexivity.
  cbn [outcome world events lift].
  erewrite bind_returned by exact Hout.
  fold probed. cbn [outcome world events].
  unfold chosen in Hchosen.
  destruct (bestQuote best) as [q|] eqn:Hq.
  - destruct Hchosen as (Hpos & _).
    replace (N.eqb q 0) with false by (symmetry; apply N.eqb_neq; lia).
    destruct (swap rpc p routerAddress wethAddress tokenDecimals amountInWei best q
                   (world probed)) as [[result|e] ws evs];
      cbn [outcome world events ret];
      rewrite ?app_nil_r, ?app_nil_l, <- ?app_assoc; reflexivity.
  - cbn [outcome world events ret].
    rewrite ?app_nil_r, ?app_nil_l, <- ?app_assoc; reflexivity.
Qed.

End V3Facts.

(** C5. The V3 adapter, on a network that has its addresses, for a token
    whose [decimals] answered.  The quoter is asked for the tiers 100, 500,
    3000, 10000 in this order (a tier again only while the retry engine
    retries it).  Among the answers, where a tier whose call threw has none,
    the loop keeps the first of those with the largest non-zero amount: no
    earlier tier has as much and no tier has more.  When no tier answered a
    positive amount the result is the no-V3-pool failure and no swap is
    submitted; every swap that is submitted carries the fee of the tier that
    was kept. *)
Theorem v3_fee_tier_selection {W} (rpc : Chain.Rpc W) p w
        routerAddress quoterAddress wethAddress tokenDecimals amountInWei :
  let validation := UniswapV3.validate rpc p w in
  let answered := UniswapV3.answers rpc p quoterAddress wethAddress amountInWei
                                    UniswapV3.FEE_TIERS (world validation) in
  let best := UniswapV3.select answered UniswapV3.noBest in
  let r := UniswapV3.executeSwap rpc p w in
  UniswapV3.ROUTER_ADDRESSES (Dex.network p) = Some routerAddress ->
  UniswapV3.QUOTER_ADDRESSES (Dex.network p) = Some quoterAddress ->
  UniswapV3.WETH_ADDRESSES (Dex.network p) = Some wethAddress ->
  outcome validation = Returned tokenDecimals ->
  Chain.toWei rpc (Dex.amountETH p) = Returned amountInWei ->
  (exists k1 k2 k3 k4,
      (1 <= k1 /\ 1 <= k2 /\ 1 <= k3 /\ 1 <= k4)%nat
      /\ UniswapV3.quotedFees (events r)
         = repeat 100%Z k1 ++ repeat 500%Z k2 ++ repeat 3000%Z k3 ++ repeat 10000%Z k4)
  /\ map fst answered = [100; 500; 3000; 10000]%Z
  /\ (UniswapV3.bestQuote best = None <->
      forall j tier amountOut, answered !! j = Some (tier, Some amountOut) -> amountOut = 0%N)
  /\ (forall q,
         UniswapV3.bestQuote best = Some q ->
         (0 < q)%N
         /\ exists i,
             answered !! i = Some (UniswapV3.bestFee best, Some q)
             /\ forall j tier amountOut,
                 answered !! j = Some (tier, Some amountOut) ->
                 (amountOut <= q)%N /\ ((j < i)%nat -> (amountOut < q)%N))
  /\ (UniswapV3.bestQuote best = None ->
      outcome r = Returned (Dex.failure (UniswapV3.noPoolMessage (Dex.network p)))
      /\ UniswapV3.sentSwaps (events r) = [])
  /\ (forall sp, In sp (UniswapV3.sentSwaps (events r)) ->
                 Dex.fee sp = UniswapV3.bestFee best
                 /\ exists q, UniswapV3.bestQuote best = Some q /\ (0 < q)%N).
Proof.
  intros validation answered best r Hrouter Hquoter Hweth Hvalid Hwei.
  pose proof (executeSwap_run rpc p w routerAddress quoterAddress wethAddress tokenDecimals
                amountInWei Hrouter Hquoter Hweth Hvalid Hwei) as Hrun.
  cbv zeta in Hrun. fold validation answered best r in Hrun.
  destruct (probe_run rpc p quoterAddress wethAddress amountInWei UniswapV3.FEE_TIERS
                      UniswapV3.noBest (world validation))
    as (_ & _ & Hnone & counts & Hlen & Hpos & Hfees).
  set (probed := UniswapV3.probe rpc p quoterAddress wethAddress amountInWei
                                 UniswapV3.FEE_TIERS UniswapV3.noBest (world validation)) in *.
  destruct (quiet_fees _ (validate_quiet rpc p w)) as (Hvq & Hvs).
  fold validation in Hvq, Hvs.
  pose proof (select_chosen answered) as Hchosen. fold best in Hchosen.
  unfold UniswapV3.chosen in Hchosen.
  assert (Hquoted : UniswapV3.quotedFees (events r) = UniswapV3.quotedFees (events probed)).
  { rewrite Hrun. destruct (UniswapV3.bestQuote best) as [q|]; simpl.
    - rewrite !quotedFees_app, Hvq.
      destruct (sendsAt_fees _ _ (swap_sends rpc p routerAddress wethAddress tokenDecimals
                                    amountInWei best q (world probed))) as (-> & _).
      now rewrite app_nil_r.
    - now rewrite quotedFees_app, Hvq. }
  split; [|split; [|split; [|split; [|split]]]].
  - rewrite Hquoted, Hfees.
    destruct counts as [|k1 [|k2 [|k3 [|k4 [|]]]]]; try discriminate.
    inversion Hpos as [|? ? Hk1 Hpos1]; inversion Hpos1 as [|? ? Hk2 Hpos2];
      inversion Hpos2 as [|? ? Hk3 Hpos3]; inversion Hpos3 as [|? ? Hk4 _]. subst.
    exists k1, k2, k3, k4. split; [auto|]. simpl. now rewrite app_nil_r.
  - reflexivity.
  - split.
    + intros Hb. now rewrite Hb in Hchosen.
    + intros Hzero. destruct (UniswapV3.bestQuote best) as [q|]; [|reflexivity].
      destruct Hchosen as (Hq & i & Hi & _). specialize (Hzero i _ _ Hi). lia.
  - intros q Hb. now rewrite Hb in Hchosen.
  - intros Hb. rewrite Hrun, Hb. simpl. split; [reflexivity|].
    now rewrite sentSwaps_app, Hvs, Hnone.
  - intros sp Hsp. rewrite Hrun in Hsp.
    destruct (UniswapV3.bestQuote best) as [q|] eqn:Hb; simpl in Hsp.
    + rewrite !sentSwaps_app, Hvs, Hnone in Hsp. simpl in Hsp.
      destruct (sendsAt_fees _ _ (swap_sends rpc p routerAddress wethAddress tokenDecimals
                                    amountInWei best q (world probed))) as (_ & Hfee).
      split; [now apply Hfee|]. exists q. split; [reflexivity | apply Hchosen].
    + rewrite sentSwaps_app, Hvs, Hnone in Hsp. contradiction.
Qed.

(** BASE with a pool at the tiers 500 and 3000 that quote the same amount,
    nothing at 100 and an error at 10000: the tiers are asked in order and the
    swap is sent at the tier 500. *)
Lemma v3_fee_tier_selection_witness :
  let r := UniswapV3.executeSwap Scenario.rpc Scenario.swapOnBase Scenario.pools in
  UniswapV3.quotedFees (events r) = [100; 500; 3000; 10000]%Z
  /\ UniswapV3.sentSwaps (events r) <> []
  /\ forall sp, In sp (UniswapV3.sentSwaps (events r)) -> Dex.fee sp = 500%Z.
Proof.
  intros r.
  destruct (v3_fee_tier_selection Scenario.rpc Scenario.swapOnBase Scenario.pools
              "0x2626664c2603336E57B271c5C0b26F421741e481"
              "0x3d4e44Eb1374240CE5F1B871ab261CD16335B76a"
              "0x4200000000000000000000000000000000000006"
              18%Z 25000000000000000%Z)
    as (_ & _ & _ & _ & _ & Hsent).
  - reflexivity.
  - reflexivity.
  - reflexivity.
  - vm_compute. reflexivity.
  - vm_compute. reflexivity.
  - split; [vm_compute; reflexivity|]. split; [vm_compute; discriminate|].
    intros sp Hsp. destruct (Hsent sp Hsp) as (Hfee & _). rewrite Hfee.
    vm_compute. reflexivity.
Defined.

(** ** The journal *)

Section StorageFacts.
Import Storage.

Lemma eqs_refl a : eqs a a = true.
Proof. apply String.eqb_refl. Qed.

Lemma eqs_eq a b : eqs a b = true <-> a = b.
Proof. apply String.eqb_eq. Qed.

Lemma truthy_nonempty s : s <> "" -> Js.truthy s = true.
Proof.
  intros H. unfold Js.truthy. destruct (String.eqb_spec s ""); [contradiction | reflexivity].
Qed.

(** After [deactivateConfigsForNetwork] no config of the user on the network
    is active. *)
Lemma deactivated_none_active userId network d :
  List.filter (fun c => eqs (Storage.userId c) userId && eqs (Storage.network c) network
                        && Bool.eqb (isActive c) true)
              (tradeConfigs (deactivateConfigsForNetwork userId network d)) = [].
Proof.
  unfold deactivateConfigsForNetwork. simpl.
  induction (tradeConfigs d) as [|c cs IH]; [reflexivity|]. simpl.
  destruct (eqs (Storage.userId c) userId && eqs (Storage.network c) network) eqn:Hkey.
  - simpl. rewrite Hkey. simpl. exact IH.
  - rewrite Hkey. simpl. exact IH.
Qed.

End StorageFacts.

Section ColumnFacts.
Import Storage.

(** An integer bounds the floor of a number when it bounds the number. *)
Lemma Qfloor_lt_iff (y : Q) (k : Z) : (Qfloor y < k)%Z <-> (y < inject_Z k)%Q.
Proof.
  split.
  - intros H. apply Qlt_le_trans with (inject_Z (Qfloor y + 1)); [apply Qlt_floor|].
    rewrite <- Zle_Qle. lia.
  - intros H. rewrite Zlt_Qlt. apply Qle_lt_trans with y; [apply Qfloor_le | exact H].
Qed.

(** A column [decimal(precision, scale)] takes [x] when [x], rounded to
    [scale] decimals, is below [10^(precision - scale)] in absolute value. *)
Lemma decimal_fits precision scale x :
  is_Some (decimal precision scale x)
  <-> (Qabs x * inject_Z (Js.pow10 scale) + (1 # 2) < inject_Z (Js.pow10 precision))%Q.
Proof.
  unfold decimal, Js.toFixed. cbn [Js.unscaled].
  set (n := Qfloor (Qabs x * inject_Z (Js.pow10 scale) + (1 # 2))).
  assert (Hn : (0 <= n)%Z).
  { unfold n. change 0%Z with (Qfloor (inject_Z 0)). apply Qfloor_resp_le.
    apply Qle_trans with (0 + (1 # 2))%Q; [discriminate|].
    apply Qplus_le_l. apply Qmult_le_0_compat; [apply Qabs_nonneg|].
    rewrite <- (Zle_Qle 0). unfold Js.pow10. apply Z.pow_nonneg. lia. }
  assert (Habs : Z.abs (if Qle_bool 0 x then n else (- n)%Z) = n)
    by (destruct (Qle_bool 0 x); lia).
  rewrite Habs, <- Qfloor_lt_iff. fold n.
  destruct (Z.ltb_spec n (Js.pow10 precision)).
  - split; [intros _; assumption | intros _; eauto].
  - split; [intros [? H']; discriminate | intros H'; lia].
Qed.

(** The value that a [decimal] column holds is the one given, rounded. *)
Lemma decimal_stored precision scale x stored :
  decimal precision scale x = Some stored -> stored = Js.toFixed x scale.
Proof.
  unfold decimal. destruct (_ <? _)%Z; [|discriminate]. now intros [= <-].
Qed.

Lemma varchar_stored n s stored : varchar n s = Some stored -> stored = s.
Proof. unfold varchar. destruct (_ <=? _)%nat; [|discriminate]. now intros [= <-]. Qed.


(** The columns change no text, and not the flag [isActive]. *)
Lemma storedConfig_keeps X stored :
  storedConfig X = Returned stored ->
  i_userId stored = i_userId X
  /\ i_network stored = i_network X
  /\ i_tradeInterval stored = i_tradeInterval X
  /\ i_isActive stored = i_isActive X.
Proof.
  unfold storedConfig, andThen, orThrow, optionally.
  destruct (varchar 10 (i_network X)) as [network|] eqn:Hnetwork; cbn; [|discriminate].
  destruct (varchar 20 (i_dex X)); cbn; [|discriminate].
  destruct (match i_dexVersion X with
            | Some a => _
            | None => Returned None
            end); cbn; [|discriminate].
  destruct (varchar 20 (i_tradeInterval X)) as [interval|] eqn:Hinterval; cbn; [|discriminate].
  destruct (decimal 10 2 _); cbn; [|discriminate].
  destruct (match i_maxGasRatio X with
            | Some a => _
            | None => Returned None
            end); cbn; [|discriminate].
  destruct (match i_slippageTolerance X with
            | Some a => _
            | None => Returned None
            end); cbn; [|discriminate].
  intros [= <-]. cbn.
  apply varchar_stored in Hnetwork, Hinterval. now subst.
Qed.




End ColumnFacts.

Section CreateFacts.
Import Storage.

(** The bounds of the two decimal columns of [trade_configs], in plain
    numbers. *)
Lemma decimal_10_2 x :
  is_Some (decimal 10 2 x) <-> (Qabs x < 99999999995 # 1000)%Q.
Proof.
  rewrite decimal_fits.
  change (inject_Z (Js.pow10 2)) with 100%Q.
  change (inject_Z (Js.pow10 10)) with 10000000000%Q.
  split; intros H; lra.
Qed.



End CreateFacts.




(** ** The scheduler *)

Section SchedulerFacts.
Import Storage BotScheduler.
Context {W : Type}.
Variable env : TradingService.Env W.
Variable tradingService : TradingService.Service.

Lemma trade_returns config w :
  exists result, outcome (trade env tradingService config w) = Returned result.
Proof.
  unfold trade. destruct (Schema.parseNetwork (network config)) as [n|].
  - unfold TradingService.executeTrade. apply tryCatch_total.
  - eexists. reflexivity.
Qed.

Lemma onExt_run {A} (m : M W A) (s : System W) a :
  outcome (m (ext s)) = Returned a ->
  onExt m s = MkRun (Returned a)
                    {| scheduledTasks := scheduledTasks s; broadcaster := broadcaster s;
                       db := db s; ext := world (m (ext s)) |}
                    (events (m (ext s))).
Proof. intros H. unfold onExt. now rewrite H. Qed.

(** "Update bot status" *)
Lemma count_run userId config result (found : option BotStatus) (s : System W) :
  match found with
  | Some botStatus =>
      now <- readDb now ;;
      onDb (updateBotStatus userId (network config)
              (advance now config result botStatus)) ;;;
      ret tt
  | None => ret tt
  end s
  = MkRun (Returned tt)
          {| scheduledTasks := scheduledTasks s; broadcaster := broadcaster s;
             db := match found with
                   | Some botStatus =>
                       snd (updateBotStatus userId (network config)
                              (advance (now (db s)) config result botStatus) (db s))
                   | None => db s
                   end;
             ext := ext s |} [].
Proof.
  destruct found as [botStatus|].
  - unfold bind, readDb, onDb, ret. cbn [outcome world events fst snd app]. reflexivity.
  - unfold ret. now destruct s.
Qed.

(** "Broadcast updates via WebSocket" *)
Lemma broadcast_run userId (s : System W) :
  (if broadcaster s
   then emit (Broadcast userId "new_trade") ;;; emit (Broadcast userId "bot_status")
   else ret tt) s
  = MkRun (Returned tt) s
          (if broadcaster s
           then [Broadcast userId "new_trade"; Broadcast userId "bot_status"]
           else []).
Proof. destruct (broadcaster s); reflexivity. Qed.

Lemma executeTrade_run userId config s result :
  let created := createTradeLog {|
                   n_userId := userId; n_configId := Some (id config);
                   n_network := network config; n_dex := dex config;
                   n_tokenAddress := contractAddress config;
                   n_tradeType := "automated";
                   n_amountUsd := tradeAmountUsd config; n_status := "pending"
                 |} (db s) in
  let traded := trade env tradingService config (ext s) in
  let logged := snd (updateTradeLog (l_id (fst created)) (terminal result) (snd created)) in
  let counted :=
    match getBotStatus userId (network config) logged with
    | Some botStatus =>
        snd (updateBotStatus userId (network config)
                             (advance (now logged) config result botStatus) logged)
    | None => logged
    end in
  outcome traded = Returned result ->
  executeTrade env tradingService userId config s =
  MkRun (Returned tt)
        {| scheduledTasks := scheduledTasks s; broadcaster := broadcaster s;
           db := counted; ext := world traded |}
        (events traded
         ++ if broadcaster s
            then [Broadcast userId "new_trade"; Broadcast userId "bot_status"]
            else []).
Proof.
  intros created traded logged counted Hout.
  unfold executeTrade.
  eapply eq_trans.
  { eapply bind_run; [reflexivity|].
    unfold finishTrade. eapply tryCatch_run.
    eapply bind_run; [eapply onExt_run; exact Hout|].
    eapply bind_run; [reflexivity|].
    eapply bind_run; [reflexivity|].
    eapply bind_run; [apply count_run|].
    apply broadcast_run. }
  reflexivity.
Qed.
(** [updateBotStatus] changes the row that [getBotStatus] finds. *)
Lemma updateBotStatus_get userId network updates d b :
  getBotStatus userId network d = Some b ->
  getBotStatus userId network (snd (updateBotStatus userId network updates d))
  = Some (setStatus d updates b).
Proof.
  unfold getBotStatus, updateBotStatus. cbn [snd botStatus withStatus].
  induction (botStatus d) as [|b0 bs IH]; [discriminate|].
  cbn [List.filter map].
  destruct (isKey userId network b0) eqn:Hkey.
  - assert (Hkept : isKey userId network (setStatus d updates b0) = true) by exact Hkey.
    rewrite Hkept. cbn [head]. intros H. now inversion H.
  - rewrite Hkey. exact IH.
Qed.

End SchedulerFacts.

Section NumeralFacts.

Lemma Qfloor_half m : Qfloor (inject_Z m + (1 # 2)) = m.
Proof.
  unfold Qfloor, inject_Z, Qplus. simpl.
  symmetry. apply (Z.div_unique _ _ m 1); lia.
Qed.

Lemma pow10_pos n : (0 < Js.pow10 n)%Z.
Proof. unfold Js.pow10. apply Z.pow_pos_nonneg; lia. Qed.

Lemma pow10_Q_pos n : (0 < inject_Z (Js.pow10 n))%Q.
Proof. rewrite <- (Zlt_Qlt 0). apply pow10_pos. Qed.

(** A number with at most [digits] decimals is written without loss. *)
Lemma toFixed_exact x k digits :
  (x == inject_Z k / inject_Z (Js.pow10 digits))%Q ->
  Js.toFixed x digits = {| Js.unscaled := k; Js.scale := digits |}.
Proof.
  intros Hx. unfold Js.toFixed.
  pose proof (pow10_Q_pos digits) as HP.
  set (P := inject_Z (Js.pow10 digits)) in *.
  assert (Hk : (x * P == inject_Z k)%Q).
  { rewrite Hx. field. intros H0. rewrite H0 in HP. now apply Qlt_irrefl in HP. }
  assert (Habs : (Qabs x * P == inject_Z (Z.abs k))%Q).
  { rewrite <- (Qabs_pos P) at 1 by now apply Qlt_le_weak.
    rewrite <- Qabs_Qmult, Hk. reflexivity. }
  assert (Hfloor : Qfloor (Qabs x * P + (1 # 2)) = Z.abs k).
  { rewrite <- Qfloor_half. apply Qfloor_comp. now rewrite Habs. }
  rewrite Hfloor. f_equal.
  destruct (Qle_bool 0 x) eqn:Hsign.
  - apply Qle_bool_iff in Hsign.
    assert (H : (0 <= inject_Z k)%Q).
    { rewrite <- Hk. apply Qmult_le_0_compat; [exact Hsign | now apply Qlt_le_weak]. }
    rewrite <- (Zle_Qle 0) in H. lia.
  - assert (Hneg : (x < 0)%Q).
    { apply Qnot_le_lt. intros Hle. apply Qle_bool_iff in Hle. congruence. }
    assert (H : (inject_Z k < 0)%Q).
    { pose proof (Qmult_lt_compat_r x 0 P HP Hneg) as Hlt.
      rewrite Qmult_0_l, Hk in Hlt. exact Hlt. }
    rewrite <- (Zlt_Qlt _ 0) in H. lia.
Qed.

(** A decimal string with at most [n] decimals, written with [n]. *)
Lemma parseFloat_scaled (s : Js.Numeral) n :
  (Js.scale s <= n)%nat ->
  (Js.parseFloat s
   == inject_Z (Js.unscaled s * Js.pow10 (n - Js.scale s)) / inject_Z (Js.pow10 n))%Q.
Proof.
  intros Hle. unfold Js.parseFloat.
  assert (Hsplit : Js.pow10 n = (Js.pow10 (Js.scale s) * Js.pow10 (n - Js.scale s))%Z).
  { unfold Js.pow10. rewrite <- Z.pow_add_r by lia. f_equal. lia. }
  pose proof (pow10_Q_pos (Js.scale s)) as H1.
  pose proof (pow10_Q_pos (n - Js.scale s)) as H2.
  rewrite Hsplit, !inject_Z_mult. field.
  split; intros H0; [rewrite H0 in H2; now apply Qlt_irrefl in H2
                    | rewrite H0 in H1; now apply Qlt_irrefl in H1].
Qed.

(** The sum of two amounts with at most two decimals survives
    [toFixed(2)]. *)
Lemma toFixed2_sum (a b : Js.Numeral) :
  (Js.scale a <= 2)%nat -> (Js.scale b <= 2)%nat ->
  (Js.parseFloat (Js.toFixed (Js.parseFloat a + Js.parseFloat b) 2)
   == Js.parseFloat a + Js.parseFloat b)%Q.
Proof.
  intros Ha Hb.
  set (k := (Js.unscaled a * Js.pow10 (2 - Js.scale a)
             + Js.unscaled b * Js.pow10 (2 - Js.scale b))%Z).
  assert (Hsum : (Js.parseFloat a + Js.parseFloat b == inject_Z k / inject_Z (Js.pow10 2))%Q).
  { rewrite (parseFloat_scaled a 2 Ha), (parseFloat_scaled b 2 Hb).
    unfold k. rewrite inject_Z_plus. field. discriminate. }
  rewrite (toFixed_exact _ k 2 Hsum). unfold Js.parseFloat. simpl Js.unscaled. simpl Js.scale.
  now rewrite Hsum.
Qed.

End NumeralFacts.

Section StagedFacts.
Import Storage BotScheduler.
Context {W : Type}.
Variable env : TradingService.Env W.
Variable tradingService : TradingService.Service.

(** The write of the counters: the row of the key is set from the row that
    was read, whatever it holds by now. *)
Lemma resume_counting e result read (s : System W) :
  resume e (Counting result read) s
  = MkRun (Returned None)
          {| scheduledTasks := scheduledTasks s; broadcaster := broadcaster s;
             db := snd (updateBotStatus (e_userId e) (network (e_config e))
                          (advance (now (db s)) (e_config e) result read) (db s));
             ext := ext s |}
          (if broadcaster s
           then [Broadcast (e_userId e) "new_trade"; Broadcast (e_userId e) "bot_status"]
           else []).
Proof.
  unfold resume.
  eapply eq_trans.
  { eapply tryCatch_run.
    eapply bind_run; [reflexivity|].
    eapply bind_run; [reflexivity|].
    eapply bind_run; [apply broadcast_run|].
    reflexivity. }
  cbn [broadcaster app]. now rewrite app_nil_r.
Qed.

End StagedFacts.

(** C8, as the code has it.  A scheduled tick on a key that has its
    [BotStatus] row reads the row after its trade and then writes the
    counters from what it read: [totalTradesCount] is set to the count read
    plus one, [successfulTradesCount] or [failedTradesCount] to the one read
    plus one according to the outcome, and [totalVolumeUsd], when the trade
    succeeded, to the volume read plus the trade's [amountUsd] written with
    two decimals (second part, for the write from any state of the journal).
    So a tick that runs from its start to its end with no other write to the
    row in between leaves [totalTradesCount] one higher; when the trade
    succeeded [successfulTradesCount] is one higher, [failedTradesCount] is the
    same and [totalVolumeUsd] is the old volume plus [amountUsd] (their exact
    sum when both have at most two decimals); when it failed
    [failedTradesCount] is one higher and the other two are the same (first
    part).  Both parts are for writes whose values fit their columns: the
    database refuses the others, and the tick then ends in its [catch]
    block. *)
Theorem tick_advances_counters {W} (env : TradingService.Env W) tradingService
        userId config (s : BotScheduler.System W) b :
  let r := BotScheduler.executeTrade env tradingService userId config s in
  let amountUsd := Storage.tradeAmountUsd config in
  Storage.getBotStatus userId (Storage.network config) (BotScheduler.db s) = Some b ->
  (exists result,
    outcome (BotScheduler.trade env tradingService config (BotScheduler.ext s)) = Returned result
    /\ (Storage.logTaken (BotScheduler.pending userId config) = true ->
        Storage.logUpdateTaken (BotScheduler.terminal result) = true ->
        Storage.statusUpdateTaken
          (BotScheduler.advance (Storage.now (BotScheduler.db s)) config result b) = true ->
        exists b',
          outcome r = Returned tt
          /\ Storage.getBotStatus userId (Storage.network config) (BotScheduler.db (world r))
             = Some b'
          /\ Storage.b_totalTradesCount b' = (Storage.b_totalTradesCount b + 1)%Z
          /\ (Dex.success result = true ->
              Storage.b_successfulTradesCount b' = (Storage.b_successfulTradesCount b + 1)%Z
              /\ Storage.b_failedTradesCount b' = Storage.b_failedTradesCount b
              /\ Storage.b_totalVolumeUsd b'
                 = Js.toFixed (Js.parseFloat (Storage.b_totalVolumeUsd b)
                               + Js.parseFloat amountUsd) 2)
          /\ (Dex.success result = true ->
              (Js.scale (Storage.b_totalVolumeUsd b) <= 2)%nat ->
              (Js.scale amountUsd <= 2)%nat ->
              (Js.parseFloat (Storage.b_totalVolumeUsd b')
               == Js.parseFloat (Storage.b_totalVolumeUsd b) + Js.parseFloat amountUsd)%Q)
          /\ (Dex.success result = false ->
              Storage.b_successfulTradesCount b' = Storage.b_successfulTradesCount b
              /\ Storage.b_failedTradesCount b' = (Storage.b_failedTradesCount b + 1)%Z
              /\ Storage.b_totalVolumeUsd b' = Storage.b_totalVolumeUsd b)))
  /\ (forall (e : BotScheduler.Execution) result read (s' : BotScheduler.System W) current,
         let key_user := BotScheduler.e_userId e in
         let key_network := Storage.network (BotScheduler.e_config e) in
         let written := BotScheduler.resume e (BotScheduler.Counting result read) s' in
         Storage.getBotStatus key_user key_network (BotScheduler.db s') = Some current ->
         Storage.statusUpdateTaken
           (BotScheduler.advance (Storage.now (BotScheduler.db s')) (BotScheduler.e_config e)
                                 result read) = true ->
         exists b',
           outcome written = Returned None
           /\ Storage.getBotStatus key_user key_network (BotScheduler.db (world written))
              = Some b'
           /\ Storage.b_totalTradesCount b' = (Storage.b_totalTradesCount read + 1)%Z
           /\ Storage.b_successfulTradesCount b'
              = (if Dex.success result then (Storage.b_successfulTradesCount read + 1)%Z
                 else Storage.b_successfulTradesCount read)
           /\ Storage.b_failedTradesCount b'
              = (if Dex.success result then Storage.b_failedTradesCount read
                 else (Storage.b_failedTradesCount read + 1)%Z)
           /\ Storage.b_totalVolumeUsd b'
              = (if Dex.success result
                 then Js.toFixed (Js.parseFloat (Storage.b_totalVolumeUsd read)
                                  + Js.parseFloat
                                      (Storage.tradeAmountUsd (BotScheduler.e_config e))) 2
                 else Storage.b_totalVolumeUsd read)).
Proof.
  intros r amountUsd Hrow. split.
  - destruct (trade_returns env tradingService config (BotScheduler.ext s)) as (result & Hout).
    exists result. split; [exact Hout|]. intros _ _ _.
    pose proof (executeTrade_run env tradingService userId config s result Hout) as Hrun.
    cbv zeta in Hrun. fold r in Hrun.
    set (logged := snd (Storage.updateTradeLog _ (BotScheduler.terminal result) _)) in Hrun.
    assert (Hsame : Storage.getBotStatus userId (Storage.network config) logged = Some b)
      by exact Hrow.
    rewrite Hsame in Hrun.
    set (updates := BotScheduler.advance (Storage.now logged) config result b) in Hrun.
    exists (Storage.setStatus logged updates b).
    split; [now rewrite Hrun|]. split.
    { rewrite Hrun. cbn [world BotScheduler.db].
      now apply updateBotStatus_get. }
    split; [reflexivity|].
    split; [|split].
    + intros Hs. unfold updates, BotScheduler.advance. cbn. rewrite Hs. repeat split.
    + intros Hs Hb Ha. unfold updates, BotScheduler.advance. cbn. rewrite Hs.
      now apply toFixed2_sum.
    + intros Hs. unfold updates, BotScheduler.advance. cbn. rewrite Hs. repeat split.
  - intros e result read s' current key_user key_network written Hcurrent _.
    subst written. rewrite resume_counting. cbn [outcome world BotScheduler.db].
    eexists. split; [reflexivity|].
    split; [exact (updateBotStatus_get _ _ _ _ _ Hcurrent)|].
    cbn [Storage.setStatus BotScheduler.advance Storage.b_totalTradesCount
         Storage.b_successfulTradesCount Storage.b_failedTradesCount Storage.b_totalVolumeUsd
         Storage.s_totalTradesCount Storage.s_successfulTradesCount
         Storage.s_failedTradesCount Storage.s_totalVolumeUsd default].
    repeat split.
Qed.

(** The first tick of a bot that has just been started. *)
Lemma tick_advances_counters_witness :
  let s := BotScheduler.system
             (Scenario.run [BotScheduler.Start "alice" Scenario.bot] (Scenario.boot Scenario.calm)) in
  let r := BotScheduler.executeTrade Scenario.env Scenario.tradingService "alice" Scenario.bot s in
  exists b',
    Storage.getBotStatus "alice" "BASE" (BotScheduler.db (world r)) = Some b'
    /\ Storage.b_totalTradesCount b' = 1%Z
    /\ Storage.b_successfulTradesCount b' = 1%Z
    /\ Storage.b_failedTradesCount b' = 0%Z
    /\ Storage.b_totalVolumeUsd b' = {| Js.unscaled := 5000; Js.scale := 2 |}.
Proof.
  intros s r.
  destruct (tick_advances_counters Scenario.env Scenario.tradingService "alice" Scenario.bot s
              {| Storage.b_id := "uuid-0"; Storage.b_userId := "alice";
                 Storage.b_network := "BASE"; Storage.b_isRunning := true;
                 Storage.b_activeConfigId := Some "uuid-0";
                 Storage.b_lastTradeAt := None; Storage.b_nextTradeAt := Some 600000%Z;
                 Storage.b_totalTradesCount := 0; Storage.b_successfulTradesCount := 0;
                 Storage.b_failedTradesCount := 0;
                 Storage.b_totalVolumeUsd := {| Js.unscaled := 0; Js.scale := 0 |};
                 Storage.b_updatedAt := 0 |})
    as ((result & Hout & Htick) & _).
  - vm_compute. reflexivity.
  - assert (Hr : Returned result = Returned Scenario.swapped)
      by (rewrite <- Hout; vm_compute; reflexivity).
    injection Hr as ->.
    destruct Htick as (b' & _ & Hget & Htotal & Hsuccess & _ & _);
      [vm_compute; reflexivity|vm_compute; reflexivity|vm_compute; reflexivity|].
    destruct (Hsuccess eq_refl) as (Hs1 & Hs2 & Hs3).
    exists b'. fold r in Hget. split; [exact Hget|]. split; [exact Htotal|].
    split; [exact Hs1|]. split; [exact Hs2|]. rewrite Hs3. vm_compute. reflexivity.
Defined.

(** C8 as it is stated fails: the bot of alice on BASE is started and its
    task fires twice before the first tick has returned.  Both trades return
    and succeed, and each tick reads the status row, with the count 0, before
    the other has written it.  Both ticks run to their end, two trades of 50
    USD have been submitted and logged as successes, and the row counts one
    trade, one success and a volume of 50.00. *)
Lemma overlapping_ticks_count_once :
  let key := BotScheduler.getBotKey "alice" "BASE" in
  let fired := Scenario.run [BotScheduler.Start "alice" Scenario.bot;
                             BotScheduler.Fire key; BotScheduler.Fire key]
                            (Scenario.boot Scenario.calm) in
  let settled := Scenario.run [BotScheduler.Return 0; BotScheduler.Return 0;
                               BotScheduler.Resume 0; BotScheduler.Resume 1;
                               BotScheduler.Resume 0; BotScheduler.Resume 1;
                               BotScheduler.Resume 0; BotScheduler.Resume 0] fired in
  BotScheduler.running settled = []
  /\ BotScheduler.resumed settled = []
  /\ Scenario.submitted (BotScheduler.ext (BotScheduler.system settled)) = 2%nat
  /\ map (fun l => (Storage.l_status l, Storage.l_txHash l))
         (Storage.tradeLogs (BotScheduler.db (BotScheduler.system settled)))
     = [("success", Some "0xv2"); ("success", Some "0xv2")]
  /\ exists row,
       Storage.getBotStatus "alice" "BASE" (BotScheduler.db (BotScheduler.system settled))
       = Some row
       /\ Storage.b_totalTradesCount row = 1%Z
       /\ Storage.b_successfulTradesCount row = 1%Z
       /\ Storage.b_failedTradesCount row = 0%Z
       /\ Storage.b_totalVolumeUsd row = {| Js.unscaled := 5000; Js.scale := 2 |}.
Proof.
  vm_compute. split; [reflexivity|]. split; [reflexivity|]. split; [reflexivity|].
  split; [reflexivity|]. eexists. repeat split.
Qed.

Section ScheduleFacts.
Import Storage BotScheduler.
Context {W : Type}.
Variable env : TradingService.Env W.
Variable tradingService : TradingService.Service.

Lemma snoc_lookup {A} (l : list A) x : (l ++ [x]) !! List.length l = Some x.
Proof. now apply list_lookup_middle. Qed.

Lemma snoc_insert {A} (l : list A) x y : <[List.length l := y]> (l ++ [x]) = l ++ [y].
Proof.
  replace (List.length l) with (List.length l + 0)%nat by lia.
  now rewrite insert_app_r.
Qed.

Lemma snoc_remove {A} (l : list A) x :
  take (List.length l) (l ++ [x]) ++ drop (S (List.length l)) (l ++ [x]) = l.
Proof.
  rewrite take_app_length.
  rewrite drop_ge by (rewrite length_app; simpl; lia).
  apply app_nil_r.
Qed.

Lemma lookup_length {A} (l : list A) : l !! List.length l = None.
Proof. apply lookup_ge_None_2. lia. Qed.

Lemma returnTrade_run e (s : System W) result :
  outcome (trade env tradingService (e_config e) (ext s)) = Returned result ->
  returnTrade env tradingService e s
  = MkRun (Returned (Some (Traded result)))
          {| scheduledTasks := scheduledTasks s; broadcaster := broadcaster s;
             db := db s;
             ext := world (trade env tradingService (e_config e) (ext s)) |}
          (events (trade env tradingService (e_config e) (ext s))).
Proof.
  intros Hout. unfold returnTrade.
  eapply eq_trans.
  { eapply tryCatch_run. eapply bind_run; [eapply onExt_run; exact Hout|]. reflexivity. }
  now rewrite app_nil_r.
Qed.

Lemma resume_traded e result (s : System W) :
  resume e (Traded result) s
  = MkRun (Returned (Some (Logged result)))
          {| scheduledTasks := scheduledTasks s; broadcaster := broadcaster s;
             db := snd (updateTradeLog (l_id (e_tradeLog e)) (terminal result) (db s));
             ext := ext s |} [].
Proof. reflexivity. Qed.

Lemma resume_logged e result (s : System W) :
  resume e (Logged result) s
  = match getBotStatus (e_userId e) (network (e_config e)) (db s) with
    | Some botStatus => MkRun (Returned (Some (Counting result botStatus))) s []
    | None =>
        MkRun (Returned None) s
              (if broadcaster s
               then [Broadcast (e_userId e) "new_trade"; Broadcast (e_userId e) "bot_status"]
               else [])
    end.
Proof.
  unfold resume.
  destruct (getBotStatus (e_userId e) (network (e_config e)) (db s)) as [b|] eqn:Hb.
  - eapply eq_trans.
    { eapply tryCatch_run. eapply bind_run; [reflexivity|]. rewrite Hb. reflexivity. }
    reflexivity.
  - eapply eq_trans.
    { eapply tryCatch_run. eapply bind_run; [reflexivity|]. rewrite Hb.
      eapply bind_run; [apply broadcast_run|]. reflexivity. }
    cbn [app]. now rewrite app_nil_r.
Qed.

Lemma finishTrade_run userId config tradeLog (s : System W) result :
  let traded := trade env tradingService config (ext s) in
  let logged := snd (updateTradeLog (l_id tradeLog) (terminal result) (db s)) in
  let counted :=
    match getBotStatus userId (network config) logged with
    | Some botStatus =>
        snd (updateBotStatus userId (network config)
                             (advance (now logged) config result botStatus) logged)
    | None => logged
    end in
  outcome traded = Returned result ->
  finishTrade env tradingService userId config tradeLog s =
  MkRun (Returned tt)
        {| scheduledTasks := scheduledTasks s; broadcaster := broadcaster s;
           db := counted; ext := world traded |}
        (events traded
         ++ if broadcaster s
            then [Broadcast userId "new_trade"; Broadcast userId "bot_status"]
            else []).
Proof.
  intros traded logged counted Hout.
  unfold finishTrade.
  eapply eq_trans.
  { eapply tryCatch_run.
    eapply bind_run; [eapply onExt_run; exact Hout|].
    eapply bind_run; [reflexivity|].
    eapply bind_run; [reflexivity|].
    eapply bind_run; [apply count_run|].
    apply broadcast_run. }
  reflexivity.
Qed.

Lemma step_return (rt : Runtime (W := W)) i e result :
  running rt !! i = Some e ->
  outcome (trade env tradingService (e_config e) (ext (system rt))) = Returned result ->
  step env tradingService (Return i) rt
  = {| system := {| scheduledTasks := scheduledTasks (system rt);
                    broadcaster := broadcaster (system rt);
                    db := db (system rt);
                    ext := world (trade env tradingService (e_config e) (ext (system rt))) |};
       running := take i (running rt) ++ drop (S i) (running rt);
       resumed := resumed rt ++ [{| r_execution := e; r_stage := Traded result |}];
       trace := trace rt
                ++ events (trade env tradingService (e_config e) (ext (system rt))) |}.
Proof.
  intros Hi Hout. unfold step. rewrite Hi. cbv zeta.
  now rewrite (returnTrade_run e (system rt) result Hout).
Qed.

Lemma step_resume (rt : Runtime (W := W)) j x :
  resumed rt !! j = Some x ->
  step env tradingService (Resume j) rt
  = let r := resume (r_execution x) (r_stage x) (system rt) in
    {| system := world r;
       running := running rt;
       resumed := match outcome r with
                  | Returned (Some stage) =>
                      <[j := {| r_execution := r_execution x; r_stage := stage |}]> (resumed rt)
                  | _ => take j (resumed rt) ++ drop (S j) (resumed rt)
                  end;
       trace := trace rt ++ events r |}.
Proof. intros Hj. unfold step. now rewrite Hj. Qed.

(** [Settle] is the schedule of the steps of one execution with nothing in
    between: the return of its trade and then its three statements. *)
Lemma settle_uninterrupted (rt : Runtime (W := W)) i e :
  running rt !! i = Some e ->
  let k := List.length (resumed rt) in
  step env tradingService (Settle i) rt
  = run env tradingService [Return i; Resume k; Resume k; Resume k] rt.
Proof.
  intros Hi k. subst k.
  destruct (trade_returns env tradingService (e_config e) (ext (system rt)))
    as (result & Hout).
  unfold run. cbn [fold_left].
  rewrite (step_return rt i e result Hi Hout).
  rewrite (step_resume {| system := _; running := _; resumed := _ ++ [_]; trace := _ |}
                       _ {| r_execution := e; r_stage := Traded result |})
    by apply snoc_lookup.
  cbv zeta. cbn [r_execution r_stage system running resumed trace].
  rewrite resume_traded. cbn [world events outcome]. rewrite snoc_insert.
  rewrite (step_resume {| system := _; running := _; resumed := _ ++ [_]; trace := _ |}
                       _ {| r_execution := e; r_stage := Logged result |})
    by apply snoc_lookup.
  cbv zeta. cbn [r_execution r_stage system running resumed trace].
  rewrite resume_logged. cbn [db broadcaster].
  unfold step at 1. rewrite Hi.
  rewrite (finishTrade_run _ _ _ _ result Hout). unfold after. cbn [world events].
  destruct (getBotStatus (e_userId e) (network (e_config e)) _) as [b|].
  - cbn [world events outcome]. rewrite snoc_insert.
    rewrite (step_resume {| system := _; running := _; resumed := _ ++ [_]; trace := _ |}
                         _ {| r_execution := e; r_stage := Counting result b |})
      by apply snoc_lookup.
    cbv zeta. cbn [r_execution r_stage system running resumed trace].
    rewrite resume_counting.
    cbn [world events outcome db broadcaster scheduledTasks ext].
    rewrite snoc_remove. f_equal.
    rewrite !app_nil_r. now rewrite <- app_assoc.
  - cbn [world events outcome]. rewrite snoc_remove.
    unfold step. cbn [resumed]. rewrite lookup_length.
    f_equal. now rewrite !app_nil_r, <- app_assoc.
Qed.

End ScheduleFacts.

(** C7, as the code has it.  A tick creates its log row with status
    pending; run to its end it writes the terminal fields once, and the row
    then has status success or failed according to the outcome of the trade.
    [updateTradeLog] itself does not look at the status a row has: it sets
    the given columns on every row with the id, whatever was there. *)
Theorem trade_log_written_unconditionally {W} (env : TradingService.Env W) tradingService :
  (forall userId config (s : BotScheduler.System W),
      exists log,
        outcome (BotScheduler.beginTrade userId config s) = Returned log
        /\ Storage.l_status log = "pending"
        /\ Storage.tradeLogs (BotScheduler.db (world (BotScheduler.beginTrade userId config s)))
           = Storage.tradeLogs (BotScheduler.db s) ++ [log])
  /\ (forall userId config (s : BotScheduler.System W),
         exists result log,
           outcome (BotScheduler.trade env tradingService config (BotScheduler.ext s))
           = Returned result
           /\ Storage.tradeLogs
                (BotScheduler.db
                   (world (BotScheduler.executeTrade env tradingService userId config s)))
              = map (fun l => if Storage.eqs (Storage.l_id l) (Storage.l_id log)
                              then Storage.setLog (BotScheduler.terminal result) l else l)
                    (Storage.tradeLogs (BotScheduler.db s))
                ++ [log]
           /\ Storage.l_status log = (if Dex.success result then "success" else "failed"))
  /\ (forall id updates d,
         Storage.tradeLogs (snd (Storage.updateTradeLog id updates d))
         = map (fun l => if Storage.eqs (Storage.l_id l) id then Storage.setLog updates l else l)
               (Storage.tradeLogs d))
  /\ (forall updates status before,
         Storage.u_status updates = Some status ->
         Storage.l_status (Storage.setLog updates before) = status).
Proof.
  split; [|split; [|split]].
  - intros userId config s. eexists. repeat split.
  - intros userId config s.
    destruct (trade_returns env tradingService config (BotScheduler.ext s)) as (result & Hout).
    pose proof (executeTrade_run env tradingService userId config s result Hout) as Hrun.
    cbv zeta in Hrun. rewrite Hrun. cbn [world BotScheduler.db].
    set (created := Storage.createTradeLog _ (BotScheduler.db s)).
    exists result, (Storage.setLog (BotScheduler.terminal result) (fst created)).
    split; [exact Hout|].
    assert (Hlogs : forall d, Storage.tradeLogs
                      match Storage.getBotStatus userId (Storage.network config) d with
                      | Some botStatus =>
                          snd (Storage.updateBotStatus userId (Storage.network config)
                                 (BotScheduler.advance (Storage.now d) config result botStatus) d)
                      | None => d
                      end = Storage.tradeLogs d).
    { intros d. now destruct (Storage.getBotStatus _ _ d). }
    rewrite Hlogs. split; [|reflexivity].
    unfold Storage.updateTradeLog. cbn [snd Storage.tradeLogs Storage.withLogs].
    unfold created, Storage.createTradeLog.
    cbn [snd fst Storage.tradeLogs Storage.withLogs Storage.l_id Storage.setLog].
    rewrite map_app. cbn [map Storage.l_id]. now rewrite eqs_refl.
  - reflexivity.
  - intros updates status before Hstatus. unfold Storage.setLog. cbn. now rewrite Hstatus.
Qed.

(** C7 as it is stated fails: [updateTradeLog] does not refuse a row that
    is terminal.  A row that was set to success is set to failed by a second
    call, and keeps the transaction hash of the first. *)
Lemma terminal_log_overwritten :
  let created := Storage.createTradeLog Scenario.pendingLog Storage.emptyDb in
  let id := Storage.l_id (fst created) in
  let once := Storage.updateTradeLog id Scenario.succeeded (snd created) in
  let twice := Storage.updateTradeLog id Scenario.failed (snd once) in
  Storage.l_status (fst created) = "pending"
  /\ (exists l, fst once = Some l /\ Storage.l_status l = "success")
  /\ (exists l, fst twice = Some l
                /\ Storage.l_status l = "failed"
                /\ Storage.l_txHash l = Some "0xabc"
                /\ Storage.l_errorMessage l = Some "connection lost")
  /\ Storage.tradeLogs (snd twice) <> Storage.tradeLogs (snd once).
Proof.
  vm_compute. split; [reflexivity|]. split; [eexists; split; reflexivity|].
  split; [eexists; repeat split|]. discriminate.
Qed.

(** C3, as the code has it.  The firing of a key that has a task begins
    an execution of the tick (a new pending log, an execution more under way)
    whatever executions are still under way: nothing is skipped and nothing is
    queued; the firing of a key without a task does nothing.  [stopBot] leaves
    no task at the key, and [startBot] leaves the one task of the new
    config. *)
Theorem firing_always_starts_execution {W} (env : TradingService.Env W) tradingService
        (rt : BotScheduler.Runtime (W := W)) (botKey : string) :
  let rt' := BotScheduler.step env tradingService (BotScheduler.Fire botKey) rt in
  match BotScheduler.scheduledTasks (BotScheduler.system rt) !! botKey with
  | Some task =>
      exists log,
        BotScheduler.running rt'
        = BotScheduler.running rt
          ++ [{| BotScheduler.e_userId := BotScheduler.t_userId task;
                 BotScheduler.e_config := BotScheduler.t_config task;
                 BotScheduler.e_tradeLog := log |}]
        /\ Storage.l_status log = "pending"
        /\ Storage.tradeLogs (BotScheduler.db (BotScheduler.system rt'))
           = Storage.tradeLogs (BotScheduler.db (BotScheduler.system rt)) ++ [log]
        /\ BotScheduler.scheduledTasks (BotScheduler.system rt')
           = BotScheduler.scheduledTasks (BotScheduler.system rt)
  | None => rt' = rt
  end
  /\ (forall userId network (s : BotScheduler.System W),
         BotScheduler.scheduledTasks (world (BotScheduler.stopBot userId network s))
           !! BotScheduler.getBotKey userId network = None)
  /\ (forall userId config cronExpression (s : BotScheduler.System W),
         BotScheduler.intervalMap (Storage.tradeInterval config) = Some cronExpression ->
         BotScheduler.scheduledTasks (world (BotScheduler.startBot userId config s))
           !! BotScheduler.getBotKey userId (Storage.network config)
         = Some {| BotScheduler.cronExpression := cronExpression;
                   BotScheduler.t_userId := userId;
                   BotScheduler.t_config := config |}).
Proof.
  intros rt'. split; [|split].
  - subst rt'. unfold BotScheduler.step.
    destruct (BotScheduler.scheduledTasks (BotScheduler.system rt) !! botKey) as [task|];
      [|reflexivity].
    eexists. repeat split.
  - intros userId network s. unfold BotScheduler.stopBot, BotScheduler.onTasks.
    cbn [world BotScheduler.scheduledTasks].
    destruct (BotScheduler.scheduledTasks s !! BotScheduler.getBotKey userId network) eqn:Hk.
    + apply lookup_delete_eq.
    + exact Hk.
  - intros userId config cronExpression s Hcron. unfold BotScheduler.startBot.
    rewrite Hcron.
    unfold bind, BotScheduler.stopBot, BotScheduler.onTasks, BotScheduler.readDb,
      BotScheduler.onDb, ret.
    cbn [outcome world events BotScheduler.scheduledTasks].
    apply lookup_insert_eq.
Qed.

(** C3 as it is stated fails: the bot of alice on BASE is started and its
    task fires twice before the first tick has returned.  Two executions of
    the one key are under way at once, and both trades are submitted. *)
Lemma two_ticks_overlap :
  let key := BotScheduler.getBotKey "alice" "BASE" in
  let fired := Scenario.run [BotScheduler.Start "alice" Scenario.bot;
                             BotScheduler.Fire key; BotScheduler.Fire key]
                            (Scenario.boot Scenario.calm) in
  let settled := Scenario.run [BotScheduler.Settle 0; BotScheduler.Settle 0] fired in
  List.length (BotScheduler.runningFor "alice" "BASE" fired) = 2%nat
  /\ map (fun l => (Storage.l_status l, Storage.l_txHash l))
         (Storage.tradeLogs (BotScheduler.db (BotScheduler.system settled)))
     = [("success", Some "0xv2"); ("success", Some "0xv2")]
  /\ Scenario.submitted (BotScheduler.ext (BotScheduler.system settled)) = 2%nat.
Proof. vm_compute. repeat split. Qed.

(** * Further properties

    ** The waits of the retry engine *)

Section RetryWaits.
Context {W T : Type}.
Variable fn : M W T.
Variable opts : Retry.Profile.
(** The wrapped operation neither retries nor waits by itself. *)
Hypothesis leaf : forall w, Retry.attempts (events (fn w)) = 0%nat.
Hypothesis awake : forall w, Retry.sleeps (events (fn w)) = [].

Lemma sleeps_app evs evs' : Retry.sleeps (evs ++ evs') = Retry.sleeps evs ++ Retry.sleeps evs'.
Proof. unfold Retry.sleeps. now rewrite flat_map_app. Qed.

(** One wait before every call but the first, each taken from [delayMs]. *)
Lemma loop_sleeps left :
  forall attempt delayMs w,
    let r := Retry.loop fn opts left attempt delayMs w in
    Retry.sleeps (events r) = Retry.delays opts delayMs (Retry.attempts (events r) - 1).
Proof.
  induction left as [|left IH]; intros attempt delayMs w r; subst r;
    rewrite loop_step; destruct (outcome (fn w)) as [v|e];
    try (destruct (_ || _));
    try (cbn [events]; rewrite attempts_attempt, leaf;
         change (Attempt :: events (fn w)) with ([Attempt] ++ events (fn w));
         rewrite sleeps_app, awake; reflexivity).
  cbv zeta. cbn [events].
  change (Attempt :: events (fn w) ++ ?l) with ([Attempt] ++ events (fn w) ++ l).
  rewrite attempts_app, attempts_app, leaf, attempts_sleep.
  rewrite sleeps_app, sleeps_app, awake.
  change (Retry.sleeps (Sleep delayMs :: ?l)) with (delayMs :: Retry.sleeps l).
  rewrite IH.
  set (r' := Retry.loop _ _ _ _ _ _).
  assert (Hpos : (1 <= Retry.attempts (events r'))%nat).
  { subst r'. destruct left; rewrite loop_step; destruct (outcome (fn _));
      try (destruct (_ || _)); cbn [events]; cbv zeta; cbn [events];
      rewrite attempts_attempt; lia. }
  simpl. destruct (Retry.attempts (events r')) as [|n]; [lia|].
  simpl. now rewrite Nat.sub_0_r.
Qed.

End RetryWaits.

(** The values of [delayMs]: the initial delay times a power of the
    multiplier, capped. *)
Lemma delays_nth (opts : Retry.Profile) :
  (1 <= Retry.p_backoffMultiplier opts)%Q ->
  (0 <= Retry.p_maxDelayMs opts)%Q ->
  forall n delayMs i ms,
    (delayMs <= Retry.p_maxDelayMs opts)%Q ->
    Retry.delays opts delayMs n !! i = Some ms ->
    (ms == Qmin (delayMs * Retry.p_backoffMultiplier opts ^ Z.of_nat i)
                (Retry.p_maxDelayMs opts))%Q.
Proof.
  set (m := Retry.p_backoffMultiplier opts). set (cap := Retry.p_maxDelayMs opts).
  intros Hm Hcap n. induction n as [|n IH]; intros d i ms Hd Hlook; [discriminate|].
  destruct i as [|i]; simpl in Hlook.
  - injection Hlook as <-. fold m cap. simpl. rewrite Qmult_1_r. symmetry. now apply Q.min_l.
  - fold m cap in Hlook. apply IH in Hlook; [|apply Q.le_min_r].
    rewrite Hlook. clear Hlook IH.
    assert (Hpow : (1 <= m ^ Z.of_nat i)%Q) by (apply Qpower_1_le; [exact Hm | lia]).
    assert (Hsucc : (m ^ Z.of_nat (S i) == m * m ^ Z.of_nat i)%Q).
    { rewrite Nat2Z.inj_succ. unfold Z.succ. rewrite Z.add_comm.
      rewrite Qpower_plus'; [|lia]. now rewrite Qpower_1_r. }
    rewrite Hsucc.
    destruct (Q.min_spec (d * m) cap) as [[Hlt Heq] | [Hge Heq]]; rewrite Heq.
    + now rewrite Qmult_assoc.
    + assert (Hbase : (0 <= d * m)%Q) by (apply Qle_trans with cap; assumption).
      assert (Hfar : (cap <= d * (m * m ^ Z.of_nat i))%Q).
      { rewrite Qmult_assoc. apply Qle_trans with (d * m)%Q; [exact Hge|].
        rewrite <- (Qmult_1_l (d * m)) at 1. rewrite (Qmult_comm (d * m)).
        now apply Qmult_le_compat_r. }
      assert (Hnear : (cap <= cap * m ^ Z.of_nat i)%Q).
      { rewrite <- (Qmult_1_l cap) at 1. rewrite (Qmult_comm cap).
        now apply Qmult_le_compat_r. }
      rewrite (Q.min_r _ _ Hnear). symmetry. now apply Q.min_r.
Qed.

Lemma delays_length opts n : forall delayMs, List.length (Retry.delays opts delayMs n) = n.
Proof. induction n as [|n IH]; intros d; simpl; [reflexivity | now rewrite IH]. Qed.

(** X1. [retryWithBackoff] waits once before every call but the first and
    never after the last one.  With a multiplier of at least 1 and an initial
    delay between 0 and the cap, the wait before the call number [i + 2] is
    [initialDelayMs * backoffMultiplier ^ i], capped at [maxDelayMs]. *)
Theorem retry_waits_between_calls {W T} (fn : M W T) (options : Retry.RetryOptions) (w : W)
        (leaf : forall w', Retry.attempts (events (fn w')) = 0%nat)
        (awake : forall w', Retry.sleeps (events (fn w')) = []) :
  let opts := Retry.resolve options in
  let r := Retry.retryWithBackoff fn options w in
  (1 <= Retry.p_backoffMultiplier opts)%Q ->
  (0 <= Retry.p_initialDelayMs opts)%Q ->
  (Retry.p_initialDelayMs opts <= Retry.p_maxDelayMs opts)%Q ->
  S (List.length (Retry.sleeps (events r))) = Retry.attempts (events r)
  /\ forall i ms,
      Retry.sleeps (events r) !! i = Some ms ->
      (ms == Qmin (Retry.p_initialDelayMs opts * Retry.p_backoffMultiplier opts ^ Z.of_nat i)
                  (Retry.p_maxDelayMs opts))%Q
      /\ (ms <= Retry.p_maxDelayMs opts)%Q.
Proof.
  intros opts r Hm Hinit Hcap.
  assert (Hcalls : (1 <= Retry.attempts (events r))%nat).
  { destruct (loop_calls fn opts leaf (Retry.p_maxRetries opts) 0
                (Retry.p_initialDelayMs opts) w eq_refl) as (n & Hn & Hatt & _).
    unfold r, Retry.retryWithBackoff. fold opts. rewrite Hatt. lia. }
  assert (Hsleeps := loop_sleeps fn opts leaf awake (Retry.p_maxRetries opts) 0
                       (Retry.p_initialDelayMs opts) w).
  cbv zeta in Hsleeps. change (Retry.loop _ _ _ _ _ _) with r in Hsleeps.
  split.
  - rewrite Hsleeps, delays_length. lia.
  - intros i ms Hlook. rewrite Hsleeps in Hlook.
    assert (Heq := delays_nth opts Hm (Qle_trans _ _ _ Hinit Hcap) _ _ _ _ Hcap Hlook).
    split; [exact Heq|]. rewrite Heq. apply Q.le_min_r.
Qed.

(** An operation that answers "HTTP 429" twice and then 7, on the default
    profile: the waits are 1000 and 2000 ms. *)
Lemma retry_waits_between_calls_witness :
  let fn := Retry.flaky 2 Scenario.http429 7%nat in
  let r := Retry.retryWithBackoff fn Retry.noOptions 0%nat in
  Retry.sleeps (events r) = [1000; 2000]%Q
  /\ S (List.length (Retry.sleeps (events r))) = Retry.attempts (events r)
  /\ forall i ms,
      Retry.sleeps (events r) !! i = Some ms ->
      (ms == Qmin (1000 * 2 ^ Z.of_nat i) 10000)%Q /\ (ms <= 10000)%Q.
Proof.
  intros fn r. split; [reflexivity|].
  apply (retry_waits_between_calls fn Retry.noOptions 0%nat).
  - intros w'. reflexivity.
  - intros w'. reflexivity.
  - vm_compute. discriminate.
  - vm_compute. discriminate.
  - vm_compute. discriminate.
Defined.

(** X2. For any options, [retryWithBackoff] calls the operation at least
    once and at most [maxRetries + 1] times, where [maxRetries] is the value
    given in the options, or else 5 for the network BASE and 3 for any other.
    It stops at the first call that returns or throws an error that is not
    retryable, or at call number [maxRetries + 1], and its result is the result
    of that call. *)
Theorem retry_budget {W T} (fn : M W T) (options : Retry.RetryOptions) (w : W)
        (leaf : forall w', Retry.attempts (events (fn w')) = 0%nat) :
  let opts := Retry.resolve options in
  let r := Retry.retryWithBackoff fn options w in
  let budget := Retry.p_maxRetries opts in
  budget = default (if bool_decide (Retry.network options = Some "BASE") then 5%nat else 3%nat)
                   (Retry.maxRetries options)
  /\ (1 <= Retry.attempts (events r) <= S budget)%nat
  /\ forall k,
      (k <= budget)%nat ->
      (forall i, (i < k)%nat -> Retry.failsRetryably fn opts w i) ->
      Retry.decisive opts (Retry.nthOutcome fn w k) \/ k = budget ->
      outcome r = Retry.nthOutcome fn w k
      /\ world r = Retry.nthWorld fn w (S k)
      /\ Retry.attempts (events r) = S k.
Proof.
  intros opts r budget. split; [|split].
  - unfold budget, opts, Retry.resolve, Retry.spread. cbn [Retry.p_maxRetries].
    destruct (Retry.network options) as [n|]; [|now destruct (Retry.maxRetries options)].
    destruct (String.eqb_spec n "BASE") as [-> | Hne].
    + rewrite bool_decide_eq_true_2 by reflexivity. now destruct (Retry.maxRetries options).
    + rewrite bool_decide_eq_false_2 by congruence. now destruct (Retry.maxRetries options).
  - destruct (loop_calls fn opts leaf budget 0 (Retry.p_initialDelayMs opts) w eq_refl)
      as (n & Hn & Hatt & _).
    unfold r, Retry.retryWithBackoff. fold opts budget. rewrite Hatt. lia.
  - intros k Hk Hbefore Hstop.
    exact (loop_stops fn opts leaf budget 0 (Retry.p_initialDelayMs opts) w k eq_refl
             Hk Hbefore Hstop).
Qed.

(** On BASE an operation that answers "HTTP 429" five times and then 7 is
    called six times. *)
Lemma retry_budget_witness :
  let fn := Retry.flaky 5 Scenario.http429 7%nat in
  let r := Retry.retryWithBackoff fn (Retry.forNetwork "BASE") 0%nat in
  outcome r = Returned 7%nat /\ Retry.attempts (events r) = 6%nat.
Proof.
  intros fn r.
  assert (leaf : forall w, Retry.attempts (events (fn w)) = 0%nat) by (intros; reflexivity).
  destruct (retry_budget fn (Retry.forNetwork "BASE") 0%nat leaf) as (_ & _ & Hstop).
  destruct (Hstop 5%nat) as (Hout & _ & Hcalls).
  - vm_compute. lia.
  - intros i Hi. exists Scenario.http429. split; [|reflexivity].
    destruct i as [|[|[|[|[|i]]]]]; try reflexivity. lia.
  - left. exact I.
  - split; [exact Hout | exact Hcalls].
Defined.

(** ** The trading service: configuration and validation *)

Section AvailabilityFacts.
Import Schema Dex.

Lemma setIf_lookup key url m k :
  TradingService.setIf key url m !! k =
  if decide (k = key)
  then match url with Some u => Some {| rpcUrl := u |} | None => m !! k end
  else m !! k.
Proof.
  unfold TradingService.setIf. destruct url as [u|]; destruct (decide (k = key)) as [-> | Hne];
    try reflexivity.
  - apply lookup_insert_eq.
  - now apply lookup_insert_ne.
Qed.

Lemma envSet_Some penv key :
  is_Some (TradingService.envSet penv key) <-> exists v, penv !! key = Some v /\ v <> "".
Proof.
  unfold TradingService.envSet, Js.truthy. destruct (penv !! key) as [v|].
  - destruct (String.eqb_spec v "") as [-> | Hne]; simpl.
    + split; [intros [? H]; discriminate | intros (v & Hv & Hne); congruence].
    + split; [intros _; eauto | intros _; eauto].
  - split; [intros [? H]; discriminate | intros (v & Hv & _); discriminate].
Qed.

Lemma truthyOpt_Some (o : option string) :
  Js.truthyOpt o = true <-> exists v, o = Some v /\ v <> "".
Proof.
  unfold Js.truthyOpt, Js.truthy. destruct o as [v|].
  - destruct (String.eqb_spec v "") as [-> | Hne]; simpl.
    + split; [discriminate | intros (v & Hv & Hne); congruence].
    + split; [eauto | reflexivity].
  - split; [discriminate | intros (v & Hv & _); discriminate].
Qed.

End AvailabilityFacts.

(** X3. The service built from the environment treats a network as
    available exactly when both [RPC_URL_<network>] and
    [PRIVATE_KEY_<network>] are set to non-empty strings. *)
Theorem network_available_iff_configured {W} (env : TradingService.Env W) (n : Schema.NetworkType) :
  let penv := TradingService.process_env env in
  TradingService.isNetworkAvailable env (TradingService.constructor penv) n = true
  <-> (exists url, penv !! ("RPC_URL_" ++ Schema.networkName n)%string = Some url /\ url <> "")
      /\ (exists key, penv !! ("PRIVATE_KEY_" ++ Schema.networkName n)%string = Some key
                       /\ key <> "").
Proof.
  intros penv. unfold TradingService.isNetworkAvailable, TradingService.getPrivateKey.
  fold penv. rewrite <- envSet_Some.
  destruct n; cbn [TradingService.constructor TradingService.web3Instances
                   TradingService.solanaConnection Schema.networkName];
    rewrite andb_true_iff, bool_decide_eq_true, truthyOpt_Some;
    repeat (rewrite setIf_lookup; case_decide; try congruence);
    cbv [String.append];
    match goal with |- context [TradingService.envSet penv ?k] =>
      destruct (TradingService.envSet penv k) end;
    rewrite ?lookup_empty;
    split; intros [Hfst Hsnd]; (split; [|]); try assumption; eauto;
    try (destruct Hfst; discriminate); try (destruct Hsnd; discriminate).
Qed.

(** X4. No string is a well-formed token address both for an EVM network and
    for Solana: an address that passes the check of ETH, BASE or BNB fails the
    check of SOL (and so the other way round). *)
Theorem address_formats_disjoint (n : Schema.NetworkType) (address : string) :
  Schema.isEvm n = true ->
  TradingService.isValidTokenAddress n address = true ->
  TradingService.isValidTokenAddress Schema.SOL address = false.
Proof.
  intros Hevm Hvalid.
  assert (Hprefix : String.prefix "0x" address = true).
  { destruct n; try discriminate; simpl in Hvalid;
      apply andb_true_iff in Hvalid as [Hvalid _];
      apply andb_true_iff in Hvalid as [Hvalid _]; exact Hvalid. }
  destruct address as [|c address]; [discriminate|].
  cbv [String.prefix] in Hprefix.
  destruct (Ascii.ascii_dec "0" c) as [<- | Hne]; [|discriminate].
  reflexivity.
Qed.

Lemma address_formats_disjoint_witness :
  TradingService.isValidTokenAddress Schema.BASE Scenario.token = true
  /\ TradingService.isValidTokenAddress Schema.SOL Scenario.token = false.
Proof.
  split; [reflexivity|].
  apply (address_formats_disjoint Schema.BASE); reflexivity.
Defined.

(** X5. A trade on a network that is not available, or for an address that
    is not well formed for its network, is refused before anything is asked
    of the outside world: the result is a failure, there is no event (no price
    request, no node call, no adapter call) and the world is as it was. *)
Theorem refused_before_any_call {W} (env : TradingService.Env W) this params (w : W) :
  let n := TradingService.network params in
  let r := TradingService.executeTrade env this params w in
  TradingService.isNetworkAvailable env this n = false
  \/ TradingService.isValidTokenAddress n (TradingService.tokenAddress params) = false ->
  (exists result,
      outcome r = Returned result
      /\ Dex.success result = false
      /\ Dex.txHash result = None
      /\ Dex.errorMessage result
         = Some (if TradingService.isNetworkAvailable env this n
                 then "Invalid token address format for " ++ Schema.networkName n ++ " network"
                 else "Network " ++ Schema.networkName n
                      ++ " not configured. Please add RPC_URL_" ++ Schema.networkName n
                      ++ " and PRIVATE_KEY_" ++ Schema.networkName n
                      ++ " to environment.")%string)
  /\ events r = []
  /\ world r = w.
Proof.
  intros n r Hrefused. subst r. unfold TradingService.executeTrade. fold n.
  destruct (TradingService.isNetworkAvailable env this n); simpl.
  - destruct Hrefused as [Hrefused | Hrefused]; [discriminate|]. rewrite Hrefused. simpl.
    split; [eexists; repeat split | split; reflexivity].
  - split; [eexists; repeat split | split; reflexivity].
Qed.

(** An address of Solana on BASE. *)
Lemma refused_before_any_call_witness :
  let params := Scenario.manual Schema.BASE (Some "auto") Scenario.mint 50 1 (1 # 2) in
  let r := Scenario.executeTrade params Scenario.calm in
  outcome r = Returned (Dex.failure "Invalid token address format for BASE network")
  /\ events r = [] /\ world r = Scenario.calm.
Proof.
  intros params r.
  destruct (refused_before_any_call Scenario.env Scenario.tradingService params Scenario.calm)
    as ((result & Hout & _) & Hev & Hw).
  - right. reflexivity.
  - split; [|split; assumption]. reflexivity.
Defined.

(** X6. [dexVersion] matters on ETH and BASE only: on BNB and on SOL a trade
    runs the same whatever the version asked for, 'v4' included. *)
Theorem dex_version_ignored_off_uniswap {W} (env : TradingService.Env W) this params
        (version : option string) (w : W) :
  TradingService.network params = Schema.BNB \/ TradingService.network params = Schema.SOL ->
  TradingService.executeTrade env this (TradingService.withDexVersion params version) w
  = TradingService.executeTrade env this params w.
Proof.
  intros Hn. unfold TradingService.executeTrade, TradingService.executeEVMTrade,
    TradingService.executeSolanaTrade, TradingService.route, TradingService.gasTooHigh,
    TradingService.evmParams.
  cbn [TradingService.withDexVersion TradingService.network TradingService.tokenAddress
       TradingService.amountUsd TradingService.slippageTolerance TradingService.maxGasRatio
       TradingService.dexVersion].
  destruct Hn as [Hn | Hn]; rewrite Hn; reflexivity.
Qed.

(** 'v4' on BNB: the PancakeSwap adapter is called all the same. *)
Lemma dex_version_ignored_off_uniswap_witness :
  let params := Scenario.manual Schema.BNB None Scenario.token 50 1 (1 # 2) in
  let r := Scenario.executeTrade (TradingService.withDexVersion params (Some "v4")) Scenario.calm in
  r = Scenario.executeTrade params Scenario.calm
  /\ outcome r = Returned Scenario.swapped.
Proof.
  intros params r. split.
  - apply (dex_version_ignored_off_uniswap Scenario.env Scenario.tradingService params).
    left. reflexivity.
  - vm_compute. reflexivity.
Defined.

(** ** Uniswap V3 on a network without addresses *)

Lemma v3_not_configured {W} (rpc : Chain.Rpc W) p w :
  Dex.network p <> Schema.BASE ->
  UniswapV3.executeSwap rpc p w
  = MkRun (Returned (Dex.failure ("Uniswap V3 not configured for network "
                                  ++ Schema.networkName (Dex.network p))))
          w [].
Proof.
  intros Hn. unfold UniswapV3.executeSwap.
  destruct (Dex.network p); try congruence; reflexivity.
Qed.

(** X7. Uniswap V3 has its router, quoter and WETH addresses for BASE only.
    With the V3 adapter of the repository, a trade on ETH that reaches the
    routing with any [dexVersion] other than 'v2' and 'v4' ('v3', 'auto',
    none) calls the V3 adapter alone and fails with its not-configured message:
    nothing is asked of the node by the adapter, and the V2 adapter is not
    tried, since the message is not the no-pool message. *)
Theorem eth_v3_not_configured {W} (env : TradingService.Env W) this params w
        web3 privateKey walletAddress gasEstimate :
  let n := TradingService.network params in
  let answer := TradingService.fetchPriceFromAPI env (PriceService.COIN_GECKO_IDS n) w in
  let nativeTokenPriceUsd := PriceService.settle n (fst answer) in
  let g := TradingService.estimateGas env this n (TradingService.amountUsd params)
                                      (snd answer) in
  let p := TradingService.evmParams params web3
             (TradingService.amountUsd params / nativeTokenPriceUsd)%Q
             walletAddress privateKey nativeTokenPriceUsd in
  let r := TradingService.executeTrade env this params w in
  TradingService.uniswapV3Client env = UniswapV3.executeSwap (TradingService.rpc env) ->
  n = Schema.ETH ->
  TradingService.web3Instances this !! Schema.networkName n = Some web3 ->
  TradingService.getPrivateKey env n = Some privateKey ->
  Js.truthy privateKey = true ->
  TradingService.isValidTokenAddress n (TradingService.tokenAddress params) = true ->
  TradingService.privateKeyToAccount env privateKey = Returned walletAddress ->
  outcome g = Returned gasEstimate ->
  (snd gasEstimate <= TradingService.maxGasRatio params)%Q ->
  TradingService.dexVersion params <> Some "v2" ->
  TradingService.dexVersion params <> Some "v4" ->
  outcome r = Returned (Dex.failure "Uniswap V3 not configured for network ETH")
  /\ events r = [GasPriceQuery Schema.ETH; InvokeEvm Dex.UniswapV3 p]
  /\ world r = world g.
Proof.
  intros n answer nativeTokenPriceUsd g p r
         Hreal Hn Hweb3 Hkey Htruthy Hvalid Hacct Hg Hle Hv2 Hv4.
  assert (Hevm : Schema.isEvm n = true) by (rewrite Hn; reflexivity).
  assert (Hrun := evm_trade_routed env this params w web3 privateKey walletAddress gasEstimate
                    Hevm Hweb3 Hkey Htruthy Hvalid Hacct Hg Hle).
  fold n answer nativeTokenPriceUsd g p r in Hrun. cbv zeta in Hrun.
  fold n answer nativeTokenPriceUsd g p r in Hrun.
  assert (Hp : Dex.network p = Schema.ETH) by exact Hn.
  assert (Hv3 : forall w', TradingService.uniswapV3Client env p w'
                           = MkRun (Returned (Dex.failure
                                                "Uniswap V3 not configured for network ETH"))
                                   w' []).
  { intros w'. rewrite Hreal, v3_not_configured by (rewrite Hp; discriminate).
    now rewrite Hp. }
  assert (Hroute : TradingService.route env params p (world g)
                   = MkRun (Returned (Dex.failure "Uniswap V3 not configured for network ETH"))
                           (world g) [InvokeEvm Dex.UniswapV3 p]).
  { unfold TradingService.route. fold n. rewrite Hn.
    rewrite (bool_decide_eq_false_2 _ Hv4), (bool_decide_eq_false_2 _ Hv2).
    unfold bind. rewrite invoke_run, Hv3. cbn [outcome world events Dex.success Dex.failure].
    destruct (bool_decide (TradingService.dexVersion params = Some "v3")); [reflexivity|].
    cbn [orb]. replace (TradingService.isNoV3Pool _) with false by reflexivity.
    rewrite andb_false_r. reflexivity. }
  rewrite Hrun, Hroute, Hn. cbn [outcome world events]. repeat split.
Qed.

(** 50 USD on ETH in 'auto' mode, gas at 10 gwei. *)
Lemma eth_v3_not_configured_witness :
  let params := Scenario.manual Schema.ETH (Some "auto") Scenario.token 50 1 (1 # 2) in
  let r := Scenario.executeTrade params Scenario.calm in
  outcome r = Returned (Dex.failure "Uniswap V3 not configured for network ETH")
  /\ events r
     = [GasPriceQuery Schema.ETH;
        InvokeEvm Dex.UniswapV3
          (TradingService.evmParams params {| Dex.rpcUrl := "https://eth.example" |}
                                    (50 / 2000)%Q "0xWallet" "0xkey" 2000)].
Proof.
  intros params r.
  destruct (eth_v3_not_configured Scenario.env Scenario.tradingService params Scenario.calm
              {| Dex.rpcUrl := "https://eth.example" |} "0xkey" "0xWallet"
              (Js.parseFloat (Chain.fromWei (10000000000 * 200000)) * 2000,
               Js.parseFloat (Chain.fromWei (10000000000 * 200000)) * 2000 / 50)%Q)
    as (Hout & Hev & _).
  - reflexivity.
  - reflexivity.
  - vm_compute. reflexivity.
  - vm_compute. reflexivity.
  - reflexivity.
  - vm_compute. reflexivity.
  - reflexivity.
  - vm_compute. reflexivity.
  - vm_compute. discriminate.
  - discriminate.
  - discriminate.
  - split; [exact Hout | exact Hev].
Defined.

(** ** The swap that Uniswap V3 sends *)

Section SlippageFacts.


Import Schema Dex Chain UniswapV3.
Context {W : Type}.
Variable rpc : Rpc W.



End SlippageFacts.



(** ** The results of the adapters *)

Section ResultFacts.
Import Dex Adapters.
Context {W : Type}.

Lemma conclusive_failure msg : conclusive (failure msg).
Proof. split; [eexists; reflexivity | reflexivity]. Qed.

Lemma returns_throw {A} e (P : A -> Prop) : returns (W := W) (throw e) P.
Proof. intros w a H. discriminate. Qed.

(** A [try] whose handler returns a failure returns, and what it returns is
    conclusive when what its body returns is. *)
Lemma guarded_conclusive (m : M W TradeResult) (describe : Js.Error -> string) w :
  returns m conclusive ->
  exists result,
    outcome (tryCatch m (fun error => ret (failure (describe error))) w) = Returned result
    /\ conclusive result.
Proof.
  intros Hm.
  destruct (tryCatch_total m (fun error => failure (describe error)) w) as (result & Hout).
  exists result. split; [exact Hout|].
  eapply (returns_tryCatch m _ conclusive Hm); [|exact Hout].
  intros e. apply returns_ret, conclusive_failure.
Qed.

Lemma v2_swap_conclusive (rpc : Chain.Rpc W) (router : RouterV2.Router W)
      retryNetwork p routerAddress path tokenDecimals amountInWei q :
  returns (RouterV2.swap rpc router retryNetwork p routerAddress path tokenDecimals
                         amountInWei q) conclusive.
Proof.
  intros w a. unfold RouterV2.swap. cbv beta zeta.
  generalize (RouterV2.dateNow router w). intros now. revert w a.
  match goal with
  | |- forall w a, outcome (?m w) = Returned a -> _ => change (returns m conclusive)
  end.
  repeat (apply returns_bind; intros ?).
  apply returns_ret. split; [eexists; reflexivity | reflexivity].
Qed.

Lemma v3_swap_conclusive (rpc : Chain.Rpc W)
      p routerAddress wethAddress tokenDecimals amountInWei best q :
  returns (UniswapV3.swap rpc p routerAddress wethAddress tokenDecimals amountInWei best q)
          conclusive.
Proof.
  unfold UniswapV3.swap. cbv zeta.
  repeat (apply returns_bind; intros ?).
  apply returns_ret. split; [eexists; reflexivity | reflexivity].
Qed.

Lemma uniswapV2_conclusive (rpc : Chain.Rpc W) (router : RouterV2.Router W) p w :
  exists result,
    outcome (UniswapV2.executeSwap rpc router p w) = Returned result /\ conclusive result.
Proof.
  unfold UniswapV2.executeSwap. apply guarded_conclusive.
  destruct (network p); cbn [UniswapV2.ROUTER_ADDRESSES UniswapV2.WETH_ADDRESSES];
    try (apply returns_ret, conclusive_failure);
  cbv zeta; apply returns_bind; (intros [tokenDecimals|];
    [|apply returns_ret, conclusive_failure]);
  apply returns_bind; intros amountInWei;
  apply returns_bind; (intros [amounts|]; [|apply returns_ret, conclusive_failure]);
  (destruct (amounts !! 1%nat) as [q|]; [|apply returns_ret, conclusive_failure]);
  (destruct (N.eqb q 0); [apply returns_ret, conclusive_failure|]);
  apply v2_swap_conclusive.
Qed.

Lemma pancakeswap_conclusive (rpc : Chain.Rpc W) (router : RouterV2.Router W) p w :
  exists result,
    outcome (PancakeSwap.executeSwap rpc router p w) = Returned result /\ conclusive result.
Proof.
  unfold PancakeSwap.executeSwap. apply guarded_conclusive.
  apply returns_bind. intros tokenDecimals.
  apply returns_bind. intros amountInWei. cbv zeta.
  apply returns_bind. intros amounts.
  destruct (amounts !! 1%nat) as [q|]; [apply v2_swap_conclusive | apply returns_throw].
Qed.

Lemma uniswapV3_conclusive (rpc : Chain.Rpc W) p w :
  exists result,
    outcome (UniswapV3.executeSwap rpc p w) = Returned result /\ conclusive result.
Proof.
  unfold UniswapV3.executeSwap. apply guarded_conclusive.
  destruct (network p);
    cbn [UniswapV3.ROUTER_ADDRESSES UniswapV3.QUOTER_ADDRESSES UniswapV3.WETH_ADDRESSES];
    try (apply returns_ret, conclusive_failure).
  apply returns_bind. intros [tokenDecimals|]; [|apply returns_ret, conclusive_failure].
  apply returns_bind. intros amountInWei.
  apply returns_bind. intros best.
  destruct (UniswapV3.bestQuote best) as [q|]; [|apply returns_ret, conclusive_failure].
  destruct (N.eqb q 0); [apply returns_ret, conclusive_failure|].
  apply v3_swap_conclusive.
Qed.

Lemma jupiter_conclusive (api : Jupiter.Api W) p w :
  exists result,
    outcome (Jupiter.executeSwap api p w) = Returned result /\ conclusive result.
Proof.
  unfold Jupiter.executeSwap. apply guarded_conclusive. cbv zeta.
  apply returns_bind. intros [quote|]; [|apply returns_ret, conclusive_failure].
  repeat (apply returns_bind; intros ?).
  apply returns_ret. split; [eexists; reflexivity | reflexivity].
Qed.

End ResultFacts.

(** X9. Each of the four adapters (Uniswap V2, Uniswap V3, PancakeSwap,
    Jupiter) always returns a result and never throws, whatever the node, the
    router and the Jupiter API answer or throw; a result with [success] names
    its transaction and has no error message, and a result without has an
    error message and names no transaction. *)
Theorem adapters_always_conclude {W} (rpc : Chain.Rpc W) (router : RouterV2.Router W)
        (api : Jupiter.Api W) (w : W) :
  (forall p, exists result,
        outcome (UniswapV2.executeSwap rpc router p w) = Returned result
        /\ Adapters.conclusive result)
  /\ (forall p, exists result,
        outcome (UniswapV3.executeSwap rpc p w) = Returned result
        /\ Adapters.conclusive result)
  /\ (forall p, exists result,
        outcome (PancakeSwap.executeSwap rpc router p w) = Returned result
        /\ Adapters.conclusive result)
  /\ (forall p, exists result,
        outcome (Jupiter.executeSwap api p w) = Returned result
        /\ Adapters.conclusive result).
Proof.
  split; [|split; [|split]]; intros p.
  - apply uniswapV2_conclusive.
  - apply uniswapV3_conclusive.
  - apply pancakeswap_conclusive.
  - apply jupiter_conclusive.
Qed.

Section TradeResultFacts.
Import Schema Dex Adapters.
Context {W : Type}.
Variable env : TradingService.Env W.
Variable this : TradingService.Service.
(** The four adapters return conclusive results. *)
Hypothesis adapters : forall a p, returns (TradingService.invoke env a p) conclusive.

Lemma returns_bind_with {A B} (m : M W A) (f : A -> M W B) (Q : A -> Prop) (P : B -> Prop) :
  returns m Q -> (forall a, Q a -> returns (f a) P) -> returns (bind m f) P.
Proof.
  intros Hm Hf w b. unfold bind. destruct (outcome (m w)) as [a|e] eqn:Hout; simpl.
  - apply (Hf a). now apply (Hm w).
  - discriminate.
Qed.

Lemma route_conclusive params p : returns (TradingService.route env params p) conclusive.
Proof.
  unfold TradingService.route.
  destruct (TradingService.network params); try apply adapters;
    (destruct (bool_decide _); [apply returns_ret, conclusive_failure|]);
    (destruct (bool_decide _); [apply adapters|]);
    cbv zeta; apply (returns_bind_with _ _ conclusive); try apply adapters;
    intros v3Result Hv3;
    (destruct (_ || _); [now apply returns_ret|]);
    (destruct (_ && _); [apply adapters | now apply returns_ret]).
Qed.

Lemma evm_trade_conclusive params :
  returns (TradingService.executeEVMTrade env this params) conclusive.
Proof.
  unfold TradingService.executeEVMTrade.
  destruct (_ !! _) as [web3|]; [|apply returns_ret, conclusive_failure].
  apply returns_tryCatch; [|intros e; apply returns_ret, conclusive_failure].
  destruct (TradingService.getPrivateKey env _) as [privateKey|];
    [|apply returns_ret, conclusive_failure].
  destruct (Js.truthy privateKey); [|apply returns_ret, conclusive_failure].
  apply returns_bind. intros walletAddress.
  apply returns_bind. intros nativeTokenPriceUsd. cbv zeta.
  apply returns_bind. intros gasEstimate.
  destruct (Js.gtb _ _); [|apply route_conclusive].
  apply returns_ret. split; [eexists; reflexivity | reflexivity].
Qed.

Lemma solana_trade_conclusive params :
  (forall p, returns (TradingService.jupiterClient env p) conclusive) ->
  returns (TradingService.executeSolanaTrade env this params) conclusive.
Proof.
  intros Hjupiter. unfold TradingService.executeSolanaTrade.
  destruct (TradingService.solanaConnection this) as [conn|];
    [|apply returns_ret, conclusive_failure].
  apply returns_tryCatch; [|intros e; apply returns_ret, conclusive_failure].
  destruct (TradingService.getPrivateKey env _) as [privateKey|];
    [|apply returns_ret, conclusive_failure].
  destruct (Js.truthy privateKey); [|apply returns_ret, conclusive_failure].
  apply returns_bind. intros walletAddress.
  apply returns_bind. intros solPriceUsd. cbv zeta.
  apply returns_bind. intros _. apply Hjupiter.
Qed.

Lemma trade_conclusive params w :
  (forall p, returns (TradingService.jupiterClient env p) conclusive) ->
  exists result,
    outcome (TradingService.executeTrade env this params w) = Returned result
    /\ conclusive result.
Proof.
  intros Hjupiter. unfold TradingService.executeTrade.
  apply (guarded_conclusive _
           (fun error => if Js.truthy (Js.message error) then Js.message error
                         else "Unknown error occurred during trade execution")).
  destruct (negb _); [apply returns_ret, conclusive_failure|].
  destruct (negb _); [apply returns_ret, conclusive_failure|].
  intros w' a. rewrite bind_ret_r. revert w' a.
  destruct (TradingService.network params);
    try apply evm_trade_conclusive. now apply solana_trade_conclusive.
Qed.

End TradeResultFacts.

(** X10. With the adapters of the repository in place, [executeTrade]
    always returns a result and never throws, on every network and for every
    input and answer of the outside world; the result either succeeded and
    names its transaction, or failed and carries an error message (also when
    the gas pre-check refuses the trade or an adapter or a key function
    throws). *)
Theorem trade_always_concludes {W} (env : TradingService.Env W) (router : RouterV2.Router W)
        (api : Jupiter.Api W) this params (w : W) :
  exists result,
    outcome (TradingService.executeTrade (Adapters.wire env router api) this params w)
    = Returned result
    /\ Adapters.conclusive result.
Proof.
  apply trade_conclusive.
  - intros a p w' result. rewrite invoke_run. cbv zeta. cbn [outcome].
    destruct a; cbn [Adapters.wire TradingService.uniswapClient TradingService.uniswapV3Client
                     TradingService.pancakeswapClient TradingService.rpc]; intros Hout.
    + destruct (uniswapV2_conclusive (TradingService.rpc env) router p w')
        as (r & Hr & Hc). congruence.
    + destruct (uniswapV3_conclusive (TradingService.rpc env) p w') as (r & Hr & Hc).
      congruence.
    + destruct (pancakeswap_conclusive (TradingService.rpc env) router p w')
        as (r & Hr & Hc). congruence.
  - intros p w' result Hout. cbn [Adapters.wire TradingService.jupiterClient] in Hout.
    destruct (jupiter_conclusive api p w') as (r & Hr & Hc). congruence.
Qed.

(** ** The log row of a tick *)

Section TickLogFacts.
Import Storage BotScheduler.

(** An update by an id that no row has changes no row. *)
Lemma setLog_fresh id updates (ls : list TradeLog) :
  (forall l, In l ls -> l_id l <> id) ->
  map (fun l => if eqs (l_id l) id then setLog updates l else l) ls = ls.
Proof.
  intros Hfresh. induction ls as [|l ls IH]; [reflexivity|].
  cbn [map]. rewrite IH by (intros l' Hl'; apply Hfresh; now right).
  destruct (eqs (l_id l) id) eqn:Heq; [|reflexivity].
  apply eqs_eq in Heq. exfalso. apply (Hfresh l); [now left | exact Heq].
Qed.

End TickLogFacts.

(** X11. With the adapters of the repository in place, a tick whose new
    log id is not in use appends exactly one row to the journal and changes no
    other row.  The row belongs to the user and the config of the tick, is of
    type automated, and is never left pending: either its status is success
    and it has a transaction hash and no error message, or its status is
    failed and it has an error message and no transaction hash. *)
Theorem tick_appends_one_conclusive_log {W} (env : TradingService.Env W)
        (router : RouterV2.Router W) (api : Jupiter.Api W) tradingService
        userId config (s : BotScheduler.System W) :
  let wired := Adapters.wire env router api in
  let s' := world (BotScheduler.executeTrade wired tradingService userId config s) in
  (forall l, In l (Storage.tradeLogs (BotScheduler.db s)) ->
             Storage.l_id l <> Storage.uuid (Storage.uuids (BotScheduler.db s))) ->
  exists log,
    Storage.tradeLogs (BotScheduler.db s') = Storage.tradeLogs (BotScheduler.db s) ++ [log]
    /\ Storage.l_id log = Storage.uuid (Storage.uuids (BotScheduler.db s))
    /\ Storage.l_userId log = userId
    /\ Storage.l_configId log = Some (Storage.id config)
    /\ Storage.l_tradeType log = "automated"
    /\ Storage.l_amountUsd log = Storage.tradeAmountUsd config
    /\ (Storage.l_status log = "success"
        /\ is_Some (Storage.l_txHash log) /\ Storage.l_errorMessage log = None
        \/ Storage.l_status log = "failed"
           /\ is_Some (Storage.l_errorMessage log) /\ Storage.l_txHash log = None).
Proof.
  intros wired s' Hfresh.
  assert (Hresult : exists result,
             outcome (BotScheduler.trade wired tradingService config (BotScheduler.ext s))
             = Returned result
             /\ Adapters.conclusive result).
  { unfold BotScheduler.trade. destruct (Schema.parseNetwork _) as [n|].
    - apply trade_always_concludes.
    - eexists. split; [reflexivity | apply conclusive_failure]. }
  destruct Hresult as (result & Hout & Hconclusive).
  pose proof (executeTrade_run wired tradingService userId config s result Hout) as Hrun.
  cbv zeta in Hrun. unfold s'. rewrite Hrun. cbn [world BotScheduler.db].
  set (created := Storage.createTradeLog _ (BotScheduler.db s)).
  exists (Storage.setLog (BotScheduler.terminal result) (fst created)).
  assert (Hlogs : forall d, Storage.tradeLogs
                    match Storage.getBotStatus userId (Storage.network config) d with
                    | Some botStatus =>
                        snd (Storage.updateBotStatus userId (Storage.network config)
                               (BotScheduler.advance (Storage.now d) config result botStatus) d)
                    | None => d
                    end = Storage.tradeLogs d).
  { intros d. now destruct (Storage.getBotStatus _ _ d). }
  rewrite Hlogs. split.
  - unfold Storage.updateTradeLog. cbn [snd Storage.tradeLogs Storage.withLogs].
    unfold created, Storage.createTradeLog.
    cbn [snd fst Storage.tradeLogs Storage.withLogs Storage.l_id Storage.setLog].
    rewrite map_app. cbn [map Storage.l_id]. rewrite eqs_refl.
    now rewrite (setLog_fresh _ _ _ Hfresh).
  - repeat (split; [reflexivity|]).
    unfold Adapters.conclusive in Hconclusive.
    cbn [Storage.setLog Storage.l_status Storage.l_txHash Storage.l_errorMessage
         BotScheduler.terminal Storage.u_status Storage.u_txHash Storage.u_errorMessage
         created Storage.createTradeLog fst default Storage.orKeep].
    destruct (Dex.success result); destruct Hconclusive as [Hsome Hnone]; [left | right];
      (split; [reflexivity|]); rewrite Hnone; destruct Hsome as [v ->]; split; eauto.
Qed.

(** The first tick of alice's bot on BASE, with no V3 pool and the V2 router
    out of reach. *)
Lemma tick_appends_one_conclusive_log_witness :
  let s := BotScheduler.system (Scenario.boot Scenario.calm) in
  let s' := world (BotScheduler.executeTrade
                     (Adapters.wire Scenario.env Scenario.dryRouter Scenario.api)
                     Scenario.tradingService "alice" Scenario.bot s) in
  exists log,
    Storage.tradeLogs (BotScheduler.db s') = [log]
    /\ Storage.l_status log = "failed"
    /\ is_Some (Storage.l_errorMessage log).
Proof.
  intros s s'.
  destruct (tick_appends_one_conclusive_log Scenario.env Scenario.dryRouter Scenario.api
              Scenario.tradingService "alice" Scenario.bot s)
    as (log & Hlogs & _ & _ & _ & _ & _ & Hstatus).
  - intros l [].
  - exists log. split; [exact Hlogs|].
    destruct Hstatus as [(Hs & _) | (Hs & He & _)].
    + exfalso. fold s' in Hlogs. revert Hs.
      assert (Hlast : last (Storage.tradeLogs (BotScheduler.db s')) = Some log)
        by (rewrite Hlogs; reflexivity).
      vm_compute in Hlast. injection Hlast as <-. discriminate.
    + split; assumption.
Defined.

(** ** Configurations of other users and networks *)

Section ConfigFacts.
Import Storage.

(** Deactivating the configs of one key leaves the active configs of every
    other key as they are. *)
Lemma deactivate_other_key user net u n d :
  user <> u \/ net <> n ->
  List.filter (forKey u n) (tradeConfigs (deactivateConfigsForNetwork user net d))
  = List.filter (forKey u n) (tradeConfigs d).
Proof.
  intros Hother. unfold deactivateConfigsForNetwork. cbn [tradeConfigs withConfigs].
  induction (tradeConfigs d) as [|c cs IH]; [reflexivity|].
  cbn [map List.filter]. rewrite IH.
  destruct (eqs (userId c) user && eqs (network c) net) eqn:Hkey; [|reflexivity].
  apply andb_true_iff in Hkey as [Hu Hn]. apply eqs_eq in Hu, Hn.
  assert (Hout : forall c', userId c' = userId c -> network c' = network c ->
                            forKey u n c' = false).
  { intros c' Hu' Hn'. unfold forKey. rewrite Hu', Hn', Hu, Hn.
    destruct (eqs user u) eqn:H1; [|reflexivity].
    destruct (eqs net n) eqn:H2; [|reflexivity].
    apply eqs_eq in H1, H2. destruct Hother; contradiction. }
  rewrite (Hout c eq_refl eq_refl), (Hout (deactivate d c) eq_refl eq_refl). reflexivity.
Qed.

(** The active configs of a key after [createConfig]. *)
Lemma createConfig_forKey X d u n :
  u <> "" -> n <> "" ->
  List.filter (forKey u n) (tradeConfigs (snd (createConfig X d)))
  = if bool_decide (i_userId X = Some u /\ i_network X = n)
    then match storedConfig X with
         | Returned stored =>
             List.filter (forKey u n)
               [configRow (deactivateConfigsForNetwork u n d) u stored]
         | Thrown _ => []
         end
    else List.filter (forKey u n) (tradeConfigs d).
Proof.
  intros Hu Hn. unfold createConfig.
  destruct (i_userId X) as [user|] eqn:Huser.
  - cbn [default Js.truthyOpt snd].
    destruct (bool_decide (Some user = Some u /\ i_network X = n)) eqn:Hkey.
    + apply bool_decide_eq_true in Hkey as [Heq <-]. injection Heq as ->.
      rewrite (truthy_nonempty _ Hu), (truthy_nonempty _ Hn). cbn [andb].
      destruct (storedConfig X) as [stored|error]; cbn [snd].
      * cbn [tradeConfigs withConfigs]. rewrite List.filter_app.
        replace (List.filter (forKey u (i_network X)) (tradeConfigs _))
          with (@nil TradeConfig)
          by (symmetry; apply (deactivated_none_active u (i_network X) d)).
        reflexivity.
      * apply (deactivated_none_active u (i_network X) d).
    + apply bool_decide_eq_false in Hkey.
      assert (Hother : user <> u \/ i_network X <> n).
      { destruct (String.eqb_spec user u) as [-> | Hne]; [|now left].
        right. intros Heq. apply Hkey. now split. }
      assert (Hnew : forall d1 stored, storedConfig X = Returned stored ->
                                       forKey u n (configRow d1 user stored) = false).
      { intros d1 stored Hstored.
        destruct (storedConfig_keeps X stored Hstored) as (_ & Hnet & _).
        unfold forKey. cbn [userId network configRow]. rewrite Hnet.
        destruct (eqs user u) eqn:H1; [|reflexivity].
        destruct (eqs (i_network X) n) eqn:H2; [|reflexivity].
        apply eqs_eq in H1, H2. destruct Hother; contradiction. }
      destruct (storedConfig X) as [stored|error]; cbn [snd].
      * destruct (Js.truthy user && Js.truthy (i_network X));
          cbn [tradeConfigs withConfigs]; rewrite List.filter_app; cbn [List.filter];
          rewrite (Hnew _ stored eq_refl), app_nil_r;
          [now apply deactivate_other_key | reflexivity].
      * destruct (Js.truthy user && Js.truthy (i_network X));
          [now apply deactivate_other_key | reflexivity].
  - cbn [Js.truthyOpt andb snd].
    rewrite bool_decide_eq_false_2 by (intros [H _]; discriminate). reflexivity.
Qed.

End ConfigFacts.

(** X12. [createConfig] never changes which config is active for another
    user or another network, whatever the new config is and whether it is
    inserted or refused: for every pair of a user and a network other than
    the pair of the new config, [getActiveConfig] returns afterwards what it
    returned before. *)
Theorem createConfig_other_keys_untouched (X : Storage.InsertTradeConfig) (d : Storage.Db)
        (u n : string) :
  u <> "" -> n <> "" ->
  Storage.i_userId X <> Some u \/ Storage.i_network X <> n ->
  Storage.getActiveConfig u n (snd (Storage.createConfig X d)) = Storage.getActiveConfig u n d.
Proof.
  intros Hu Hn Hother. unfold Storage.getActiveConfig.
  change (fun c => Storage.eqs (Storage.userId c) u && Storage.eqs (Storage.network c) n
                   && Bool.eqb (Storage.isActive c) true) with (Storage.forKey u n).
  rewrite (createConfig_forKey X d u n Hu Hn).
  rewrite bool_decide_eq_false_2; [reflexivity|].
  intros [H1 H2]. destruct Hother; contradiction.
Qed.

(** A new config of alice on ETH leaves her active config on BNB in place. *)
Lemma createConfig_other_keys_untouched_witness :
  let before := snd (Storage.createConfig (Scenario.request "BNB" true) Storage.emptyDb) in
  let after := snd (Storage.createConfig (Scenario.request "ETH" true) before) in
  Storage.getActiveConfig "alice" "BNB" after = Storage.getActiveConfig "alice" "BNB" before
  /\ is_Some (Storage.getActiveConfig "alice" "BNB" after).
Proof.
  intros before after. split.
  - apply (createConfig_other_keys_untouched (Scenario.request "ETH" true) before).
    + discriminate.
    + discriminate.
    + right. discriminate.
  - vm_compute. eauto.
Defined.



(** ** Updates of rows that do not exist, and the listings *)

Section JournalFacts.
Import Storage.

Lemma db_eta d :
  {| tradeConfigs := tradeConfigs d; tradeLogs := tradeLogs d; botStatus := botStatus d;
     uuids := uuids d + 0; now := now d |} = d.
Proof. destruct d. cbn. now rewrite Nat.add_0_r. Qed.

Lemma map_untouched {A} (test : A -> bool) (change : A -> A) (rows : list A) :
  List.filter test rows = [] ->
  map (fun row => if test row then change row else row) rows = rows.
Proof.
  induction rows as [|row rows IH]; [reflexivity|]. cbn [List.filter map].
  destruct (test row); [discriminate|]. intros H. now rewrite IH.
Qed.

Lemma head_filter_None {A} (test : A -> bool) (rows : list A) :
  head (List.filter test rows) = None -> List.filter test rows = [].
Proof. now destruct (List.filter test rows). Qed.

End JournalFacts.

(** X14. An update that names a row that does not exist changes nothing
    and returns [undefined]: [updateTradeLog] and [updateConfig] for an id
    that no row has, and [updateBotStatus] for a user and a network that have
    no status row. *)
Theorem update_of_missing_row_is_noop (d : Storage.Db) :
  (forall id updates,
      Storage.getTradeLog id d = None ->
      Storage.updateTradeLog id updates d = (None, d))
  /\ (forall id updates,
         Storage.getConfigById id d = None ->
         Storage.updateConfig id updates d = (None, d))
  /\ (forall userId network updates,
         Storage.getBotStatus userId network d = None ->
         Storage.updateBotStatus userId network updates d = (None, d)).
Proof.
  split; [|split].
  - intros id updates Hnone. apply head_filter_None in Hnone.
    unfold Storage.updateTradeLog. cbv zeta.
    rewrite (map_untouched (fun l => Storage.eqs (Storage.l_id l) id) _ _ Hnone), Hnone.
    unfold Storage.withLogs. now rewrite db_eta.
  - intros id updates Hnone. apply head_filter_None in Hnone.
    unfold Storage.updateConfig. cbv zeta.
    rewrite (map_untouched (fun c => Storage.eqs (Storage.id c) id) _ _ Hnone), Hnone.
    unfold Storage.withConfigs. now rewrite db_eta.
  - intros userId network updates Hnone. apply head_filter_None in Hnone.
    unfold Storage.updateBotStatus. cbv zeta.
    rewrite (map_untouched (Storage.isKey userId network) _ _ Hnone), Hnone.
    unfold Storage.withStatus. now rewrite db_eta.
Qed.

(** X15. [getAllTrades] returns exactly the log rows of the user, the later
    ones first, and [getRecentTrades] is its beginning: at most [limit] rows (10
    when no limit is given), none of them older than a row it leaves out.
    [getAllConfigs] returns exactly the configs of the user, the ones updated
    later first. *)
Theorem listings_newest_first (userId : string) (limit : option nat) (d : Storage.Db) :
  let mine := List.filter (fun l => Storage.eqs (Storage.l_userId l) userId)
                          (Storage.tradeLogs d) in
  let all := Storage.getAllTrades userId d in
  let recent := Storage.getRecentTrades userId limit d in
  all ≡ₚ mine
  /\ StronglySorted Storage.laterLog all
  /\ (exists older, all = recent ++ older
                    /\ forall r l, In r recent -> In l older ->
                                   (Storage.l_createdAt l <= Storage.l_createdAt r)%Z)
  /\ List.length recent = Nat.min (default 10%nat limit) (List.length mine)
  /\ Storage.getAllConfigs userId d
     ≡ₚ List.filter (fun c => Storage.eqs (Storage.userId c) userId) (Storage.tradeConfigs d)
  /\ StronglySorted Storage.laterConfig (Storage.getAllConfigs userId d).
Proof.
  intros mine all recent.
  assert (Htotal : Total Storage.laterLog).
  { intros a b. unfold Storage.laterLog. lia. }
  assert (Htrans : Transitive Storage.laterLog).
  { intros a b c. unfold Storage.laterLog. lia. }
  assert (Hperm : all ≡ₚ mine) by apply merge_sort_Permutation.
  assert (Hsorted : StronglySorted Storage.laterLog all)
    by (apply StronglySorted_merge_sort; assumption).
  split; [exact Hperm|]. split; [exact Hsorted|]. split; [|split; [|split]].
  - exists (drop (default 10%nat limit) all). split.
    + unfold recent, Storage.getRecentTrades. fold all. now rewrite take_drop.
    + intros r l Hr Hl.
      rewrite <- (take_drop (default 10%nat limit) all) in Hsorted.
      revert Hsorted. unfold recent, Storage.getRecentTrades in Hr. fold all in Hr.
      generalize dependent (drop (default 10%nat limit) all).
      generalize dependent (take (default 10%nat limit) all).
      intros front Hr back Hl Hsorted.
      induction front as [|x front IH]; [contradiction|].
      inversion Hsorted as [|? ? Hrest Hall]; subst.
      destruct Hr as [<- | Hr].
      * rewrite List.Forall_forall in Hall. apply (Hall l). apply in_or_app. now right.
      * now apply IH.
  - unfold recent, Storage.getRecentTrades. fold all.
    rewrite length_take. now rewrite (Permutation_length Hperm).
  - apply merge_sort_Permutation.
  - apply StronglySorted_merge_sort.
    + intros a b c. unfold Storage.laterConfig. lia.
    + intros a b. unfold Storage.laterConfig. lia.
Qed.

(** ** The statistics by network *)

Section StatsFacts.
Import Storage.

Lemma fold_aggregate logs :
  forall networkMap,
    fold_left aggregate logs networkMap
    = map (fun entry => (fst entry,
                         talliedOver (List.filter (onNetwork (fst entry)) logs) (snd entry)))
          networkMap.
Proof.
  induction logs as [|log logs IH]; intros networkMap.
  - cbn. induction networkMap as [|[n st] rest IHn]; [reflexivity|]. cbn. now rewrite <- IHn.
  - cbn [fold_left]. rewrite IH. unfold aggregate. rewrite map_map.
    apply map_ext. intros [n st]. cbn [fst snd List.filter]. unfold onNetwork at 2.
    cbn [fst]. destruct (eqs n (l_network log)); reflexivity.
Qed.

Lemma talliedOver_counts logs :
  forall stats,
    let after := talliedOver logs stats in
    totalTrades after = (totalTrades stats + List.length logs)%nat
    /\ successfulTrades after
       = (successfulTrades stats + List.length (List.filter (hasStatus "success") logs))%nat
    /\ failedTrades after
       = (failedTrades stats + List.length (List.filter (hasStatus "failed") logs))%nat
    /\ (totalVolumeUsd after == totalVolumeUsd stats + volumeOf logs)%Q.
Proof.
  induction logs as [|log logs IH]; intros stats after; subst after.
  - cbn. repeat split; try lia. symmetry. apply Qplus_0_r.
  - cbn [talliedOver fold_left]. fold (talliedOver logs (tally log stats)).
    destruct (IH (tally log stats)) as (Ht & Hs & Hf & Hv). cbv zeta in *.
    split; [|split; [|split]].
    + rewrite Ht. cbn. lia.
    + rewrite Hs. cbn [tally successfulTrades List.filter]. unfold hasStatus at 2.
      destruct (eqs (l_status log) "success"); cbn; lia.
    + rewrite Hf. cbn [tally failedTrades List.filter]. unfold hasStatus at 2. unfold eqs.
      destruct (String.eqb_spec (l_status log) "success") as [Heq | Hne].
      * rewrite Heq. cbn. lia.
      * destruct (String.eqb (l_status log) "failed"); cbn; lia.
    + eapply Qeq_trans; [exact Hv|]. cbn [tally totalVolumeUsd volumeOf fold_right].
      symmetry. apply Qplus_assoc.
Qed.

Lemma filter_length_Permutation {A} (test : A -> bool) (l l' : list A) :
  l ≡ₚ l' -> List.length (List.filter test l) = List.length (List.filter test l').
Proof.
  induction 1 as [|x l l' _ IH|x y l|l l' l'' _ IH1 _ IH2]; cbn [List.filter].
  - reflexivity.
  - destruct (test x); cbn; now rewrite IH.
  - destruct (test x), (test y); reflexivity.
  - now rewrite IH1.
Qed.

Lemma filter_Permutation_list {A} (test : A -> bool) (l l' : list A) :
  l ≡ₚ l' -> List.filter test l ≡ₚ List.filter test l'.
Proof.
  induction 1 as [|x l l' _ IH|x y l|l l' l'' _ IH1 _ IH2]; cbn [List.filter].
  - reflexivity.
  - destruct (test x); [now constructor | exact IH].
  - destruct (test x), (test y); try reflexivity. constructor.
  - now rewrite IH1.
Qed.

Lemma volumeOf_Permutation (l l' : list TradeLog) :
  l ≡ₚ l' -> (volumeOf l == volumeOf l')%Q.
Proof.
  induction 1 as [|x l l' _ IH|x y l|l l' l'' _ IH1 _ IH2]; cbn [volumeOf fold_right].
  - reflexivity.
  - fold (volumeOf l) (volumeOf l'). now rewrite IH.
  - fold (volumeOf l).
    assert (Hswap : forall a b c : Q, (a + (b + c) == b + (a + c))%Q) by (intros; ring).
    apply Hswap.
  - now rewrite IH1.
Qed.

Lemma toFixed_Qeq x y digits : (x == y)%Q -> Js.toFixed x digits = Js.toFixed y digits.
Proof.
  intros Heq. unfold Js.toFixed.
  assert (Hfloor : Qfloor (Qabs x * inject_Z (Js.pow10 digits) + (1 # 2))
                   = Qfloor (Qabs y * inject_Z (Js.pow10 digits) + (1 # 2)))
    by (apply Qfloor_comp; now rewrite Heq).
  assert (Hsign : Qle_bool 0 x = Qle_bool 0 y).
  { destruct (Qle_bool 0 x) eqn:Hx, (Qle_bool 0 y) eqn:Hy; try reflexivity.
    - apply Qle_bool_iff in Hx. rewrite Heq in Hx. apply Qle_bool_iff in Hx. congruence.
    - apply Qle_bool_iff in Hy. rewrite <- Heq in Hy. apply Qle_bool_iff in Hy. congruence. }
  cbv zeta. now rewrite Hfloor, Hsign.
Qed.

Lemma statuses_disjoint (logs : list TradeLog) :
  (List.length (List.filter (hasStatus "success") logs)
   + List.length (List.filter (hasStatus "failed") logs) <= List.length logs)%nat.
Proof.
  unfold hasStatus, eqs.
  induction logs as [|log logs IH]; [reflexivity|]. cbn [List.filter List.length].
  destruct (String.eqb_spec (l_status log) "success") as [Heq | Hne].
  - rewrite Heq. cbn. lia.
  - destruct (String.eqb (l_status log) "failed"); cbn; lia.
Qed.

(** The entry of one network. *)
Lemma stats_entry userId d n :
  let mine := List.filter (fun l => eqs (l_userId l) userId) (tradeLogs d) in
  let logs := List.filter (onNetwork n) mine in
  let entry := report (n, talliedOver (List.filter (onNetwork n) (getAllTrades userId d))
                                      noTally) in
  ns_network entry = n
  /\ ns_totalTrades entry = List.length logs
  /\ ns_successfulTrades entry = List.length (List.filter (hasStatus "success") logs)
  /\ ns_failedTrades entry = List.length (List.filter (hasStatus "failed") logs)
  /\ ns_totalVolumeUsd entry = Js.toFixed (volumeOf logs) 2.
Proof.
  intros mine logs entry.
  assert (Hperm : List.filter (onNetwork n) (getAllTrades userId d) ≡ₚ logs)
    by (apply filter_Permutation_list, merge_sort_Permutation).
  destruct (talliedOver_counts (List.filter (onNetwork n) (getAllTrades userId d)) noTally)
    as (Ht & Hs & Hf & Hv).
  cbv zeta in *. unfold entry, report. cbn [fst snd ns_network ns_totalTrades
    ns_successfulTrades ns_failedTrades ns_totalVolumeUsd].
  rewrite Ht, Hs, Hf. cbn [noTally totalTrades successfulTrades failedTrades Nat.add].
  split; [reflexivity|]. split; [now apply Permutation_length|].
  split; [now apply filter_length_Permutation|].
  split; [now apply filter_length_Permutation|].
  apply toFixed_Qeq. eapply Qeq_trans; [exact Hv|]. cbn [noTally totalVolumeUsd].
  rewrite Qplus_0_l. now apply volumeOf_Permutation.
Qed.

End StatsFacts.

(** X16. [getNetworkStats] returns one entry for each of ETH, BASE, BNB and
    SOL, in this order.  The entry of a network counts every log row of the
    user on that network as a trade, the rows with status success as successful
    and those with status failed as failed, so that a pending row is counted as
    a trade only; its volume is the sum of [amountUsd] over all these rows,
    failed and pending ones included, written with two decimals.  Rows of a
    network with another name are counted nowhere. *)
Theorem network_stats_count_every_log (userId : string) (d : Storage.Db) :
  let mine := List.filter (fun l => Storage.eqs (Storage.l_userId l) userId)
                          (Storage.tradeLogs d) in
  let stats := Storage.getNetworkStats userId d in
  map Storage.ns_network stats = ["ETH"; "BASE"; "BNB"; "SOL"]
  /\ forall entry,
      In entry stats ->
      let logs := List.filter (Storage.onNetwork (Storage.ns_network entry)) mine in
      Storage.ns_totalTrades entry = List.length logs
      /\ Storage.ns_successfulTrades entry
         = List.length (List.filter (Storage.hasStatus "success") logs)
      /\ Storage.ns_failedTrades entry
         = List.length (List.filter (Storage.hasStatus "failed") logs)
      /\ (Storage.ns_successfulTrades entry + Storage.ns_failedTrades entry
          <= Storage.ns_totalTrades entry)%nat
      /\ Storage.ns_totalVolumeUsd entry = Js.toFixed (Storage.volumeOf logs) 2.
Proof.
  intros mine stats.
  assert (Hstats : stats
                   = map (fun n => Storage.report
                                     (n, Storage.talliedOver
                                           (List.filter (Storage.onNetwork n)
                                                        (Storage.getAllTrades userId d))
                                           Storage.noTally))
                         ["ETH"; "BASE"; "BNB"; "SOL"]).
  { unfold stats, Storage.getNetworkStats. cbv zeta. rewrite fold_aggregate.
    rewrite !map_map. reflexivity. }
  split; [rewrite Hstats; reflexivity|].
  intros entry Hin logs. rewrite Hstats in Hin. cbn [map In] in Hin.
  assert (Hentry : exists n, entry = Storage.report
                                       (n, Storage.talliedOver
                                             (List.filter (Storage.onNetwork n)
                                                          (Storage.getAllTrades userId d))
                                             Storage.noTally)).
  { destruct Hin as [<- | [<- | [<- | [<- | []]]]]; eexists; reflexivity. }
  destruct Hentry as (n & ->).
  destruct (stats_entry userId d n) as (Hn & Ht & Hs & Hf & Hv). cbv zeta in *.
  subst logs. rewrite Hn. fold mine in Ht, Hs, Hf, Hv.
  rewrite Ht, Hs, Hf, Hv. repeat split. apply statuses_disjoint.
Qed.

(** ** Starting and stopping bots *)

Section ControlFacts.
Import Storage BotScheduler.
Context {W : Type}.

Lemma stopBot_run userId network (s : System W) :
  stopBot userId network s
  = MkRun (Returned tt)
          {| scheduledTasks := delete (getBotKey userId network) (scheduledTasks s);
             broadcaster := broadcaster s; db := db s; ext := ext s |} [].
Proof.
  unfold stopBot, onTasks.
  destruct (scheduledTasks s !! getBotKey userId network) eqn:Htask; [reflexivity|].
  now rewrite (delete_id _ _ Htask).
Qed.

(** After an insertion the status row of the key is the one inserted. *)
Lemma getBotStatus_fresh userId network (d : Db) row :
  getBotStatus userId network d = None ->
  isKey userId network row = true ->
  getBotStatus userId network (withStatus d (botStatus d ++ [row]) 1) = Some row.
Proof.
  intros Hnone Hkey. apply head_filter_None in Hnone.
  unfold getBotStatus. cbn [botStatus withStatus].
  rewrite List.filter_app, Hnone. cbn [List.filter app]. now rewrite Hkey.
Qed.

Lemma isKey_refl userId network b :
  b_userId b = userId -> b_network b = network -> isKey userId network b = true.
Proof. intros <- <-. unfold isKey. now rewrite !eqs_refl. Qed.

Lemma startBot_run userId config cron (s : System W) :
  intervalMap (tradeInterval config) = Some cron ->
  let botKey := getBotKey userId (network config) in
  let task := {| cronExpression := cron; t_userId := userId; t_config := config |} in
  let upserted :=
    upsertBotStatus userId (network config) {|
      s_isRunning := Some true;
      s_activeConfigId := Some (Some (id config));
      s_lastTradeAt := None;
      s_nextTradeAt := Some (calculateNextTradeTime (tradeInterval config) (now (db s)));
      s_totalTradesCount := None;
      s_successfulTradesCount := None;
      s_failedTradesCount := None;
      s_totalVolumeUsd := None
    |} (db s) in
  startBot userId config s
  = MkRun (Returned tt)
          {| scheduledTasks := <[botKey := task]> (delete botKey (scheduledTasks s));
             broadcaster := broadcaster s; db := snd upserted; ext := ext s |} [].
Proof.
  intros Hcron botKey task upserted. unfold startBot. rewrite Hcron.
  unfold bind. rewrite stopBot_run. reflexivity.
Qed.

End ControlFacts.

(** X17. [startBot] with a config whose interval is neither one of 1min,
    5min, 10min, 30min and 1hour nor a property name that the object
    [intervalMap] inherits ('constructor', 'toString', '__proto__', ..., for
    which the lookup is truthy and the test does not fire) throws "Invalid
    trade interval: ..."; by then it has already stopped the bot of that user
    and network, which is left without a task, while the journal, and with it
    the status row that says the bot is running, is left as it was, as are the
    bots of every other key. *)
Theorem startBot_invalid_interval_stops {W} userId config (s : BotScheduler.System W) :
  let r := BotScheduler.startBot userId config s in
  let botKey := BotScheduler.getBotKey userId (Storage.network config) in
  BotScheduler.intervalMap (Storage.tradeInterval config) = None ->
  Js.inherited (Storage.tradeInterval config) = false ->
  outcome r = Thrown {| Js.name := "Error";
                        Js.message := "Invalid trade interval: "
                                      ++ Storage.tradeInterval config |}
  /\ BotScheduler.isRunning userId (Storage.network config) (world r) = false
  /\ (forall key, key <> botKey ->
                  BotScheduler.scheduledTasks (world r) !! key
                  = BotScheduler.scheduledTasks s !! key)
  /\ BotScheduler.db (world r) = BotScheduler.db s
  /\ BotScheduler.ext (world r) = BotScheduler.ext s.
Proof.
  intros r botKey Hnone Hown. subst r. unfold BotScheduler.startBot. rewrite Hnone, Hown.
  unfold bind. rewrite stopBot_run. cbn [outcome world events throw].
  split; [reflexivity|]. split; [|split; [|split; reflexivity]].
  - unfold BotScheduler.isRunning. cbn [BotScheduler.scheduledTasks].
    rewrite lookup_delete_eq. apply bool_decide_eq_false_2. intros [? H]. discriminate.
  - intros key Hkey. cbn [BotScheduler.scheduledTasks]. now apply lookup_delete_ne.
Qed.

(** The bot of alice on BASE runs and is started again with the interval
    "2min": the start fails and the bot is gone, while its status row still
    says that it is running. *)
Lemma startBot_invalid_interval_stops_witness :
  let s := BotScheduler.system
             (Scenario.run [BotScheduler.Start "alice" Scenario.bot]
                           (Scenario.boot Scenario.calm)) in
  let r := BotScheduler.startBot "alice" (Scenario.every "2min") s in
  BotScheduler.isRunning "alice" "BASE" s = true
  /\ outcome r = Thrown {| Js.name := "Error"; Js.message := "Invalid trade interval: 2min" |}
  /\ BotScheduler.isRunning "alice" "BASE" (world r) = false
  /\ exists row, Storage.getBotStatus "alice" "BASE" (BotScheduler.db (world r)) = Some row
                 /\ Storage.b_isRunning row = true.
Proof.
  intros s r.
  destruct (startBot_invalid_interval_stops "alice" (Scenario.every "2min") s)
    as (Hout & Hstopped & _ & Hdb & _).
  - reflexivity.
  - reflexivity.
  - split; [vm_compute; reflexivity|]. split; [exact Hout|]. split; [exact Hstopped|].
    fold r in Hdb. rewrite Hdb. vm_compute. eexists. split; reflexivity.
Defined.

Section IntervalFacts.
Import BotScheduler.

(** The five intervals of [intervalMap] and what [calculateNextTradeTime]
    adds for them. *)
Lemma known_interval interval cron now :
  intervalMap interval = Some cron ->
  exists period,
    calculateNextTradeTime interval now = Some (now + period)%Z
    /\ (60000 <= period <= 3600000)%Z.
Proof.
  unfold intervalMap.
  destruct (String.eqb_spec interval "1min") as [-> | _];
    [intros _; exists 60000%Z; split; [reflexivity | lia]|].
  destruct (String.eqb_spec interval "5min") as [-> | _];
    [intros _; exists 300000%Z; split; [reflexivity | lia]|].
  destruct (String.eqb_spec interval "10min") as [-> | _];
    [intros _; exists 600000%Z; split; [reflexivity | lia]|].
  destruct (String.eqb_spec interval "30min") as [-> | _];
    [intros _; exists 1800000%Z; split; [reflexivity | lia]|].
  destruct (String.eqb_spec interval "1hour") as [-> | _];
    [intros _; exists 3600000%Z; split; [reflexivity | lia]|].
  discriminate.
Qed.

End IntervalFacts.

(** X18. [startBot] with a config whose interval is known returns and
    leaves exactly one task at the key of the user and the network, which holds
    the config given (a task that was there is replaced); the tasks of other
    keys are as they were.  The status row of the key then says that the bot
    is running with this config, and that its next trade is between one minute
    and one hour after now; a row that existed keeps its id, its counters, its
    volume and its last trade time, and a row that is created starts with
    counters and volume 0. *)
Theorem startBot_installs_task {W} userId config cron (s : BotScheduler.System W) :
  let r := BotScheduler.startBot userId config s in
  let n := Storage.network config in
  let botKey := BotScheduler.getBotKey userId n in
  BotScheduler.intervalMap (Storage.tradeInterval config) = Some cron ->
  outcome r = Returned tt
  /\ BotScheduler.scheduledTasks (world r) !! botKey
     = Some {| BotScheduler.cronExpression := cron;
               BotScheduler.t_userId := userId;
               BotScheduler.t_config := config |}
  /\ (forall key, key <> botKey ->
                  BotScheduler.scheduledTasks (world r) !! key
                  = BotScheduler.scheduledTasks s !! key)
  /\ exists row period,
      Storage.getBotStatus userId n (BotScheduler.db (world r)) = Some row
      /\ Storage.b_isRunning row = true
      /\ Storage.b_activeConfigId row = Some (Storage.id config)
      /\ Storage.b_nextTradeAt row = Some (Storage.now (BotScheduler.db s) + period)%Z
      /\ (60000 <= period <= 3600000)%Z
      /\ match Storage.getBotStatus userId n (BotScheduler.db s) with
         | Some old =>
             Storage.b_id row = Storage.b_id old
             /\ Storage.b_totalTradesCount row = Storage.b_totalTradesCount old
             /\ Storage.b_successfulTradesCount row = Storage.b_successfulTradesCount old
             /\ Storage.b_failedTradesCount row = Storage.b_failedTradesCount old
             /\ Storage.b_totalVolumeUsd row = Storage.b_totalVolumeUsd old
             /\ Storage.b_lastTradeAt row = Storage.b_lastTradeAt old
         | None =>
             Storage.b_totalTradesCount row = 0%Z
             /\ Storage.b_successfulTradesCount row = 0%Z
             /\ Storage.b_failedTradesCount row = 0%Z
             /\ Storage.b_totalVolumeUsd row = {| Js.unscaled := 0; Js.scale := 0 |}
             /\ Storage.b_lastTradeAt row = None
         end.
Proof.
  intros r n botKey Hcron. subst r.
  rewrite (startBot_run userId config cron s Hcron). cbv zeta.
  cbn [outcome world BotScheduler.scheduledTasks BotScheduler.db].
  split; [reflexivity|]. split; [apply lookup_insert_eq|]. split.
  - intros key Hkey. fold n botKey.
    rewrite lookup_insert_ne by congruence. apply lookup_delete_ne. congruence.
  - destruct (known_interval (Storage.tradeInterval config) cron
                             (Storage.now (BotScheduler.db s)) Hcron)
      as (period & Hnext & Hperiod).
    fold n. unfold Storage.upsertBotStatus.
    destruct (Storage.getBotStatus userId n (BotScheduler.db s)) as [old|] eqn:Hold.
    + cbn [snd]. eexists. exists period. split; [exact (updateBotStatus_get _ _ _ _ _ Hold)|].
      cbn [Storage.setStatus Storage.b_isRunning Storage.b_activeConfigId
           Storage.b_nextTradeAt Storage.s_isRunning Storage.s_activeConfigId
           Storage.s_nextTradeAt default Storage.b_id Storage.b_totalTradesCount
           Storage.b_successfulTradesCount Storage.b_failedTradesCount
           Storage.b_totalVolumeUsd Storage.b_lastTradeAt Storage.s_totalTradesCount
           Storage.s_successfulTradesCount Storage.s_failedTradesCount
           Storage.s_totalVolumeUsd Storage.s_lastTradeAt].
      rewrite Hnext. repeat split; lia.
    + cbn [snd]. eexists. exists period.
      split; [apply (getBotStatus_fresh _ _ _ _ Hold); now apply isKey_refl|].
      cbn [Storage.b_isRunning Storage.b_activeConfigId
           Storage.b_nextTradeAt Storage.s_isRunning Storage.s_activeConfigId
           Storage.s_nextTradeAt default Storage.b_id Storage.b_totalTradesCount
           Storage.b_successfulTradesCount Storage.b_failedTradesCount
           Storage.b_totalVolumeUsd Storage.b_lastTradeAt Storage.s_totalTradesCount
           Storage.s_successfulTradesCount Storage.s_failedTradesCount
           Storage.s_totalVolumeUsd Storage.s_lastTradeAt].
      rewrite Hnext. repeat split; lia.
Qed.

(** The bot of alice on BASE is started on an empty server. *)
Lemma startBot_installs_task_witness :
  let s := BotScheduler.system (Scenario.boot Scenario.calm) in
  let r := BotScheduler.startBot "alice" Scenario.bot s in
  outcome r = Returned tt
  /\ BotScheduler.isRunning "alice" "BASE" (world r) = true
  /\ exists row, Storage.getBotStatus "alice" "BASE" (BotScheduler.db (world r)) = Some row
                 /\ Storage.b_isRunning row = true
                 /\ Storage.b_nextTradeAt row = Some 600000%Z.
Proof.
  intros s r.
  destruct (startBot_installs_task "alice" Scenario.bot "*/10 * * * *" s)
    as (Hout & Htask & _ & row & period & Hrow & Hrunning & _ & _ & _ & _).
  - reflexivity.
  - split; [exact Hout|]. split.
    + unfold BotScheduler.isRunning. apply bool_decide_eq_true_2.
      eexists. exact Htask.
    + exists row. split; [exact Hrow|]. split; [exact Hrunning|].
      fold r in Hrow. vm_compute in Hrow. injection Hrow as <-. reflexivity.
Defined.

(** ** The keys of the scheduler *)

Section KeyFacts.
Import BotScheduler.

Lemma append_cons c (s t : string) : (String c s ++ t)%string = String c (s ++ t)%string.
Proof. reflexivity. Qed.

Lemma append_nil (t : string) : ("" ++ t)%string = t.
Proof. reflexivity. Qed.

Lemma colonFree_cons c name :
  colonFree (String c name) = negb (Ascii.eqb c ":") && colonFree name.
Proof. reflexivity. Qed.

(** A name without a colon does not end in a colon and another name. *)
Lemma colonFree_no_suffix prefix name rest :
  colonFree name = true -> name <> (prefix ++ ":" ++ rest)%string.
Proof.
  revert name. induction prefix as [|c prefix IH]; intros name Hfree Heq; subst name.
  - discriminate.
  - rewrite append_cons, colonFree_cons in Hfree.
    apply andb_true_iff in Hfree as [_ Hfree]. now apply (IH _ Hfree).
Qed.

Lemma getBotKey_inj u n u' n' :
  colonFree n = true -> colonFree n' = true ->
  getBotKey u n = getBotKey u' n' -> u = u' /\ n = n'.
Proof.
  unfold getBotKey. intros Hn Hn'. revert u'.
  induction u as [|c u IH]; intros [|c' u'] Heq;
    rewrite ?append_cons, ?append_nil in Heq.
  - injection Heq as Heq. now split.
  - injection Heq as Hc Heq. exfalso. now apply (colonFree_no_suffix u' n n').
  - injection Heq as Hc Heq. exfalso. symmetry in Heq.
    now apply (colonFree_no_suffix u n' n).
  - injection Heq as Hc Heq. destruct (IH u' Heq) as [-> ->]. now subst.
Qed.

End KeyFacts.

(** X19. Two bots have the same key in the scheduler only when they are the
    bot of the same user on the same network, for network names without a
    colon, as are ETH, BASE, BNB and SOL; a colon in a user id does no harm. *)
Theorem bot_keys_distinct (u n u' n' : string) :
  BotScheduler.colonFree n = true ->
  BotScheduler.colonFree n' = true ->
  BotScheduler.getBotKey u n = BotScheduler.getBotKey u' n' ->
  u = u' /\ n = n'.
Proof. apply getBotKey_inj. Qed.

(** The four networks have no colon, and the key of the user "a:b" on ETH
    is that of no one else. *)
Lemma bot_keys_distinct_witness :
  forallb BotScheduler.colonFree BotScheduler.networks = true
  /\ ("a:b" = "a:b" /\ "ETH" = "ETH").
Proof.
  split; [reflexivity|].
  apply (bot_keys_distinct "a:b" "ETH" "a:b" "ETH"); reflexivity.
Defined.

Section StopAllFacts.
Import BotScheduler.
Context {W : Type}.

Lemma stop_then userId network (rest : M (System W) unit) (s : System W) :
  (stopBot userId network ;;; rest) s
  = rest {| scheduledTasks := delete (getBotKey userId network) (scheduledTasks s);
            broadcaster := broadcaster s; db := db s; ext := ext s |}.
Proof.
  unfold bind. rewrite stopBot_run. cbn [outcome world events app]. apply run_eta.
Qed.

Lemma stopAllBots_run userId (s : System W) :
  stopAllBots userId s
  = MkRun (Returned tt)
          {| scheduledTasks :=
               delete (getBotKey userId "SOL")
                 (delete (getBotKey userId "BNB")
                    (delete (getBotKey userId "BASE")
                       (delete (getBotKey userId "ETH") (scheduledTasks s))));
             broadcaster := broadcaster s; db := db s; ext := ext s |} [].
Proof.
  unfold stopAllBots, networks. cbn [fold_right]. now rewrite !stop_then.
Qed.

End StopAllFacts.

(** X20. [stopAllBots] returns and leaves the user without a task on ETH,
    BASE, BNB and SOL: [getRunningNetworks] is empty afterwards.  It removes
    nothing else: the task of any other key is as it was, so the bots of other
    users go on, and so does a bot of the same user on a network of another
    name.  The journal is not written: the status rows go on saying what they
    said. *)
Theorem stopAllBots_stops_the_four {W} userId (s : BotScheduler.System W) :
  let r := BotScheduler.stopAllBots userId s in
  outcome r = Returned tt
  /\ BotScheduler.getRunningNetworks userId (world r) = []
  /\ (forall key,
         ~ In key (map (BotScheduler.getBotKey userId) BotScheduler.networks) ->
         BotScheduler.scheduledTasks (world r) !! key = BotScheduler.scheduledTasks s !! key)
  /\ (forall u n,
         BotScheduler.colonFree n = true ->
         u <> userId \/ ~ In n BotScheduler.networks ->
         BotScheduler.isRunning u n (world r) = BotScheduler.isRunning u n s)
  /\ BotScheduler.db (world r) = BotScheduler.db s
  /\ BotScheduler.ext (world r) = BotScheduler.ext s.
Proof.
  intros r. subst r. rewrite stopAllBots_run. cbn [outcome world].
  assert (Hkeep : forall key,
             ~ In key (map (BotScheduler.getBotKey userId) BotScheduler.networks) ->
             delete (BotScheduler.getBotKey userId "SOL")
               (delete (BotScheduler.getBotKey userId "BNB")
                  (delete (BotScheduler.getBotKey userId "BASE")
                     (delete (BotScheduler.getBotKey userId "ETH")
                             (BotScheduler.scheduledTasks s)))) !! key
             = BotScheduler.scheduledTasks s !! key).
  { intros key Hkey. cbn [map BotScheduler.networks In] in Hkey.
    rewrite !lookup_delete_ne; [reflexivity | | | |]; intros Heq; apply Hkey; auto 6. }
  split; [reflexivity|]. split; [|split; [exact Hkeep | split; [|split; reflexivity]]].
  - unfold BotScheduler.getRunningNetworks, BotScheduler.networks, BotScheduler.isRunning.
    cbn [List.filter BotScheduler.scheduledTasks].
    repeat match goal with
           | |- context [bool_decide (is_Some (?tasks !! ?key))] =>
               replace (tasks !! key) with (@None BotScheduler.ScheduledTask)
                 by (symmetry;
                     repeat (rewrite lookup_delete; case_decide; [reflexivity|]);
                     congruence);
               rewrite (bool_decide_eq_false_2 (is_Some None))
                 by (intros [? H]; discriminate)
           end.
    reflexivity.
  - intros u n Hfree Hother. unfold BotScheduler.isRunning.
    cbn [BotScheduler.scheduledTasks]. rewrite Hkeep; [reflexivity|].
    intros Hin. apply in_map_iff in Hin as (n0 & Hkey & Hn0).
    assert (Hfree0 : BotScheduler.colonFree n0 = true).
    { cbn [BotScheduler.networks In] in Hn0.
      destruct Hn0 as [<- | [<- | [<- | [<- | []]]]]; reflexivity. }
    apply getBotKey_inj in Hkey as [Hu Hn]; [|assumption..].
    subst. destruct Hother as [Hother | Hother]; [now apply Hother | now apply Hother].
Qed.

(** ** The requests *)



Section RouteFacts.
Import Storage BotScheduler Routes.
Context {W : Type}.
Variable env : TradingService.Env W.
Variable tradingService : TradingService.Service.
Variable zodMessage : ManualTradeBody -> string.

Lemma executeTrade_returns params w :
  exists result, outcome (TradingService.executeTrade env tradingService params w)
                 = Returned result.
Proof. unfold TradingService.executeTrade. apply tryCatch_total. Qed.

(** "Update bot status counters for this network" *)
Lemma manual_count_run userId n amount result (found : option BotStatus) (s : System W) :
  match found with
  | Some botStatus =>
      onDb (updateBotStatus userId n (Routes.count amount result botStatus)) ;;;
      ret tt
  | None => ret tt
  end s
  = MkRun (Returned tt)
          {| scheduledTasks := scheduledTasks s; broadcaster := broadcaster s;
             db := match found with
                   | Some botStatus =>
                       snd (updateBotStatus userId n (Routes.count amount result botStatus)
                                            (db s))
                   | None => db s
                   end;
             ext := ext s |} [].
Proof.
  destruct found as [botStatus|].
  - unfold bind, onDb, ret. cbn [outcome world events fst snd app]. reflexivity.
  - unfold ret. now destruct s.
Qed.

Lemma if_ret {A S} (c : bool) (a b : A) (s : S) :
  (if c then ret a else ret b) s = MkRun (Returned (if c then a else b)) s [].
Proof. now destruct c. Qed.

Lemma system_eta (s : System W) :
  {| scheduledTasks := scheduledTasks s; broadcaster := broadcaster s;
     db := db s; ext := ext s |} = s.
Proof. now destruct s. Qed.

(** The schema lets no amount below one dollar pass. *)
Lemma schema_amount body request :
  manualTradeSchema body = Some request -> (1 <= Routes.amountUsd request)%Q.
Proof.
  unfold manualTradeSchema.
  destruct (b_contractAddress body) as [[| | |address|]|]; try discriminate.
  destruct (b_network body) as [[| | |network|]|]; try discriminate.
  destruct (b_amountUsd body) as [[| |amount| |]|]; try discriminate.
  destruct (Schema.parseNetwork network); [|discriminate].
  destruct (match b_dexVersion body with
            | None => Some None
            | Some (JString version) => Some (Some version)
            | Some _ => None
            end); [|discriminate].
  destruct (match b_slippageTolerance body with
            | None => Some (5 : Js.number)
            | Some (JNumber slippage) =>
                if Qle_bool (1 # 10) slippage && Qle_bool slippage 50
                then Some slippage else None
            | Some _ => None
            end); [|discriminate].
  destruct ((1 <=? String.length address)%nat && Qle_bool 1 amount) eqn:Hchecks;
    [|discriminate].
  intros [= <-]. cbn [Routes.amountUsd].
  apply andb_true_iff in Hchecks as [_ Hamount]. now apply Qle_bool_iff.
Qed.

(** [amount_usd decimal(10, 2)] takes an amount of at least one dollar
    when it is below 99999999.995. *)
Lemma amount_column x :
  (1 <= x)%Q ->
  decimal 10 2 x = if Qle_bool (99999999995 # 1000) x then None
                   else Some (Js.toFixed x 2).
Proof.
  intros Hx.
  assert (Habs : (Qabs x == x)%Q) by (apply Qabs_pos; lra).
  destruct (Qle_bool (99999999995 # 1000) x) eqn:Hle.
  - apply Qle_bool_iff in Hle.
    destruct (decimal 10 2 x) as [stored|] eqn:Hd; [|reflexivity].
    assert (Hfit : is_Some (decimal 10 2 x)) by (rewrite Hd; eauto).
    apply decimal_10_2 in Hfit. rewrite Habs in Hfit. lra.
  - assert (Hlt : (x < 99999999995 # 1000)%Q).
    { apply Qnot_le_lt. intros H. apply Qle_bool_iff in H. congruence. }
    assert (Hfit : is_Some (decimal 10 2 x)).
    { apply decimal_10_2. now rewrite Habs. }
    destruct Hfit as [stored Hd]. rewrite Hd. f_equal.
    exact (decimal_stored _ _ _ _ Hd).
Qed.

Lemma manualTrade_run userId requestBody request (s : System W) result :
  let n := Schema.networkName (Routes.network request) in
  let created := createTradeLog {|
                   n_userId := userId; n_configId := None;
                   n_network := n; n_dex := dexMap (Routes.network request);
                   n_tokenAddress := Routes.contractAddress request;
                   n_tradeType := "manual";
                   n_amountUsd := Js.toFixed (Routes.amountUsd request) 2;
                   n_status := "pending"
                 |} (db s) in
  let traded := TradingService.executeTrade env tradingService (manualParams request)
                                            (ext s) in
  let logged := updateTradeLog (l_id (fst created)) (terminal result) (snd created) in
  let counted :=
    match getBotStatus userId n (snd logged) with
    | Some botStatus =>
        snd (updateBotStatus userId n (Routes.count (Routes.amountUsd request) result botStatus)
                             (snd logged))
    | None => snd logged
    end in
  manualTradeSchema requestBody = Some request ->
  Qle_bool (99999999995 # 1000) (Routes.amountUsd request) = false ->
  outcome traded = Returned result ->
  manualTrade env tradingService zodMessage userId requestBody s =
  MkRun (Returned (if negb (Dex.success result)
                   then {| status := 400;
                           body := Refusal (Dex.errorMessage result) (fst logged) |}
                   else {| status := 200; body := Trade (fst logged) |}))
        {| scheduledTasks := scheduledTasks s; broadcaster := broadcaster s;
           db := counted; ext := world traded |}
        (events traded ++ [Broadcast userId "new_trade"]).
Proof.
  intros n created traded logged counted Hparse Hfits Hout.
  unfold manualTrade. rewrite Hparse.
  eapply eq_trans.
  { eapply tryCatch_run.
    eapply bind_run; [reflexivity|].
    eapply bind_run.
    { unfold onDbTry, createTradeLogOf.
      rewrite (amount_column _ (schema_amount _ _ Hparse)), Hfits. reflexivity. }
    eapply bind_run; [eapply onExt_run; exact Hout|].
    eapply bind_run; [reflexivity|].
    eapply bind_run; [reflexivity|].
    eapply bind_run; [apply manual_count_run|].
    eapply bind_run; [reflexivity|].
    apply if_ret. }
  reflexivity.
Qed.

(** A request that the schema or the amount column refuses. *)
Lemma manualTrade_refused userId requestBody (s : System W) :
  match manualTradeSchema requestBody with
  | Some request => Qle_bool (99999999995 # 1000) (Routes.amountUsd request) = true
  | None => True
  end ->
  exists message,
    manualTrade env tradingService zodMessage userId requestBody s
    = MkRun (Returned {| status := 400; body := Message message |}) s [].
Proof.
  intros Hrefused. unfold manualTrade.
  destruct (manualTradeSchema requestBody) as [request|] eqn:Hparse.
  - eexists. erewrite tryCatch_thrown.
    2:{ erewrite bind_returned by reflexivity.
        erewrite bind_thrown.
        2:{ unfold onDbTry, createTradeLogOf. cbn [lift world].
            rewrite (amount_column _ (schema_amount _ _ Hparse)), Hrefused. reflexivity. }
        reflexivity. }
    erewrite bind_returned by reflexivity.
    erewrite bind_thrown.
    2:{ unfold onDbTry, createTradeLogOf. cbn [lift world].
        rewrite (amount_column _ (schema_amount _ _ Hparse)), Hrefused. reflexivity. }
    unfold onDbTry, createTradeLogOf. cbn [lift world events].
    rewrite (amount_column _ (schema_amount _ _ Hparse)), Hrefused.
    cbn [outcome world events ret app fst snd]. now rewrite system_eta.
  - eexists. erewrite tryCatch_thrown by reflexivity.
    cbn [outcome world events app bind lift ret]. reflexivity.
Qed.

End RouteFacts.

(** X22. [POST /api/trades/manual] always answers.  A body that the schema
    refuses is answered with status 400 and changes nothing: no log row, no
    call, no event.  So is a body that the schema accepts with an amount of
    99999999.995 USD or more: the column [amount_usd decimal(10, 2)] refuses
    its log row, and the trade is not made.  For every other body the trade
    runs once, with the gas limit 0.8 and the version given or 'auto', and it
    returns.  When the journal then takes the result and the counters (their
    values fit the columns), the answer has status 200 when the trade
    succeeded and 400 when it failed; one row of type manual with no config
    is added to the journal, with the amount rounded to two decimals, and it
    ends as success or failed, never pending; the user is told once; the
    scheduler and the configs are not touched.  The handler is followed from
    its start to its end, with no other request or tick in between. *)
Theorem manual_trade_route {W} (env : TradingService.Env W) tradingService
        zodMessage userId requestBody (s : BotScheduler.System W) :
  let r := Routes.manualTrade env tradingService zodMessage userId requestBody s in
  let refused :=
    (exists message, outcome r = Returned {| Routes.status := 400;
                                             Routes.body := Routes.Message message |})
    /\ world r = s
    /\ events r = [] in
  match Routes.manualTradeSchema requestBody with
  | None => refused
  | Some request =>
      if Qle_bool (99999999995 # 1000) (Routes.amountUsd request) then refused
      else
        let n := Schema.networkName (Routes.network request) in
        let traded := TradingService.executeTrade env tradingService
                        (Routes.manualParams request) (BotScheduler.ext s) in
        exists result,
          outcome traded = Returned result
          /\ (Storage.logUpdateTaken (BotScheduler.terminal result) = true ->
              (forall botStatus,
                  Storage.getBotStatus userId n (BotScheduler.db s) = Some botStatus ->
                  Storage.statusUpdateTaken
                    (Routes.count (Routes.amountUsd request) result botStatus) = true) ->
              exists response log,
                outcome r = Returned response
                /\ Routes.status response = (if Dex.success result then 200%nat else 400%nat)
                /\ BotScheduler.ext (world r) = world traded
                /\ events r = events traded ++ [Broadcast userId "new_trade"]
                /\ BotScheduler.scheduledTasks (world r) = BotScheduler.scheduledTasks s
                /\ Storage.tradeConfigs (BotScheduler.db (world r))
                   = Storage.tradeConfigs (BotScheduler.db s)
                /\ Storage.l_tradeType log = "manual"
                /\ Storage.l_configId log = None
                /\ Storage.l_userId log = userId
                /\ Storage.l_amountUsd log = Js.toFixed (Routes.amountUsd request) 2
                /\ Storage.l_status log = (if Dex.success result then "success" else "failed")
                /\ ((forall l, In l (Storage.tradeLogs (BotScheduler.db s)) ->
                               Storage.l_id l
                               <> Storage.uuid (Storage.uuids (BotScheduler.db s))) ->
                    Storage.tradeLogs (BotScheduler.db (world r))
                    = Storage.tradeLogs (BotScheduler.db s) ++ [log]))
  end.
Proof.
  intros r refused.
  destruct (Routes.manualTradeSchema requestBody) as [request|] eqn:Hparse.
  - destruct (Qle_bool (99999999995 # 1000) (Routes.amountUsd request)) eqn:Hfits.
    + destruct (manualTrade_refused env tradingService zodMessage userId requestBody s)
        as (message & Hrun); [now rewrite Hparse|].
      subst refused r. rewrite Hrun. split; [eexists; reflexivity|]. split; reflexivity.
    + intros n traded.
      destruct (executeTrade_returns env tradingService (Routes.manualParams request)
                                     (BotScheduler.ext s)) as (result & Hout).
      exists result. split; [exact Hout|]. intros _ _.
      pose proof (manualTrade_run env tradingService zodMessage userId requestBody
                    request s result Hparse Hfits Hout) as Hrun.
      cbv zeta in Hrun. subst r n. rewrite Hrun. clear Hrun.
      set (n := Schema.networkName (Routes.network request)).
      set (created := Storage.createTradeLog _ (BotScheduler.db s)).
      set (logged := Storage.updateTradeLog _ _ (snd created)).
      exists (if negb (Dex.success result)
              then {| Routes.status := 400;
                      Routes.body := Routes.Refusal (Dex.errorMessage result)
                                                    (fst logged) |}
              else {| Routes.status := 200; Routes.body := Routes.Trade (fst logged) |}),
        (Storage.setLog (BotScheduler.terminal result) (fst created)).
      cbn [outcome world events BotScheduler.ext BotScheduler.scheduledTasks BotScheduler.db].
      split; [reflexivity|].
      split; [now destruct (Dex.success result)|].
      split; [reflexivity|]. split; [reflexivity|]. split; [reflexivity|].
      split; [now destruct (Storage.getBotStatus userId n (snd logged))|].
      repeat (split; [reflexivity|]).
      intros Hfresh.
      assert (Hlogs : forall d0 : Storage.Db,
                 Storage.tradeLogs
                   match Storage.getBotStatus userId n d0 with
                   | Some botStatus =>
                       snd (Storage.updateBotStatus userId n
                              (Routes.count (Routes.amountUsd request) result botStatus) d0)
                   | None => d0
                   end = Storage.tradeLogs d0).
      { intros d0. now destruct (Storage.getBotStatus _ _ d0). }
      rewrite Hlogs. unfold logged, Storage.updateTradeLog.
      cbn [snd Storage.tradeLogs Storage.withLogs].
      unfold created, Storage.createTradeLog.
      cbn [snd fst Storage.tradeLogs Storage.withLogs Storage.l_id Storage.setLog].
      rewrite map_app. cbn [map Storage.l_id]. rewrite eqs_refl.
      now rewrite (setLog_fresh _ _ _ Hfresh).
  - destruct (manualTrade_refused env tradingService zodMessage userId requestBody s)
      as (message & Hrun); [now rewrite Hparse|].
    subst refused r. rewrite Hrun. split; [eexists; reflexivity|]. split; reflexivity.
Qed.

(** One hundred million USD on Solana: the schema accepts the body, the
    amount column refuses the log row, and no trade is made.  Ten USD on
    Solana: the trade is made and logged, and the answer has status 200. *)
Lemma manual_trade_route_witness :
  let s := BotScheduler.system (Scenario.boot Scenario.calm) in
  let refused := Scenario.manualTrade "alice" Scenario.tooLarge s in
  let r := Scenario.manualTrade "alice" Scenario.order s in
  (is_Some (Routes.manualTradeSchema Scenario.tooLarge)
   /\ (exists message, outcome refused = Returned {| Routes.status := 400;
                                                     Routes.body := Routes.Message message |})
   /\ world refused = s
   /\ events refused = [])
  /\ exists response log,
       outcome r = Returned response
       /\ Routes.status response = 200%nat
       /\ Storage.tradeLogs (BotScheduler.db (world r)) = [log]
       /\ Storage.l_status log = "success"
       /\ Storage.l_amountUsd log = {| Js.unscaled := 1000; Js.scale := 2 |}.
Proof.
  intros s refused r. split.
  - pose proof (manual_trade_route Scenario.env Scenario.tradingService (fun _ => "invalid")
                  "alice" Scenario.tooLarge s) as H.
    cbv zeta in H.
    change (Routes.manualTradeSchema Scenario.tooLarge)
      with (Some {| Routes.contractAddress := Scenario.mint; Routes.network := Schema.SOL;
                    Routes.dexVersion := None; Routes.amountUsd := 100000000;
                    Routes.slippageTolerance := 5 |}) in H.
    cbn [Routes.amountUsd] in H.
    change (Qle_bool (99999999995 # 1000) 100000000) with true in H.
    cbv iota in H.
    split; [vm_compute; eauto|]. exact H.
  - pose proof (manual_trade_route Scenario.env Scenario.tradingService (fun _ => "invalid")
                  "alice" Scenario.order s) as H.
    cbv zeta in H.
    change (Routes.manualTradeSchema Scenario.order)
      with (Some {| Routes.contractAddress := Scenario.mint; Routes.network := Schema.SOL;
                    Routes.dexVersion := None; Routes.amountUsd := 10;
                    Routes.slippageTolerance := 5 |}) in H.
    cbn [Routes.amountUsd] in H.
    change (Qle_bool (99999999995 # 1000) 10) with false in H.
    cbv iota in H.
    destruct H as (result & Hout & H).
    assert (Hsuccess : Dex.success result = true).
    { assert (Hr : Returned (Dex.success result) = Returned true).
      { change (Returned (Dex.success result))
          with (match Returned result with
                | Returned x => Returned (Dex.success x)
                | Thrown e => Thrown e
                end).
        rewrite <- Hout. vm_compute. reflexivity. }
      now injection Hr. }
    assert (Htaken : Storage.logUpdateTaken (BotScheduler.terminal result) = true).
    { assert (Hr : Returned (Storage.logUpdateTaken (BotScheduler.terminal result))
                   = Returned true).
      { change (Returned (Storage.logUpdateTaken (BotScheduler.terminal result)))
          with (match Returned result with
                | Returned x => Returned (Storage.logUpdateTaken (BotScheduler.terminal x))
                | Thrown e => Thrown e
                end).
        rewrite <- Hout. vm_compute. reflexivity. }
      now injection Hr. }
    destruct (H Htaken) as (response & log & Hresponse & Hstatus & _ & _ & _ & _ & _ & _ & _
                            & Hamount & Hlog & Hlogs).
    { intros botStatus Hrow. vm_compute in Hrow. discriminate. }
    exists response, log. split; [exact Hresponse|].
    split; [now rewrite Hstatus, Hsuccess|].
    split; [apply Hlogs; intros l []|].
    split; [now rewrite Hlog, Hsuccess|].
    rewrite Hamount. vm_compute. reflexivity.
Defined.

Section ControlRouteFacts.
Import Storage BotScheduler.
Context {W : Type}.

Lemma getActiveConfig_Some userId n d c :
  getActiveConfig userId n d = Some c ->
  Storage.userId c = userId /\ Storage.network c = n /\ isActive c = true.
Proof.
  unfold getActiveConfig. intros Hhead.
  assert (Hin : In c (List.filter
                        (fun c => eqs (Storage.userId c) userId && eqs (Storage.network c) n
                                  && Bool.eqb (isActive c) true)
                        (tradeConfigs d))).
  { destruct (List.filter _ (tradeConfigs d)) as [|c0 cs]; [discriminate|].
    injection Hhead as ->. now left. }
  apply List.filter_In in Hin as [_ Htest].
  apply andb_true_iff in Htest as [Htest Hactive].
  apply andb_true_iff in Htest as [Hu Hn].
  apply eqs_eq in Hu, Hn. split; [exact Hu|]. split; [exact Hn|].
  now destruct (isActive c).
Qed.

(** [updateBotStatus] for a key without a row. *)
Lemma update_missing_status userId n d :
  getBotStatus userId n d = None ->
  forall updates,
    fst (updateBotStatus userId n updates d) = None
    /\ snd (updateBotStatus userId n updates d) = d.
Proof.
  intros Hnone updates. apply head_filter_None in Hnone.
  unfold updateBotStatus. cbv zeta. cbn [fst snd].
  rewrite (map_untouched (isKey userId n) _ _ Hnone), Hnone.
  unfold withStatus. now rewrite db_eta.
Qed.

Lemma route_stopBot_run userId n (s : System W) :
  Js.truthy n = true ->
  Routes.stopBot userId (Some n) s
  = MkRun (Returned {| Routes.status := 200;
                       Routes.body := Routes.Message ("Bot stopped successfully on " ++ n) |})
          {| scheduledTasks := delete (getBotKey userId n) (scheduledTasks s);
             broadcaster := broadcaster s;
             db := snd (updateBotStatus userId n {|
                          s_isRunning := Some false;
                          s_activeConfigId := None;
                          s_lastTradeAt := None;
                          s_nextTradeAt := Some None;
                          s_totalTradesCount := None;
                          s_successfulTradesCount := None;
                          s_failedTradesCount := None;
                          s_totalVolumeUsd := None
                        |} (db s));
             ext := ext s |}
          [Broadcast userId "bot_status"].
Proof.
  intros Htruthy. unfold Routes.stopBot. rewrite Htruthy.
  eapply eq_trans.
  { eapply tryCatch_run.
    eapply bind_run; [apply stopBot_run|].
    eapply bind_run; [reflexivity|].
    eapply bind_run; [reflexivity|].
    reflexivity. }
  reflexivity.
Qed.

End ControlRouteFacts.

(** X23. [POST /api/bot/stop] without a network is answered with status 400
    and changes nothing.  With a network it is answered with status 200, also
    when no bot was running: the task of the user on the network is gone and
    the tasks of other keys are as they were; where the key has a status row,
    the row then says that the bot is not running and has no next trade, and
    keeps its counters, volume and config; where it has none, the journal is
    not changed. *)
Theorem bot_stop_route {W} userId (network : option string) (s : BotScheduler.System W) :
  let r := Routes.stopBot userId network s in
  match network with
  | Some n =>
      if Js.truthy n then
        outcome r = Returned {| Routes.status := 200;
                                Routes.body := Routes.Message
                                                 ("Bot stopped successfully on " ++ n) |}
        /\ events r = [Broadcast userId "bot_status"]
        /\ BotScheduler.isRunning userId n (world r) = false
        /\ (forall key, key <> BotScheduler.getBotKey userId n ->
                        BotScheduler.scheduledTasks (world r) !! key
                        = BotScheduler.scheduledTasks s !! key)
        /\ match Storage.getBotStatus userId n (BotScheduler.db s) with
           | Some before =>
               exists after,
                 Storage.getBotStatus userId n (BotScheduler.db (world r)) = Some after
                 /\ Storage.b_isRunning after = false
                 /\ Storage.b_nextTradeAt after = None
                 /\ Storage.b_activeConfigId after = Storage.b_activeConfigId before
                 /\ Storage.b_totalTradesCount after = Storage.b_totalTradesCount before
                 /\ Storage.b_successfulTradesCount after
                    = Storage.b_successfulTradesCount before
                 /\ Storage.b_failedTradesCount after = Storage.b_failedTradesCount before
                 /\ Storage.b_totalVolumeUsd after = Storage.b_totalVolumeUsd before
           | None => BotScheduler.db (world r) = BotScheduler.db s
           end
      else
        outcome r = Returned {| Routes.status := 400;
                                Routes.body := Routes.Message "Network is required" |}
        /\ events r = [] /\ world r = s
  | None =>
      outcome r = Returned {| Routes.status := 400;
                              Routes.body := Routes.Message "Network is required" |}
      /\ events r = [] /\ world r = s
  end.
Proof.
  intros r. destruct network as [n|]; [|repeat split].
  destruct (Js.truthy n) eqn:Htruthy.
  - subst r. rewrite (route_stopBot_run userId n s Htruthy).
    cbn [outcome world events BotScheduler.scheduledTasks BotScheduler.db].
    split; [reflexivity|]. split; [reflexivity|]. split; [|split].
    + unfold BotScheduler.isRunning. cbn [BotScheduler.scheduledTasks].
      rewrite lookup_delete_eq. apply bool_decide_eq_false_2. intros [? H]. discriminate.
    + intros key Hkey. apply lookup_delete_ne. congruence.
    + destruct (Storage.getBotStatus userId n (BotScheduler.db s)) as [before|] eqn:Hbefore.
      * eexists. split; [exact (updateBotStatus_get _ _ _ _ _ Hbefore)|].
        cbn. repeat split.
      * apply (update_missing_status userId n (BotScheduler.db s) Hbefore).
  - subst r. unfold Routes.stopBot. rewrite Htruthy. repeat split.
Qed.

Section StartRouteFacts.
Import Storage BotScheduler.
Context {W : Type}.

Lemma startBot_invalid_run userId config (s : System W) :
  intervalMap (tradeInterval config) = None ->
  Js.inherited (tradeInterval config) = false ->
  startBot userId config s
  = MkRun (Thrown {| Js.name := "Error";
                     Js.message := "Invalid trade interval: " ++ tradeInterval config |})
          {| scheduledTasks := delete (getBotKey userId (network config)) (scheduledTasks s);
             broadcaster := broadcaster s; db := db s; ext := ext s |} [].
Proof.
  intros Hnone Hown. unfold startBot. rewrite Hnone, Hown. unfold bind.
  now rewrite stopBot_run.
Qed.

(** [startBot] touches the task of no other key, however it ends. *)
Lemma startBot_other_keys userId config (s : System W) key :
  key <> getBotKey userId (network config) ->
  scheduledTasks (world (startBot userId config s)) !! key = scheduledTasks s !! key.
Proof.
  intros Hkey.
  destruct (intervalMap (tradeInterval config)) as [cron|] eqn:Hcron.
  - rewrite (startBot_run userId config cron s Hcron). cbn [world scheduledTasks].
    rewrite lookup_insert_ne by congruence. apply lookup_delete_ne. congruence.
  - unfold startBot. rewrite Hcron. unfold bind. rewrite stopBot_run.
    cbn [outcome world events].
    destruct (Js.inherited (tradeInterval config)); cbn [world throw scheduledTasks];
      apply lookup_delete_ne; congruence.
Qed.

Lemma invalid_interval_message fallback interval :
  Routes.messageOr fallback {| Js.name := "Error";
                               Js.message := "Invalid trade interval: " ++ interval |}
  = ("Invalid trade interval: " ++ interval)%string.
Proof. reflexivity. Qed.

Lemma upsert_keeps_configs userId n updates d :
  tradeConfigs (snd (upsertBotStatus userId n updates d)) = tradeConfigs d.
Proof.
  unfold upsertBotStatus. destruct (getBotStatus userId n d); reflexivity.
Qed.

(** The route once it has found the active config: the start of the bot,
    and then the answer. *)
Lemma route_startBot_run userId n c (s : System W) :
  Js.truthy n = true ->
  getActiveConfig userId n (db s) = Some c ->
  let started := startBot userId c s in
  Routes.startBot userId (Some n) s
  = match outcome started with
    | Returned _ =>
        MkRun (Returned {| Routes.status := 200;
                           Routes.body := Routes.Message
                                            ("Bot started successfully on " ++ n) |})
              (world started) (events started ++ [Broadcast userId "bot_status"])
    | Thrown error =>
        MkRun (Returned {| Routes.status := 500;
                           Routes.body := Routes.Message
                                            (Routes.messageOr "Failed to start bot" error) |})
              (world started) (events started)
    end.
Proof.
  intros Htruthy Hconfig started. unfold Routes.startBot. rewrite Htruthy.
  destruct (outcome started) as [[]|error] eqn:Hstarted.
  - eapply eq_trans.
    { eapply tryCatch_run.
      eapply bind_run; [reflexivity|]. rewrite Hconfig.
      eapply bind_run; [rewrite <- Hstarted; symmetry; apply run_eta|].
      eapply bind_run; [reflexivity|]. reflexivity. }
    cbn [app]. reflexivity.
  - erewrite tryCatch_thrown.
    2:{ erewrite bind_returned by reflexivity.
        cbn [outcome world events BotScheduler.readDb]. rewrite Hconfig.
        erewrite bind_thrown by exact Hstarted. reflexivity. }
    erewrite bind_returned by reflexivity.
    cbn [outcome world events BotScheduler.readDb]. rewrite Hconfig.
    erewrite bind_thrown by exact Hstarted.
    cbn [outcome world events ret app]. now rewrite app_nil_r.
Qed.

End StartRouteFacts.

(** X24. [POST /api/bot/start] never changes the task of another key.
    Without a network, or for a network on which the user has no active
    config, it is answered with status 400 and changes nothing.  With an active
    config whose interval is one of the five it is answered with status 200,
    the task of the user on the network holds that config, the configs are as
    they were, and the clients of the user are told.  With an active config
    whose interval is neither one of the five nor a property name that
    [intervalMap] inherits, it is answered with status 500 and the message
    "Invalid trade interval: ...", nobody is told, and a bot that was running
    on the network is gone while the journal is as it was.  The handler is
    followed from its start to its end, with no other request or tick in
    between. *)
Theorem bot_start_route {W} userId (network : option string) (s : BotScheduler.System W) :
  let r := Routes.startBot userId network s in
  let refused message :=
    outcome r = Returned {| Routes.status := 400; Routes.body := Routes.Message message |}
    /\ events r = [] /\ world r = s in
  match network with
  | Some n =>
      if Js.truthy n then
        (forall key, key <> BotScheduler.getBotKey userId n ->
                     BotScheduler.scheduledTasks (world r) !! key
                     = BotScheduler.scheduledTasks s !! key)
        /\ match Storage.getActiveConfig userId n (BotScheduler.db s) with
           | None =>
               refused ("No active configuration found for " ++ n
                        ++ ". Please create a trading configuration first.")%string
           | Some activeConfig =>
               match BotScheduler.intervalMap (Storage.tradeInterval activeConfig) with
               | Some cron =>
                   outcome r = Returned {| Routes.status := 200;
                                           Routes.body := Routes.Message
                                             ("Bot started successfully on " ++ n) |}
                   /\ events r = [Broadcast userId "bot_status"]
                   /\ BotScheduler.scheduledTasks (world r) !! BotScheduler.getBotKey userId n
                      = Some {| BotScheduler.cronExpression := cron;
                                BotScheduler.t_userId := userId;
                                BotScheduler.t_config := activeConfig |}
                   /\ Storage.tradeConfigs (BotScheduler.db (world r))
                      = Storage.tradeConfigs (BotScheduler.db s)
               | None =>
                   Js.inherited (Storage.tradeInterval activeConfig) = false ->
                   outcome r = Returned {| Routes.status := 500;
                                           Routes.body := Routes.Message
                                             ("Invalid trade interval: "
                                              ++ Storage.tradeInterval activeConfig) |}
                   /\ events r = []
                   /\ BotScheduler.isRunning userId n (world r) = false
                   /\ BotScheduler.db (world r) = BotScheduler.db s
               end
           end
      else refused "Network is required"
  | None => refused "Network is required"
  end.
Proof.
  intros r refused. destruct network as [n|]; [|repeat split].
  destruct (Js.truthy n) eqn:Htruthy;
    [|subst r refused; unfold Routes.startBot; rewrite Htruthy; repeat split].
  destruct (Storage.getActiveConfig userId n (BotScheduler.db s)) as [c|] eqn:Hconfig.
  - destruct (getActiveConfig_Some _ _ _ _ Hconfig) as (_ & Hnet & _).
    pose proof (route_startBot_run userId n c s Htruthy Hconfig) as Hrun.
    cbv zeta in Hrun. fold r in Hrun.
    assert (Hworld : world r = world (BotScheduler.startBot userId c s))
      by (rewrite Hrun; now destruct (outcome (BotScheduler.startBot userId c s))).
    split.
    { intros key Hkey. rewrite Hworld. apply startBot_other_keys. congruence. }
    destruct (BotScheduler.intervalMap (Storage.tradeInterval c)) as [cron|] eqn:Hcron.
    + rewrite Hrun, (startBot_run userId c cron s Hcron), Hnet.
      cbn [outcome world events BotScheduler.scheduledTasks BotScheduler.db app].
      split; [reflexivity|]. split; [reflexivity|]. split.
      * apply lookup_insert_eq.
      * apply upsert_keeps_configs.
    + intros Hown.
      rewrite Hrun, (startBot_invalid_run userId c s Hcron Hown), Hnet.
      cbn [outcome world events BotScheduler.scheduledTasks BotScheduler.db].
      rewrite invalid_interval_message.
      split; [reflexivity|]. split; [reflexivity|]. split; [|reflexivity].
      unfold BotScheduler.isRunning. cbn [BotScheduler.scheduledTasks].
      rewrite lookup_delete_eq. apply bool_decide_eq_false_2. intros [? H]. discriminate.
  - assert (Hrun : r = MkRun (Returned {| Routes.status := 400;
                                         Routes.body := Routes.Message
                                           ("No active configuration found for " ++ n
                                            ++ ". Please create a trading configuration first.") |})
                             s []).
    { subst r. unfold Routes.startBot. rewrite Htruthy.
      eapply eq_trans.
      { eapply tryCatch_run. eapply bind_run; [reflexivity|]. rewrite Hconfig. reflexivity. }
      reflexivity. }
    subst refused. cbv beta. rewrite Hrun. repeat split.
Qed.

(** The active config of alice on BASE has the interval "2min": the start
    is answered with status 500, and no bot runs. *)
Lemma bot_start_route_witness :
  let s := Scenario.odd in
  let r := Routes.startBot "alice" (Some "BASE") s in
  (exists config, Storage.getActiveConfig "alice" "BASE" (BotScheduler.db s) = Some config
                  /\ Storage.tradeInterval config = "2min")
  /\ outcome r = Returned {| Routes.status := 500;
                             Routes.body := Routes.Message "Invalid trade interval: 2min" |}
  /\ BotScheduler.isRunning "alice" "BASE" (world r) = false.
Proof.
  intros s r.
  pose proof (bot_start_route "alice" (Some "BASE") s) as H.
  cbv zeta in H. fold r in H.
  change (Js.truthy "BASE") with true in H. cbv iota in H.
  destruct H as [_ H].
  destruct (Storage.getActiveConfig "alice" "BASE" (BotScheduler.db s)) as [config|] eqn:Hconfig;
    [|vm_compute in Hconfig; discriminate].
  assert (Hinterval : Storage.tradeInterval config = "2min").
  { assert (Hc : Some (Storage.tradeInterval config) = Some "2min").
    { change (Some (Storage.tradeInterval config))
        with (option_map Storage.tradeInterval (Some config)).
      rewrite <- Hconfig. vm_compute. reflexivity. }
    now injection Hc. }
  rewrite Hinterval in H.
  change (BotScheduler.intervalMap "2min") with (@None string) in H.
  cbv iota in H. destruct (H eq_refl) as (Hout & _ & Hstopped & _).
  split; [exists config; split; [reflexivity | exact Hinterval]|].
  split; [exact Hout | exact Hstopped].
Defined.

Section ConfigRouteFacts.
Import Storage BotScheduler.
Context {W : Type}.

(** What the route does to a running bot once the config is stored. *)
Lemma restart_run userId config (s : System W) (run : Run (System W) unit) :
  let botKey := getBotKey userId (network config) in
  run = (if isRunning userId (network config) s then
           bind (stopBot userId (network config))
                (fun _ => if isActive config then startBot userId config else ret tt)
         else ret tt) s ->
  (forall key, key <> botKey ->
               scheduledTasks (world run) !! key = scheduledTasks s !! key)
  /\ tradeConfigs (db (world run)) = tradeConfigs (db s)
  /\ if isRunning userId (network config) s then
       if isActive config then
         match intervalMap (tradeInterval config) with
         | Some cron =>
             outcome run = Returned tt
             /\ events run = []
             /\ scheduledTasks (world run) !! botKey
                = Some {| cronExpression := cron; t_userId := userId; t_config := config |}
         | None =>
             Js.inherited (tradeInterval config) = false ->
             outcome run
             = Thrown {| Js.name := "Error";
                         Js.message := "Invalid trade interval: " ++ tradeInterval config |}
             /\ events run = []
             /\ scheduledTasks (world run) !! botKey = None
         end
       else outcome run = Returned tt /\ events run = []
            /\ scheduledTasks (world run) !! botKey = None
     else outcome run = Returned tt /\ events run = [] /\ world run = s.
Proof.
  intros botKey ->.
  destruct (isRunning userId (network config) s) eqn:Hrunning; [|repeat split].
  destruct (isActive config).
  - assert (Hstarted : bind (stopBot userId (network config))
                            (fun _ => startBot userId config) s
                       = startBot userId config
                           {| scheduledTasks := delete botKey (scheduledTasks s);
                              broadcaster := broadcaster s; db := db s; ext := ext s |}).
    { erewrite bind_returned by (rewrite stopBot_run; reflexivity).
      rewrite stopBot_run. cbn [world events app]. apply run_eta. }
    rewrite Hstarted.
    split; [|split].
    + intros key Hkey. rewrite startBot_other_keys by exact Hkey.
      cbn [scheduledTasks]. apply lookup_delete_ne. congruence.
    + destruct (intervalMap (tradeInterval config)) as [cron|] eqn:Hcron.
      * rewrite (startBot_run userId config cron _ Hcron). cbn [world db].
        apply upsert_keeps_configs.
      * unfold startBot. rewrite Hcron. unfold bind. rewrite stopBot_run.
        cbn [outcome world events].
        now destruct (Js.inherited (tradeInterval config)).
    + destruct (intervalMap (tradeInterval config)) as [cron|] eqn:Hcron.
      * rewrite (startBot_run userId config cron _ Hcron).
        cbn [outcome world events scheduledTasks]. fold botKey.
        split; [reflexivity|]. split; [reflexivity|]. apply lookup_insert_eq.
      * intros Hown. rewrite (startBot_invalid_run userId config _ Hcron Hown).
        cbn [outcome world events scheduledTasks]. fold botKey.
        split; [reflexivity|]. split; [reflexivity|].
        rewrite lookup_delete_eq. reflexivity.
  - erewrite (bind_run (stopBot userId (network config)) (fun _ => ret tt));
      [|apply stopBot_run|reflexivity].
    cbn [outcome world events scheduledTasks db app]. fold botKey.
    split; [|split; [reflexivity|split; [reflexivity|split; [reflexivity|]]]].
    + intros key Hkey. now rewrite lookup_delete_ne by congruence.
    + apply lookup_delete_eq.
Qed.

(** The route from the result of the insert on. *)
Lemma route_createConfig_run userId X (s : System W) :
  let created := createConfig (Routes.withUser userId X) (db s) in
  let s1 := {| scheduledTasks := scheduledTasks s; broadcaster := broadcaster s;
               db := snd created; ext := ext s |} in
  Routes.createConfig userId (Returned X) s
  = match fst created with
    | Returned config =>
        let restart :=
          (if isRunning userId (network config) s1 then
             bind (stopBot userId (network config))
                  (fun _ => if isActive config then startBot userId config else ret tt)
           else ret tt) s1 in
        match outcome restart with
        | Returned _ =>
            MkRun (Returned {| Routes.status := 200; Routes.body := Routes.Config config |})
                  (world restart) (events restart)
        | Thrown error =>
            MkRun (Returned {| Routes.status := 400;
                               Routes.body := Routes.Message
                                 (Routes.messageOr "Failed to create configuration" error) |})
                  (world restart) (events restart)
        end
    | Thrown error =>
        MkRun (Returned {| Routes.status := 400;
                           Routes.body := Routes.Message
                             (Routes.messageOr "Failed to create configuration" error) |})
              s1 []
    end.
Proof.
  intros created s1. unfold Routes.createConfig.
  destruct (fst created) as [config|error] eqn:Hcreated.
  - cbv zeta.
    set (restart := (if isRunning userId (network config) s1 then
                       bind (stopBot userId (network config))
                            (fun _ => if isActive config then startBot userId config
                                      else ret tt)
                     else ret tt) s1).
    assert (Hinsert : Routes.onDbTry (createConfig (Routes.withUser userId X)) s
                      = MkRun (Returned config) s1 []).
    { unfold Routes.onDbTry. fold created. now rewrite Hcreated. }
    destruct (outcome restart) as [[]|error] eqn:Hrestart.
    + eapply eq_trans.
      { eapply tryCatch_run. eapply bind_run; [reflexivity|].
        eapply bind_run; [exact Hinsert|].
        eapply bind_run; [|reflexivity].
        rewrite <- Hrestart. symmetry. apply run_eta. }
      now rewrite app_nil_r.
    + erewrite tryCatch_thrown.
      2:{ erewrite bind_returned by reflexivity.
          erewrite bind_returned by (cbn [lift world]; rewrite Hinsert; reflexivity).
          cbn [lift world events]. rewrite Hinsert. cbn [world events].
          erewrite bind_thrown by exact Hrestart. reflexivity. }
      erewrite bind_returned by reflexivity.
      erewrite bind_returned by (cbn [lift world]; rewrite Hinsert; reflexivity).
      cbn [lift world events]. rewrite Hinsert. cbn [world events].
      erewrite bind_thrown by exact Hrestart.
      cbn [outcome world events ret app]. now rewrite app_nil_r.
  - assert (Hinsert : Routes.onDbTry (createConfig (Routes.withUser userId X)) s
                      = MkRun (Thrown error) s1 []).
    { unfold Routes.onDbTry. fold created. now rewrite Hcreated. }
    erewrite tryCatch_thrown.
    2:{ erewrite bind_returned by reflexivity.
        erewrite bind_thrown by (cbn [lift world]; rewrite Hinsert; reflexivity).
        reflexivity. }
    erewrite bind_returned by reflexivity.
    erewrite bind_thrown by (cbn [lift world]; rewrite Hinsert; reflexivity).
    cbn [lift world events]. rewrite Hinsert. reflexivity.
Qed.

End ConfigRouteFacts.

(** X25. [POST /api/configs].  A body that the schema refuses is answered
    with status 400 and changes nothing.  For a body that it accepts the
    journal does what [createConfig] does with it.  When the insert is
    refused (a value that does not fit its column), the answer has status
    400, the configs of the user on the network have been deactivated all the
    same, and the scheduler is not touched: a bot that runs keeps running with
    the config it has.  When the insert is accepted, the task of no other key
    is touched and the configs are as [createConfig] left them.  Where no bot
    of the user runs on the network of the config, the scheduler is left alone
    and the answer is the config.  Where one runs, it is restarted with the new
    config if that is active and its interval is one of the five, and stopped
    if the config is not active, the answer being the config in both cases; if
    the config is active and its interval is neither one of the five nor a
    property name that [intervalMap] inherits, the bot is stopped and the
    answer is status 400 with "Invalid trade interval: ...", although the
    config has been stored.  The handler is followed from its start to its
    end, with no other request or tick in between. *)
Theorem config_route {W} userId (parsed : Outcome Storage.InsertTradeConfig)
        (s : BotScheduler.System W) :
  let r := Routes.createConfig userId parsed s in
  match parsed with
  | Thrown error =>
      outcome r = Returned {| Routes.status := 400;
                              Routes.body := Routes.Message
                                (Routes.messageOr "Failed to create configuration" error) |}
      /\ events r = [] /\ world r = s
  | Returned validatedData =>
      let created := Storage.createConfig (Routes.withUser userId validatedData)
                                          (BotScheduler.db s) in
      Storage.tradeConfigs (BotScheduler.db (world r)) = Storage.tradeConfigs (snd created)
      /\ match fst created with
         | Thrown error =>
             outcome r = Returned {| Routes.status := 400;
                                     Routes.body := Routes.Message
                                       (Routes.messageOr "Failed to create configuration"
                                                         error) |}
             /\ events r = []
             /\ BotScheduler.scheduledTasks (world r) = BotScheduler.scheduledTasks s
             /\ BotScheduler.db (world r) = snd created
         | Returned config =>
             let botKey := BotScheduler.getBotKey userId (Storage.network config) in
             let task := BotScheduler.scheduledTasks (world r) !! botKey in
             let answered := outcome r = Returned {| Routes.status := 200;
                                                     Routes.body := Routes.Config config |} in
             Storage.userId config = userId
             /\ (forall key, key <> botKey ->
                             BotScheduler.scheduledTasks (world r) !! key
                             = BotScheduler.scheduledTasks s !! key)
             /\ if BotScheduler.isRunning userId (Storage.network config) s then
                  if Storage.isActive config then
                    match BotScheduler.intervalMap (Storage.tradeInterval config) with
                    | Some cron =>
                        answered
                        /\ events r = []
                        /\ task = Some {| BotScheduler.cronExpression := cron;
                                          BotScheduler.t_userId := userId;
                                          BotScheduler.t_config := config |}
                    | None =>
                        Js.inherited (Storage.tradeInterval config) = false ->
                        outcome r = Returned {| Routes.status := 400;
                                                Routes.body := Routes.Message
                                                  ("Invalid trade interval: "
                                                   ++ Storage.tradeInterval config) |}
                        /\ events r = []
                        /\ task = None
                    end
                  else answered /\ events r = [] /\ task = None
                else answered /\ events r = []
                     /\ BotScheduler.scheduledTasks (world r) = BotScheduler.scheduledTasks s
         end
  end.
Proof.
  intros r. destruct parsed as [X|error]; [|repeat split].
  intros created.
  pose proof (route_createConfig_run userId X s) as Hrun. cbv zeta in Hrun.
  fold created r in Hrun.
  set (s1 := {| BotScheduler.scheduledTasks := BotScheduler.scheduledTasks s;
                BotScheduler.broadcaster := BotScheduler.broadcaster s;
                BotScheduler.db := snd created;
                BotScheduler.ext := BotScheduler.ext s |}) in Hrun.
  assert (Huser : forall config, fst created = Returned config ->
                                 Storage.userId config = userId).
  { intros config. unfold created, Storage.createConfig. cbn [Routes.withUser Storage.i_userId].
    destruct (Storage.storedConfig _); cbn [fst]; [|discriminate].
    now intros [= <-]. }
  destruct (fst created) as [config|error] eqn:Hcreated.
  - set (restart := (if BotScheduler.isRunning userId (Storage.network config) s1 then
                       bind (BotScheduler.stopBot userId (Storage.network config))
                            (fun _ => if Storage.isActive config
                                      then BotScheduler.startBot userId config else ret tt)
                     else ret tt) s1) in Hrun.
    destruct (restart_run userId config s1 restart eq_refl) as (Hothers & Hconfigs & Hcases).
    assert (Hworld : world r = world restart)
      by (rewrite Hrun; destruct (outcome restart); reflexivity).
    assert (Hevents : events r = events restart)
      by (rewrite Hrun; destruct (outcome restart); reflexivity).
    split; [rewrite Hworld; exact Hconfigs|].
    cbv zeta. split; [now apply Huser|].
    split; [intros key Hkey; rewrite Hworld; now apply Hothers|].
    rewrite Hworld, Hevents.
    change (BotScheduler.isRunning userId (Storage.network config) s1)
      with (BotScheduler.isRunning userId (Storage.network config) s) in Hcases.
    destruct (BotScheduler.isRunning userId (Storage.network config) s).
    + destruct (Storage.isActive config).
      * destruct (BotScheduler.intervalMap (Storage.tradeInterval config)) as [cron|].
        -- destruct Hcases as (Hout & Hquiet & Htask).
           split; [rewrite Hrun, Hout; reflexivity|]. split; assumption.
        -- intros Hown. destruct (Hcases Hown) as (Hout & Hquiet & Htask).
           split; [|split; assumption].
           rewrite Hrun, Hout. cbn [outcome]. now rewrite invalid_interval_message.
      * destruct Hcases as (Hout & Hquiet & Htask).
        split; [rewrite Hrun, Hout; reflexivity|]. split; assumption.
    + destruct Hcases as (Hout & Hquiet & Hsame).
      split; [rewrite Hrun, Hout; reflexivity|]. split; [assumption|].
      now rewrite Hsame.
  - rewrite Hrun. cbn [outcome world events BotScheduler.db BotScheduler.scheduledTasks].
    repeat split.
Qed.

(** The bot of alice runs on BASE and she posts a config with the slippage
    tolerance 10.00 for BASE: the answer has status 400, her active config has
    been deactivated, and the bot keeps running with it. *)
Lemma config_route_witness :
  let s := BotScheduler.system
             (Scenario.run [BotScheduler.Start "alice" Scenario.bot]
                {| BotScheduler.system := {|
                     BotScheduler.scheduledTasks := ∅;
                     BotScheduler.broadcaster := true;
                     BotScheduler.db :=
                       snd (Storage.createConfig (Scenario.request "BASE" true)
                                                 Storage.emptyDb);
                     BotScheduler.ext := Scenario.calm
                   |};
                   BotScheduler.running := [];
                   BotScheduler.resumed := [];
                   BotScheduler.trace := [] |}) in
  let r := Routes.createConfig "alice" (Returned (Scenario.steepOn "BASE")) s in
  (exists message, outcome r = Returned {| Routes.status := 400;
                                          Routes.body := Routes.Message message |})
  /\ is_Some (Storage.getActiveConfig "alice" "BASE" (BotScheduler.db s))
  /\ Storage.getActiveConfig "alice" "BASE" (BotScheduler.db (world r)) = None
  /\ BotScheduler.isRunning "alice" "BASE" (world r) = true.
Proof.
  intros s r.
  pose proof (config_route "alice" (Returned (Scenario.steepOn "BASE")) s) as H.
  cbv zeta in H. fold r in H. destruct H as [_ H].
  assert (Hcreated : fst (Storage.createConfig
                            (Routes.withUser "alice" (Scenario.steepOn "BASE"))
                            (BotScheduler.db s))
                     = Thrown Storage.numericOverflow) by (vm_compute; reflexivity).
  rewrite Hcreated in H. destruct H as (Hout & _ & Htasks & Hdb).
  split; [eexists; exact Hout|]. split; [vm_compute; eauto|]. split.
  - rewrite Hdb. vm_compute. reflexivity.
  - unfold BotScheduler.isRunning. rewrite Htasks. vm_compute. reflexivity.
Defined.

